(** * KMGI radio automation: rotation rules engine and rotation auditor

    A shallow embedding of [src/rules/rules_engine.py],
    [src/database/db.py] (the eligibility query) and
    [src/audit/rotation_audit.py], with the properties of the rotation
    scheduling specification stated and proved over it.

    Conventions of the embedding.
    - A [datetime] is the number of microseconds since 1970-01-01T00:00:00
      (naive UTC), a [Z]; a [timedelta] is a difference of two of them.
    - Every call of [datetime.utcnow()] is a reading of the world's clock:
      the code runs in a state monad over [World], which also holds the
      tables of the SQLite database and the outcome of [random.shuffle].
    - A YAML mapping is a record whose optional keys are [option] fields,
      [None] standing for an absent key; [d.get(k, default)] is
      [default_to].
    - Python floats are IEEE binary64 numbers: Rocq's primitive floats. *)

From Stdlib Require Import ZArith List String Ascii Bool Lia.
From Stdlib Require Import DecimalString Floats Uint63 Permutation Sorted.
Import ListNotations.

Local Open Scope string_scope.
Local Open Scope Z_scope.
Local Open Scope list_scope.

(* ================================================================== *)
(** ** Python built-ins used by the code *)
(* ================================================================== *)

Module Py.

(** [d.get(k, default)] on an optional key. *)
Definition default_to {A : Type} (d : A) (o : option A) : A :=
  match o with Some a => a | None => d end.

(** [str(n)] for an [int]. *)
Definition str (n : Z) : string := NilZero.string_of_int (Z.to_int n).

(** An f-string: the concatenation of its pieces. *)
Definition fstr (pieces : list string) : string := String.concat "" pieces.

(** [str(l)] for a list of [int]s: [[0, 1, 2]]. *)
Definition str_list (l : list Z) : string :=
  fstr ["["; String.concat ", " (map str l); "]"].

(** [str(o)] for an optional string: the string itself, or [None]. *)
Definition str_opt (o : option string) : string := default_to "None" o.

(** [len(l)] as an integer. *)
Definition len {A : Type} (l : list A) : Z := Z.of_nat (List.length l).

(** [l[a:]]: a negative [a] counts from the end; both clip to the list. *)
Definition slice_from {A : Type} (a : Z) (l : list A) : list A :=
  let start := if a <? 0 then Z.max (len l + a) 0 else Z.min a (len l) in
  skipn (Z.to_nat start) l.

(** [l[:b]]: a negative [b] counts from the end; both clip to the list. *)
Definition slice_to {A : Type} (b : Z) (l : list A) : list A :=
  let stop := if b <? 0 then Z.max (len l + b) 0 else Z.min b (len l) in
  firstn (Z.to_nat stop) l.

(** [l[a:b]] for [0 <= a]: the elements at positions [a], ..., [b-1]. *)
Definition slice {A : Type} (a b : nat) (l : list A) : list A :=
  firstn (b - a) (skipn a l).

(** [enumerate(l, start)]. *)
Fixpoint enumerate {A : Type} (start : nat) (l : list A) : list (nat * A) :=
  match l with
  | [] => []
  | x :: rest => (start, x) :: enumerate (S start) rest
  end.

(** [range(n)]. *)
Definition range (n : nat) : list Z := map Z.of_nat (seq 0 n).

(** [x in l] for integers and for strings. *)
Definition mem_Z (x : Z) (l : list Z) : bool := existsb (Z.eqb x) l.
Definition mem_str (x : string) (l : list string) : bool :=
  existsb (String.eqb x) l.

(** Equality of two optional strings ([None == None] holds). *)
Definition opt_str_eqb (a b : option string) : bool :=
  match a, b with
  | Some x, Some y => String.eqb x y
  | None, None => true
  | _, _ => false
  end.

(** Truth value of an optional string: [None] and [""] are false. *)
Definition truthy (o : option string) : bool :=
  match o with
  | Some s => negb (String.eqb s "")
  | None => false
  end.

(** [s.lower()], on the ASCII letters. *)
Definition lower_ascii (c : ascii) : ascii :=
  let n := nat_of_ascii c in
  if (andb (Nat.leb 65 n) (Nat.leb n 90)) then ascii_of_nat (n + 32) else c.

Fixpoint lower (s : string) : string :=
  match s with
  | EmptyString => EmptyString
  | String c rest => String (lower_ascii c) (lower rest)
  end.

(** [sorted(l, key=key)]: a stable sort, here by insertion from the
    right, so that equal keys keep the order they have in [l]. *)
Fixpoint insert_by {A : Type} (key : A -> Z) (x : A) (l : list A) : list A :=
  match l with
  | [] => [x]
  | y :: rest =>
      if key x <=? key y then x :: y :: rest else y :: insert_by key x rest
  end.

Fixpoint sorted {A : Type} (key : A -> Z) (l : list A) : list A :=
  match l with
  | [] => []
  | x :: rest => insert_by key x (sorted key rest)
  end.

(** [sorted(l, key=key, reverse=True)]: descending and still stable. *)
Definition sorted_desc {A : Type} (key : A -> Z) (l : list A) : list A :=
  sorted (fun x => - key x) l.

(** [int(x)] of a quotient [a / b] of integers: truncation to zero. *)
Definition int_div (a b : Z) : Z := Z.quot a b.

(** [float(n)] for an integer below [2^63] in absolute value. *)
Definition float_of (n : Z) : float :=
  if n <? 0 then PrimFloat.opp (PrimFloat.of_uint63 (Uint63.of_Z (- n)))
  else PrimFloat.of_uint63 (Uint63.of_Z n).

(** [a / b] for two integers, [b] not zero. *)
Definition true_div (a b : Z) : float :=
  PrimFloat.div (float_of a) (float_of b).

(** The integer nearest to [n / d], ties to the even one ([0 < d]). *)
Definition round_half_even (n d : Z) : Z :=
  let q := n / d in
  let r := n mod d in
  if 2 * r <? d then q
  else if d <? 2 * r then q + 1
  else if Z.even q then q else q + 1.

(** [round(x, 1)]: the float nearest to the one-decimal number nearest
    to [x]. Zeros, infinities and NaN round to themselves, and so does
    a float too large to have a fractional part. *)
Definition round1 (x : float) : float :=
  match Prim2SF x with
  | S754_finite s m e =>
      if 0 <=? e then x
      else
        let q := round_half_even (Z.pos m * 10) (2 ^ (- e)) in
        if 2 ^ 53 <=? q then x
        else
          let r := PrimFloat.div (float_of q) (float_of 10) in
          if s then PrimFloat.opp r else r
  | _ => x
  end.

(** [x or 0] for an optional float. *)
Definition float_or_0 (o : option float) : float :=
  match o with
  | Some x => if PrimFloat.eqb x PrimFloat.zero then PrimFloat.zero else x
  | None => PrimFloat.zero
  end.

(** [s or d] for an optional string. *)
Definition str_or (d : string) (o : option string) : string :=
  match o with
  | Some s => if String.eqb s "" then d else s
  | None => d
  end.

End Py.

(* ================================================================== *)
(** ** Dates and times *)
(* ================================================================== *)

Module Datetime.

Definition t := Z.

Definition us_per_second : Z := 1000000.
Definition us_per_minute : Z := 60 * us_per_second.
Definition us_per_hour : Z := 60 * us_per_minute.
Definition us_per_day : Z := 24 * us_per_hour.

(** [timedelta(minutes=m)], [timedelta(days=d)]. *)
Definition minutes (m : Z) : Z := m * us_per_minute.
Definition days (d : Z) : Z := d * us_per_day.

(** [d.hour]. *)
Definition hour (d : t) : Z := (d / us_per_hour) mod 24.

(** [d.weekday()]: Monday is 0; 1970-01-01 was a Thursday. *)
Definition weekday (d : t) : Z := (d / us_per_day + 3) mod 7.

(** [(a - b).total_seconds() / 60 < m] for an integer [m]: the elapsed
    time is a whole number of microseconds, so the comparison is the
    comparison of that number with [m] minutes. The code divides in
    floating point; the quotient of a time that is a microsecond short
    of [m] minutes stays below [m] for any [m] under 285 years. *)
Definition minutes_since_lt (a b : t) (m : Z) : bool :=
  a - b <? minutes m.

(** [int((a - b).total_seconds() / 60)]. *)
Definition int_minutes_since (a b : t) : Z :=
  Py.int_div (a - b) us_per_minute.

(** [datetime.min] and [datetime.max]: 0001-01-01T00:00:00 and
    9999-12-31T23:59:59.999999. *)
Definition datetime_min : t := - 62135596800 * us_per_second.
Definition datetime_max : t := 253402300800 * us_per_second - 1.

(** [timedelta(hours=h)]; [None] is the [OverflowError] of a number of
    days beyond 999999999 in magnitude. *)
Definition timedelta_hours (h : Z) : option Z :=
  if (-999999999 <=? h / 24) && (h / 24 <=? 999999999)
  then Some (h * us_per_hour)
  else None.

(** [d - delta]; [None] is the [OverflowError] of a date out of range. *)
Definition minus (d : t) (delta : Z) : option t :=
  if (datetime_min <=? d - delta) && (d - delta <=? datetime_max)
  then Some (d - delta)
  else None.

End Datetime.

(* ================================================================== *)
(** ** Database models ([src/database/models.py]) *)
(* ================================================================== *)

(** The columns of [songs] that the rules engine, the eligibility query
    and the auditor read. Nullable columns are [option]s. *)
Module Song.
Record t : Type := mk
  { id : Z
  ; title : string
  ; artist : string
  ; genre : option string
  ; category : option string
  ; mood : option string
  ; tempo : option string
  ; gender : option string
  ; duration_seconds : option float
  ; min_rest_minutes : option Z
  ; explicit : bool
  ; is_active : bool
  ; last_played : option Datetime.t
  }.
End Song.

(** A row of [play_logs]; [song] is the ORM relationship, [None] when the
    referenced song is gone. *)
Module PlayLog.
Record t : Type := mk
  { id : Z
  ; song_id : Z
  ; song : option Song.t
  ; played_at : Datetime.t
  ; hour : option Z
  ; completed : bool
  ; skipped : bool
  }.
End PlayLog.

(* ================================================================== *)
(** ** Rule violations and rule configuration *)
(* ================================================================== *)

(** [RuleViolation.severity]: one of ['warning'], ['error'], ['critical']. *)
Inductive Severity : Type := Warning | Error | Critical.

Definition Severity_eqb (a b : Severity) : bool :=
  match a, b with
  | Warning, Warning | Error, Error | Critical, Critical => true
  | _, _ => false
  end.

Definition Severity_str (s : Severity) : string :=
  match s with
  | Warning => "warning"
  | Error => "error"
  | Critical => "critical"
  end.

Module RuleViolation.
Record t : Type := mk
  { rule_name : string
  ; rule_type : string
  ; severity : Severity
  ; message : string
  ; song_id : option Z
  ; song_title : option string
  ; timestamp : Datetime.t
  }.
End RuleViolation.

(** The rules document ([rules.yaml]) as [yaml.safe_load] returns it. *)
Module Rules.

Record Settings : Type := mkSettings
  { song_separation : option Z
  ; artist_separation : option Z
  }.

Record CategoryRule : Type := mkCategoryRule
  { category : string
  ; percentage : option Z
  }.

Record Restriction : Type := mkRestriction
  { action : option string
  ; mood : option (list string)
  ; reason : option string
  }.

Record HourlyRuleSet : Type := mkHourlyRuleSet
  { name : option string
  ; hours : option (list Z)
  ; rules : option (list CategoryRule)
  ; restrictions : option (list Restriction)
  }.

Record TempoRules : Type := mkTempoRules
  { max_consecutive_slow : option Z
  ; max_consecutive_fast : option Z
  }.

Record GenderRules : Type := mkGenderRules
  { max_consecutive_same_gender : option Z }.

Record GenreLimit : Type := mkGenreLimit
  { limit_genre : string
  ; max_per_hour : option Z
  }.

Record GenreRules : Type := mkGenreRules
  { same_genre_separation : option Z
  ; hourly_limits : option (list GenreLimit)
  }.

(** [condition]: the key ['explicit'] may be absent. *)
Record Condition : Type := mkCondition
  { cond_explicit : option bool }.

Record Daypart : Type := mkDaypart
  { dp_name : option string
  ; dp_hours : option (list Z)
  ; dp_days : option (list Z)
  ; dp_condition : option Condition
  }.

Record SpecialRules : Type := mkSpecialRules
  { dayparting : option (list Daypart) }.

(** The top-level mapping; [other_keys] are keys the engine never reads
    (they only make the mapping non-empty). *)
Record t : Type := mk
  { settings : option Settings
  ; hourly_rules : option (list HourlyRuleSet)
  ; tempo_rules : option TempoRules
  ; gender_rules : option GenderRules
  ; genre_rules : option GenreRules
  ; special_rules : option SpecialRules
  ; other_keys : list string
  }.

(** [self.rules = {}]. *)
Definition empty : t := mk None None None None None None [].

(** [not self.rules]: the mapping has no key. *)
Definition is_empty (r : t) : bool :=
  match settings r, hourly_rules r, tempo_rules r,
        gender_rules r, genre_rules r, special_rules r, other_keys r with
  | None, None, None, None, None, None, [] => true
  | _, _, _, _, _, _, _ => false
  end.

Definition no_settings : Settings := mkSettings None None.
Definition no_tempo_rules : TempoRules := mkTempoRules None None.
Definition no_gender_rules : GenderRules := mkGenderRules None.
Definition no_genre_rules : GenreRules := mkGenreRules None None.
Definition no_special_rules : SpecialRules := mkSpecialRules None.
Definition no_condition : Condition := mkCondition None.

End Rules.

(** The [context] dictionary of a check. A key of the dictionary is an
    [option] field; ['hour'] is set by the auditor to a nullable column,
    hence the two levels. *)
Module Context.
Record t : Type := mk
  { recent_plays : option (list PlayLog.t)
  ; recent_songs : option (list Song.t)
  ; hour : option (option Z)
  ; day_of_week : option Z
  ; hourly_genre_counts : option (list (option string * Z))
  }.

(** [context or {}]. *)
Definition empty : t := mk None None None None None.
End Context.

(* ================================================================== *)
(** ** Audit report *)
(* ================================================================== *)

(** A JSON number of the report: an [int] or a [float]. *)
Inductive number : Type :=
| Int (z : Z)
| Float (f : float).

Module Summary.
Record t : Type := mk
  { total_plays : Z
  ; unique_songs_played : Z
  ; unique_artists_played : Z
  ; total_songs_in_library : Z
  ; library_coverage_percent : number
  ; total_air_time_hours : float
  ; average_plays_per_song : number
  ; average_plays_per_day : float
  ; completed_plays : Z
  ; skipped_plays : Z
  }.
End Summary.

(** The dictionary of [get_quick_stats]. *)
Module QuickStats.
Record t : Type := mk
  { period_hours : Z
  ; total_plays : Z
  ; unique_songs : Z
  ; unique_artists : Z
  ; categories : list (string * Z)
  ; plays_per_hour : float
  }.
End QuickStats.

(** An entry of the gender, tempo and genre breakdowns. *)
Module Share.
Record t : Type := mk
  { plays : Z
  ; percentage : float
  }.
End Share.

(** An entry of the category breakdown. *)
Module CategoryShare.
Record t : Type := mk
  { plays : Z
  ; percentage : float
  ; unique_songs : Z
  }.
End CategoryShare.

Module Underplayed.
Record t : Type := mk
  { title : string
  ; artist : string
  ; category : option string
  ; actual_plays : Z
  ; expected_plays : Z
  ; song_id : Z
  }.
End Underplayed.

Module Overplayed.
Record t : Type := mk
  { title : string
  ; artist : string
  ; category : option string
  ; total_plays : Z
  ; separation_violations : Z
  ; song_id : Z
  }.
End Overplayed.

(** An entry of the hourly distribution. *)
Module HourlyEntry.
Record t : Type := mk
  { plays : Z
  ; categories : list (string * Z)
  }.
End HourlyEntry.

Module TopSong.
Record t : Type := mk
  { rank : Z
  ; title : string
  ; artist : string
  ; category : option string
  ; plays : Z
  ; song_id : Z
  }.
End TopSong.

Module TopArtist.
Record t : Type := mk
  { rank : Z
  ; artist : string
  ; plays : Z
  ; unique_songs : Z
  }.
End TopArtist.

(** An entry of [rule_violations]; [timestamp] is [play.played_at], which
    the code renders with [isoformat()]. *)
Module ViolationEntry.
Record t : Type := mk
  { timestamp : Datetime.t
  ; song : string
  ; artist : string
  ; rule_name : string
  ; rule_type : string
  ; severity : Severity
  ; message : string
  }.
End ViolationEntry.

(** A recommendation is one templated sentence; a constructor stands for
    the template and carries the values interpolated into it. *)
Inductive Recommendation : Type :=
| LowCoverage (coverage : number)
    (* "Library coverage is low ({coverage}%). Consider increasing
        rotation variety." *)
| UnderplayedSongs (n : Z)
    (* "{n} songs are underplayed. Review rotation weights or song
        availability." *)
| CurrentTooLow (current_pct : float)
    (* "Current music is only {current_pct}% of rotation. Consider
        increasing current music plays." *)
| CurrentTooHigh (current_pct : float)
    (* "Current music is {current_pct}% of rotation. Consider adding more
        variety from other categories." *)
| GenderImbalance (gender : string) (pct : float)
    (* "{gender} artists are {pct}% of rotation. Consider improving
        gender balance." *)
| ManyViolations (n : Z)
    (* "Found {n} rule violations this week. Review scheduling rules and
        enforcement." *)
| SkippedPlays (skip_pct : float)
    (* "{skip_pct:.1f}% of scheduled plays were skipped. Investigate skip
        reasons." *).

(** The report dictionary of [generate_weekly_report]. A dictionary of
    the report is a list of items in insertion order; [summary] is
    [None] for the empty dictionary of the early return. *)
Module Report.
Record t : Type := mk
  { report_type : string
  ; start_date : Datetime.t
  ; end_date : Datetime.t
  ; generated_at : Datetime.t
  ; summary : option Summary.t
  ; category_breakdown : list (string * CategoryShare.t)
  ; gender_breakdown : list (string * Share.t)
  ; tempo_breakdown : list (string * Share.t)
  ; genre_breakdown : list (string * Share.t)
  ; hourly_distribution : list (Z * HourlyEntry.t)
  ; top_songs : list TopSong.t
  ; top_artists : list TopArtist.t
  ; underplayed_songs : list Underplayed.t
  ; overplayed_songs : list Overplayed.t
  ; rule_violations : list ViolationEntry.t
  ; recommendations : list Recommendation
  }.

(** The dictionary [generate_weekly_report] starts from. *)
Definition empty (start_date end_date generated_at : Datetime.t) : t :=
  mk "weekly" start_date end_date generated_at None
     [] [] [] [] [] [] [] [] [] [] [].

Definition with_recommendations (recommendations : list Recommendation)
    (r : t) : t :=
  mk (report_type r) (start_date r) (end_date r) (generated_at r) (summary r)
     (category_breakdown r) (gender_breakdown r) (tempo_breakdown r)
     (genre_breakdown r) (hourly_distribution r) (top_songs r) (top_artists r)
     (underplayed_songs r) (overplayed_songs r) (rule_violations r)
     recommendations.
End Report.

(** The [data] column of a row of [audit_reports]. *)
Module AuditData.
Record t : Type := mk
  { category_breakdown : list (string * CategoryShare.t)
  ; gender_breakdown : list (string * Share.t)
  ; tempo_breakdown : list (string * Share.t)
  ; hourly_distribution : list (Z * HourlyEntry.t)
  ; top_songs : list TopSong.t
  ; top_artists : list TopArtist.t
  }.
End AuditData.

(** A row of [audit_reports], as [_save_report] stores it; the column
    [generated_at] defaults to the clock at insertion. *)
Module AuditReport.
Record t : Type := mk
  { report_type : string
  ; start_date : Datetime.t
  ; end_date : Datetime.t
  ; generated_at : Datetime.t
  ; summary : option Summary.t
  ; data : AuditData.t
  ; violations : list ViolationEntry.t
  ; recommendations : list Recommendation
  }.
End AuditReport.

(* ================================================================== *)
(** ** The world and the monad of the code *)
(* ================================================================== *)

(** What the code reads and writes outside its arguments: the system
    clock ([clock n] is the [n]-th reading of [datetime.utcnow()], and
    [ticks] counts the readings made so far), the rearrangement that
    [random.shuffle] performs, and the tables of the database. *)
Module World.
Record t : Type := mk
  { clock : nat -> Datetime.t
  ; ticks : nat
  ; shuffle : list string -> list string
  ; songs : list Song.t
  ; play_logs : list PlayLog.t
  ; audit_reports : list AuditReport.t
  }.

Definition tick (w : t) : t :=
  mk (clock w) (S (ticks w)) (shuffle w) (songs w) (play_logs w)
     (audit_reports w).

(** The world [w] after its clock has been read [n] times in all. *)
Definition at_tick (n : nat) (w : t) : t :=
  mk (clock w) n (shuffle w) (songs w) (play_logs w) (audit_reports w).

Definition add_report (r : AuditReport.t) (w : t) : t :=
  mk (clock w) (ticks w) (shuffle w) (songs w) (play_logs w)
     (audit_reports w ++ [r]).
End World.

Definition M (A : Type) : Type := World.t -> A * World.t.

Definition ret {A : Type} (a : A) : M A := fun w => (a, w).

Definition bind {A B : Type} (m : M A) (f : A -> M B) : M B :=
  fun w => let (a, w') := m w in f a w'.

Declare Scope monad_scope.
Delimit Scope monad_scope with monad.
Notation "x <- m ;; k" := (bind m (fun x => k))
  (at level 61, m at next level, right associativity) : monad_scope.
Notation "m ;;; k" := (bind m (fun _ => k))
  (at level 61, right associativity) : monad_scope.
Local Open Scope monad_scope.

(** [datetime.utcnow()]. *)
Definition utcnow : M Datetime.t :=
  fun w => (World.clock w (World.ticks w), World.tick w).

(** Value and final world of a computation. *)
Definition value {A : Type} (m : M A) (w : World.t) : A := fst (m w).
Definition after {A : Type} (m : M A) (w : World.t) : World.t := snd (m w).

(** A loop over a list that appends what each step yields. *)
Fixpoint for_each {A B : Type} (body : A -> M (list B)) (l : list A)
  : M (list B) :=
  match l with
  | [] => ret []
  | x :: rest =>
      ys <- body x ;;
      zs <- for_each body rest ;;
      ret (ys ++ zs)
  end.

(** [random.shuffle(l)]. *)
Definition random_shuffle (l : list string) : M (list string) :=
  fun w => (World.shuffle w l, w).

(** The result of a call that may raise: the value returned or the
    exception. *)
Inductive Exception : Type := OverflowError | ZeroDivisionError.

Inductive outcome (A : Type) : Type :=
| Returned (a : A)
| Raised (e : Exception).
Arguments Returned {A} a.
Arguments Raised {A} e.

(* ================================================================== *)
(** ** Database manager ([src/database/db.py]) *)
(* ================================================================== *)

Module DatabaseManager.

(** The manager is a handle on the SQLite file; the tables are the
    world's. *)
Record t : Type := mk { db_path : string }.

(** The [filter(...)] clauses of [get_eligible_songs] on one row. *)
Definition eligible (cutoff : Datetime.t) (category : option string)
    (excluded_artists : option (list string))
    (excluded_song_ids : option (list Z)) (s : Song.t) : bool :=
  Song.is_active s
  && match Song.last_played s with
     | None => true
     | Some lp => lp <? cutoff
     end
  && (if Py.truthy category
      then Py.opt_str_eqb (Song.category s) category
      else true)
  && match excluded_artists with
     | Some (a :: l) => negb (Py.mem_str (Song.artist s) (a :: l))
     | _ => true
     end
  && match excluded_song_ids with
     | Some (i :: l) => negb (Py.mem_Z (Song.id s) (i :: l))
     | _ => true
     end.

(** [get_eligible_songs(category, min_rest_minutes, excluded_artists,
    excluded_song_ids)]; the defaults of the Python signature are
    [None], [180], [None], [None]. *)
Definition get_eligible_songs (category : option string)
    (min_rest_minutes : Z) (excluded_artists : option (list string))
    (excluded_song_ids : option (list Z)) : M (list Song.t) :=
  now <- utcnow ;;
  let cutoff := now - Datetime.minutes min_rest_minutes in
  fun w =>
    (filter (eligible cutoff category excluded_artists excluded_song_ids)
            (World.songs w), w).

End DatabaseManager.

(* ================================================================== *)
(** ** Rules engine ([src/rules/rules_engine.py]) *)
(* ================================================================== *)

Module RulesEngine.

Record t : Type := mk
  { db : option DatabaseManager.t
  ; rules : Rules.t
  }.

(** [RuleViolation(...)] with [song_id=song.id], [song_title=song.title];
    [__post_init__] reads the clock for the timestamp. *)
Definition new_violation (rule_name rule_type : string) (sev : Severity)
    (message : string) (song : Song.t) : M RuleViolation.t :=
  now <- utcnow ;;
  ret (RuleViolation.mk rule_name rule_type sev message
         (Some (Song.id song)) (Some (Song.title song)) now).

Definition one_violation (rule_name rule_type : string) (sev : Severity)
    (message : string) (song : Song.t) : M (list RuleViolation.t) :=
  v <- new_violation rule_name rule_type sev message song ;;
  ret [v].

(** *** [check_song_separation] *)

Definition song_separation_of (self : t) : Z :=
  let settings := Py.default_to Rules.no_settings (Rules.settings (rules self)) in
  Py.default_to 180 (Rules.song_separation settings).

Definition check_song_separation (self : t) (song : Song.t)
    (context : Context.t) : M (list RuleViolation.t) :=
  let min_separation := song_separation_of self in
  match Song.last_played song with
  | Some last_played =>
      now <- utcnow ;;
      if Datetime.minutes_since_lt now last_played min_separation
      then one_violation "Song Separation" "separation" Critical
             (Py.fstr ["Song played ";
                       Py.str (Datetime.int_minutes_since now last_played);
                       " minutes ago (min: "; Py.str min_separation; ")"])
             song
      else ret []
  | None => ret []
  end.

(** *** [check_artist_separation] *)

Definition artist_separation_of (self : t) : Z :=
  let settings := Py.default_to Rules.no_settings (Rules.settings (rules self)) in
  Py.default_to 60 (Rules.artist_separation settings).

(** The loop over [recent_plays], left at the first violation. *)
Fixpoint artist_scan (min_separation : Z) (song : Song.t)
    (recent_plays : list PlayLog.t) : M (list RuleViolation.t) :=
  match recent_plays with
  | [] => ret []
  | play :: rest =>
      match PlayLog.song play with
      | Some played =>
          if String.eqb (Py.lower (Song.artist played))
                        (Py.lower (Song.artist song))
          then
            now <- utcnow ;;
            if Datetime.minutes_since_lt now (PlayLog.played_at play)
                 min_separation
            then one_violation "Artist Separation" "separation" Critical
                   (Py.fstr ["Artist '"; Song.artist song; "' played ";
                             Py.str (Datetime.int_minutes_since now
                                       (PlayLog.played_at play));
                             " min ago (min: "; Py.str min_separation; ")"])
                   song
            else artist_scan min_separation song rest
          else artist_scan min_separation song rest
      | None => artist_scan min_separation song rest
      end
  end.

Definition check_artist_separation (self : t) (song : Song.t)
    (context : Context.t) : M (list RuleViolation.t) :=
  let min_separation := artist_separation_of self in
  let recent_plays := Py.default_to [] (Context.recent_plays context) in
  artist_scan min_separation song recent_plays.

(** *** [check_hourly_rules] *)

(** [context.get('hour', datetime.utcnow().hour)]: the default is
    computed, and the clock read, whether or not the key is there. *)
Definition current_hour_of (context : Context.t) : M (option Z) :=
  now <- utcnow ;;
  ret (Py.default_to (Some (Datetime.hour now)) (Context.hour context)).

(** [current_hour in hours]. *)
Definition hour_in (current_hour : option Z) (hours : list Z) : bool :=
  match current_hour with
  | Some h => Py.mem_Z h hours
  | None => false
  end.

(** [song.category not in allowed_categories], [song.mood in avoid_moods]. *)
Definition opt_mem (o : option string) (l : list string) : bool :=
  match o with
  | Some s => Py.mem_str s l
  | None => false
  end.

Definition check_restriction (song : Song.t) (restriction : Rules.Restriction)
  : M (list RuleViolation.t) :=
  if Py.opt_str_eqb (Rules.action restriction) (Some "avoid")
  then
    let avoid_moods := Py.default_to [] (Rules.mood restriction) in
    if opt_mem (Song.mood song) avoid_moods
    then one_violation
           (Py.fstr ["Hourly Restriction: ";
                     Py.default_to "No reason" (Rules.reason restriction)])
           "hourly" Error
           (Py.fstr ["Mood '"; Py.str_opt (Song.mood song);
                     "' should be avoided during this daypart"])
           song
    else ret []
  else ret [].

(** The body run for the rule-set that matches the hour. *)
Definition check_rule_set (song : Song.t) (current_hour : option Z)
    (rule_set : Rules.HourlyRuleSet) : M (list RuleViolation.t) :=
  let allowed_categories :=
    map Rules.category (Py.default_to [] (Rules.rules rule_set)) in
  cat_violations <-
    (if Py.truthy (Song.category song)
        && negb (opt_mem (Song.category song) allowed_categories)
     then one_violation
            (Py.fstr ["Hourly Rule: ";
                      Py.default_to "Unknown" (Rules.name rule_set)])
            "hourly" Warning
            (Py.fstr ["Category '"; Py.str_opt (Song.category song);
                      "' not scheduled for hour ";
                      match current_hour with
                      | Some h => Py.str h
                      | None => "None"
                      end])
            song
     else ret []) ;;
  mood_violations <-
    for_each (check_restriction song)
             (Py.default_to [] (Rules.restrictions rule_set)) ;;
  ret (cat_violations ++ mood_violations).

(** The loop over [hourly_rules], left after the first matching rule-set. *)
Fixpoint hourly_scan (song : Song.t) (current_hour : option Z)
    (hourly_rules : list Rules.HourlyRuleSet) : M (list RuleViolation.t) :=
  match hourly_rules with
  | [] => ret []
  | rule_set :: rest =>
      if hour_in current_hour (Py.default_to [] (Rules.hours rule_set))
      then check_rule_set song current_hour rule_set
      else hourly_scan song current_hour rest
  end.

Definition check_hourly_rules (self : t) (song : Song.t)
    (context : Context.t) : M (list RuleViolation.t) :=
  current_hour <- current_hour_of context ;;
  let hourly_rules := Py.default_to [] (Rules.hourly_rules (rules self)) in
  hourly_scan song current_hour hourly_rules.

(** *** [check_tempo_rules] *)

(** One step of the loop over the last five songs: the pair is
    [(consecutive_slow, consecutive_fast)]. *)
Definition tempo_step (acc : Z * Z) (recent : Song.t) : Z * Z :=
  let (consecutive_slow, consecutive_fast) := acc in
  if Py.opt_str_eqb (Song.tempo recent) (Some "Slow")
  then (consecutive_slow + 1, 0)
  else if Py.opt_str_eqb (Song.tempo recent) (Some "Fast")
  then (0, consecutive_fast + 1)
  else (0, 0).

Definition check_tempo_rules (self : t) (song : Song.t)
    (context : Context.t) : M (list RuleViolation.t) :=
  let tempo_rules :=
    Py.default_to Rules.no_tempo_rules (Rules.tempo_rules (rules self)) in
  let recent_songs := Py.default_to [] (Context.recent_songs context) in
  match recent_songs with
  | [] => ret []
  | _ :: _ =>
      let max_consecutive_slow :=
        Py.default_to 2 (Rules.max_consecutive_slow tempo_rules) in
      let max_consecutive_fast :=
        Py.default_to 3 (Rules.max_consecutive_fast tempo_rules) in
      let (consecutive_slow, consecutive_fast) :=
        fold_left tempo_step (Py.slice_from (-5) recent_songs) (0, 0) in
      slow <-
        (if Py.opt_str_eqb (Song.tempo song) (Some "Slow")
            && (max_consecutive_slow <=? consecutive_slow)
         then one_violation "Tempo Flow" "tempo" Warning
                (Py.fstr ["Too many slow songs in a row (";
                          Py.str (consecutive_slow + 1); ")"])
                song
         else ret []) ;;
      fast <-
        (if Py.opt_str_eqb (Song.tempo song) (Some "Fast")
            && (max_consecutive_fast <=? consecutive_fast)
         then one_violation "Tempo Flow" "tempo" Warning
                (Py.fstr ["Too many fast songs in a row (";
                          Py.str (consecutive_fast + 1); ")"])
                song
         else ret []) ;;
      ret (slow ++ fast)
  end.

(** *** [check_gender_rules] *)

(** The counting loop, left at the first song of another gender. *)
Fixpoint count_while {A : Type} (p : A -> bool) (l : list A) : Z :=
  match l with
  | [] => 0
  | x :: rest => if p x then count_while p rest + 1 else 0
  end.

Definition check_gender_rules (self : t) (song : Song.t)
    (context : Context.t) : M (list RuleViolation.t) :=
  let gender_rules :=
    Py.default_to Rules.no_gender_rules (Rules.gender_rules (rules self)) in
  let recent_songs := Py.default_to [] (Context.recent_songs context) in
  let max_consecutive :=
    Py.default_to 3 (Rules.max_consecutive_same_gender gender_rules) in
  match recent_songs with
  | [] => ret []
  | _ :: _ =>
      let consecutive :=
        count_while
          (fun recent => Py.opt_str_eqb (Song.gender recent) (Song.gender song))
          (rev (Py.slice_from (- max_consecutive) recent_songs)) in
      if max_consecutive <=? consecutive
      then one_violation "Gender Balance" "gender" Warning
             (Py.fstr ["Too many consecutive "; Py.str_opt (Song.gender song);
                       " artists ("; Py.str (consecutive + 1); ")"])
             song
      else ret []
  end.

(** *** [check_genre_rules] *)

(** The loop over [enumerate(reversed(recent_songs[:separation]))],
    left at the first song of the candidate's genre: its index. *)
Fixpoint find_genre (genre : option string) (l : list (nat * Song.t))
  : option nat :=
  match l with
  | [] => None
  | (i, recent) :: rest =>
      if Py.opt_str_eqb (Song.genre recent) genre then Some i
      else find_genre genre rest
  end.

(** [hourly_plays.get(genre, 0)]. *)
Fixpoint genre_count (genre : option string)
    (hourly_plays : list (option string * Z)) : Z :=
  match hourly_plays with
  | [] => 0
  | (g, n) :: rest =>
      if Py.opt_str_eqb g genre then n else genre_count genre rest
  end.

Definition check_genre_limit (song : Song.t)
    (hourly_plays : list (option string * Z)) (limit : Rules.GenreLimit)
  : M (list RuleViolation.t) :=
  if Py.opt_str_eqb (Some (Rules.limit_genre limit)) (Song.genre song)
  then
    let max_per_hour := Py.default_to 999 (Rules.max_per_hour limit) in
    let current_count := genre_count (Song.genre song) hourly_plays in
    if max_per_hour <=? current_count
    then one_violation "Genre Hourly Limit" "genre" Error
           (Py.fstr ["Max "; Py.str_opt (Song.genre song);
                     " songs reached for this hour (";
                     Py.str max_per_hour; ")"])
           song
    else ret []
  else ret [].

Definition check_genre_rules (self : t) (song : Song.t)
    (context : Context.t) : M (list RuleViolation.t) :=
  let genre_rules :=
    Py.default_to Rules.no_genre_rules (Rules.genre_rules (rules self)) in
  let recent_songs := Py.default_to [] (Context.recent_songs context) in
  let hourly_plays := Py.default_to [] (Context.hourly_genre_counts context) in
  let separation := Py.default_to 2 (Rules.same_genre_separation genre_rules) in
  sep_violations <-
    match find_genre (Song.genre song)
            (Py.enumerate 0 (rev (Py.slice_to separation recent_songs))) with
    | Some i =>
        one_violation "Genre Separation" "genre" Warning
          (Py.fstr ["Same genre '"; Py.str_opt (Song.genre song);
                    "' played "; Py.str (Z.of_nat i + 1);
                    " songs ago (min separation: "; Py.str separation; ")"])
          song
    | None => ret []
    end ;;
  limit_violations <-
    for_each (check_genre_limit song hourly_plays)
             (Py.default_to [] (Rules.hourly_limits genre_rules)) ;;
  ret (sep_violations ++ limit_violations).

(** *** [check_dayparting_rules] *)

Definition check_daypart (song : Song.t) (current_hour : option Z)
    (current_day : Z) (rule : Rules.Daypart) : M (list RuleViolation.t) :=
  let hours := Py.default_to (Py.range 24) (Rules.dp_hours rule) in
  let days := Py.default_to (Py.range 7) (Rules.dp_days rule) in
  if hour_in current_hour hours && Py.mem_Z current_day days
  then
    let condition :=
      Py.default_to Rules.no_condition (Rules.dp_condition rule) in
    match Rules.cond_explicit condition with
    | Some allowed =>
        if Song.explicit song && negb allowed
        then one_violation
               (Py.fstr ["Dayparting: ";
                         Py.default_to "Unknown" (Rules.dp_name rule)])
               "dayparting" Critical
               "Explicit content not allowed during this daypart"
               song
        else ret []
    | None => ret []
    end
  else ret [].

Definition check_dayparting_rules (self : t) (song : Song.t)
    (context : Context.t) : M (list RuleViolation.t) :=
  let special_rules :=
    Py.default_to Rules.no_special_rules (Rules.special_rules (rules self)) in
  let dayparting := Py.default_to [] (Rules.dayparting special_rules) in
  current_hour <- current_hour_of context ;;
  today <- utcnow ;;
  let current_day :=
    Py.default_to (Datetime.weekday today) (Context.day_of_week context) in
  for_each (check_daypart song current_hour current_day) dayparting.

(** *** [can_play_song] *)

Definition is_critical (v : RuleViolation.t) : bool :=
  Severity_eqb (RuleViolation.severity v) Critical.

(** [context] is the dictionary after [context or {}]. *)
Definition can_play_song (self : t) (song : Song.t) (context : Context.t)
  : M (bool * list RuleViolation.t) :=
  sep_violations <- check_song_separation self song context ;;
  artist_violations <- check_artist_separation self song context ;;
  hourly_violations <- check_hourly_rules self song context ;;
  tempo_violations <- check_tempo_rules self song context ;;
  gender_violations <- check_gender_rules self song context ;;
  genre_violations <- check_genre_rules self song context ;;
  daypart_violations <- check_dayparting_rules self song context ;;
  let violations :=
    sep_violations ++ artist_violations ++ hourly_violations
    ++ tempo_violations ++ gender_violations ++ genre_violations
    ++ daypart_violations in
  let can_play := negb (existsb is_critical violations) in
  ret (can_play, violations).

(** *** [get_category_for_hour] *)

(** [d[k] = v] on a dictionary kept in insertion order. *)
Fixpoint dict_set (k : string) (v : Z) (d : list (string * Z))
  : list (string * Z) :=
  match d with
  | [] => [(k, v)]
  | (k', v') :: rest =>
      if String.eqb k k' then (k, v) :: rest
      else (k', v') :: dict_set k v rest
  end.

Definition default_percentages : list (string * Z) :=
  [("Current", 30); ("Recurrent", 25); ("Power Gold", 25);
   ("Gold", 15); ("Deep Cut", 5)].

Fixpoint category_scan (hour : option Z)
    (hourly_rules : list Rules.HourlyRuleSet) : list (string * Z) :=
  match hourly_rules with
  | [] => default_percentages
  | rule_set :: rest =>
      if hour_in hour (Py.default_to [] (Rules.hours rule_set))
      then fold_left
             (fun percentages rule =>
                dict_set (Rules.category rule)
                         (Py.default_to 0 (Rules.percentage rule))
                         percentages)
             (Py.default_to [] (Rules.rules rule_set)) []
      else category_scan hour rest
  end.

Definition get_category_for_hour (self : t) (hour : option Z)
  : list (string * Z) :=
  category_scan hour (Py.default_to [] (Rules.hourly_rules (rules self))).

(** *** [select_next_song] *)

(** The inner loop: the first song of [songs] that may play. *)
Fixpoint first_playable (self : t) (context : Context.t)
    (songs : list Song.t) : M (option Song.t) :=
  match songs with
  | [] => ret None
  | song :: rest =>
      r <- can_play_song self song context ;;
      if fst r then ret (Some song)
      else first_playable self context rest
  end.

(** The outer loop over the shuffled bag of categories. *)
Fixpoint try_categories (self : t) (context : Context.t)
    (excluded_artists : list string) (weighted_categories : list string)
  : M (option Song.t) :=
  match weighted_categories with
  | [] => ret None
  | category :: rest =>
      songs <- DatabaseManager.get_eligible_songs
                 (Some category) 180 (Some excluded_artists) None ;;
      found <- first_playable self context songs ;;
      match found with
      | Some song => ret (Some song)
      | None => try_categories self context excluded_artists rest
      end
  end.

(** [[p.song.artist for p in recent_plays if p.song]]. *)
Definition artists_of (recent_plays : list PlayLog.t) : list string :=
  flat_map
    (fun p => match PlayLog.song p with
              | Some s => [Song.artist s]
              | None => []
              end)
    recent_plays.

(** [[cat] * int(weight)] for every item of the dictionary. *)
Definition weighted_bag (category_weights : list (string * Z)) : list string :=
  flat_map (fun cw => repeat (fst cw) (Z.to_nat (snd cw))) category_weights.

Definition select_next_song (self : t) (context : Context.t)
  : M (option Song.t) :=
  match db self with
  | None => ret None
  | Some _ =>
      current_hour <- current_hour_of context ;;
      let category_weights := get_category_for_hour self current_hour in
      let recent_plays := Py.default_to [] (Context.recent_plays context) in
      let recent_artists := artists_of recent_plays in
      weighted_categories <- random_shuffle (weighted_bag category_weights) ;;
      try_categories self context (Py.slice_to 5 recent_artists)
                     weighted_categories
  end.

(** *** [validate_rules] *)

Definition percentage_total (rule_set : Rules.HourlyRuleSet) : Z :=
  fold_left Z.add
    (map (fun r => Py.default_to 0 (Rules.percentage r))
         (Py.default_to [] (Rules.rules rule_set)))
    0.

Definition percentage_error (rule_set : Rules.HourlyRuleSet) : string :=
  Py.fstr ["Percentages for '"; Py.str_opt (Rules.name rule_set);
           "' sum to "; Py.str (percentage_total rule_set); ", not 100"].

Definition check_percentages (rule_set : Rules.HourlyRuleSet) : list string :=
  if percentage_total rule_set =? 100 then []
  else [percentage_error rule_set].

(** [set(range(24)) - covered_hours], sorted. *)
Definition missing_hours (hourly_rules : list Rules.HourlyRuleSet) : list Z :=
  let covered_hours :=
    flat_map (fun rule_set => Py.default_to [] (Rules.hours rule_set))
             hourly_rules in
  filter (fun h => negb (Py.mem_Z h covered_hours)) (Py.range 24).

Definition validate_rules (self : t) : list string :=
  if Rules.is_empty (rules self) then ["No rules loaded"]
  else
    (match Rules.settings (rules self) with
     | None => ["Missing 'settings' section"]
     | Some _ => []
     end)
    ++
    (match Rules.hourly_rules (rules self) with
     | None => ["Missing 'hourly_rules' section"]
     | Some hourly_rules =>
         (match missing_hours hourly_rules with
          | [] => []
          | missing =>
              [Py.fstr ["Hours not covered by rules: "; Py.str_list missing]]
          end)
         ++ flat_map check_percentages hourly_rules
     end).

End RulesEngine.

(* ================================================================== *)
(** ** Rotation auditor ([src/audit/rotation_audit.py]) *)
(* ================================================================== *)

Module RotationAuditor.

Record t : Type := mk
  { db : option DatabaseManager.t
  ; rules_engine : option RulesEngine.t
  }.

(** *** Dictionaries of counters, in insertion order *)

(** [d[k] += 1] on a [defaultdict(int)], for keys compared by [eqb]. *)
Fixpoint incr_with {K : Type} (eqb : K -> K -> bool) (k : K)
    (d : list (K * Z)) : list (K * Z) :=
  match d with
  | [] => [(k, 1)]
  | (k', n) :: rest =>
      if eqb k k' then (k', n + 1) :: rest
      else (k', n) :: incr_with eqb k rest
  end.

Definition incr : string -> list (string * Z) -> list (string * Z) :=
  incr_with String.eqb.

Definition incr_id : Z -> list (Z * Z) -> list (Z * Z) :=
  incr_with Z.eqb.

(** [d[k].add(x)] on a [defaultdict(set)]. *)
Fixpoint add_to (k : string) (x : Z) (d : list (string * list Z))
  : list (string * list Z) :=
  match d with
  | [] => [(k, [x])]
  | (k', xs) :: rest =>
      if String.eqb k k'
      then (k', if Py.mem_Z x xs then xs else xs ++ [x]) :: rest
      else (k', xs) :: add_to k x rest
  end.

(** [d[k].append(x)] on a [defaultdict(list)] keyed by song ids. *)
Fixpoint append_to {A : Type} (k : Z) (x : A) (d : list (Z * list A))
  : list (Z * list A) :=
  match d with
  | [] => [(k, [x])]
  | (k', xs) :: rest =>
      if k =? k' then (k', xs ++ [x]) :: rest
      else (k', xs) :: append_to k x rest
  end.

(** [session.query(Song).filter_by(id=song_id).first()]. *)
Definition song_by_id (session : list Song.t) (song_id : Z) : option Song.t :=
  find (fun s => Song.id s =? song_id) session.

(** [d[k]] for a key that is there, [d.get(k)] in general. *)
Fixpoint lookup {A : Type} (k : string) (d : list (string * A)) : option A :=
  match d with
  | [] => None
  | (k', a) :: rest => if String.eqb k k' then Some a else lookup k rest
  end.

(** [round(count / total * 100, 1)]. *)
Definition percent (count total : Z) : float :=
  Py.round1 (PrimFloat.mul (Py.true_div count total) (Py.float_of 100)).

(** [len(plays) or 1]. *)
Definition total_or_1 (plays : list PlayLog.t) : Z :=
  if Py.len plays =? 0 then 1 else Py.len plays.

(** *** [_calculate_summary] *)

(** [len] of the set built by [s.add(x)] over a list. *)
Definition distinct_ids (l : list Z) : Z := Py.len (nodup Z.eq_dec l).
Definition distinct_names (l : list string) : Z :=
  Py.len (nodup string_dec l).

(** The songs of the plays that have one, with the play's [song_id]. *)
Definition song_plays (plays : list PlayLog.t) : list (Z * Song.t) :=
  flat_map
    (fun play => match PlayLog.song play with
                 | Some s => [(PlayLog.song_id play, s)]
                 | None => []
                 end)
    plays.

Definition count_if (p : PlayLog.t -> bool) (plays : list PlayLog.t) : Z :=
  Py.len (filter p plays).

Definition _calculate_summary (plays : list PlayLog.t)
    (all_songs : list Song.t) : Summary.t :=
  let unique_songs := distinct_ids (map fst (song_plays plays)) in
  let unique_artists :=
    distinct_names (map (fun p => Song.artist (snd p)) (song_plays plays)) in
  let total_duration :=
    fold_left
      (fun total p =>
         PrimFloat.add total (Py.float_or_0 (Song.duration_seconds (snd p))))
      (song_plays plays) PrimFloat.zero in
  Summary.mk
    (Py.len plays)
    unique_songs
    unique_artists
    (Py.len all_songs)
    (match all_songs with
     | [] => Int 0
     | _ :: _ =>
         Float (Py.round1
                  (PrimFloat.mul (Py.true_div unique_songs (Py.len all_songs))
                                 (Py.float_of 100)))
     end)
    (Py.round1 (PrimFloat.div total_duration (Py.float_of 3600)))
    (if unique_songs =? 0 then Int 0
     else Float (Py.round1 (Py.true_div (Py.len plays) unique_songs)))
    (Py.round1 (Py.true_div (Py.len plays) 7))
    (count_if PlayLog.completed plays)
    (count_if PlayLog.skipped plays).

(** *** [_analyze_categories], [_analyze_gender], [_analyze_tempo],
    [_analyze_genre] *)

Definition _analyze_categories (plays : list PlayLog.t)
  : list (string * CategoryShare.t) :=
  let categorised :=
    flat_map
      (fun p => match Song.category (snd p) with
                | Some c => if String.eqb c "" then [] else [(c, fst p)]
                | None => []
                end)
      (song_plays plays) in
  let category_counts :=
    fold_left (fun d cp => incr (fst cp) d) categorised [] in
  let category_songs :=
    fold_left (fun d cp => add_to (fst cp) (snd cp) d) categorised [] in
  let total := total_or_1 plays in
  map (fun cc =>
         (fst cc,
          CategoryShare.mk (snd cc) (percent (snd cc) total)
            (Py.len (Py.default_to [] (lookup (fst cc) category_songs)))))
      category_counts.

(** The counting loop shared by the three other breakdowns, on the
    attribute [attr] with ['Unknown'] for a missing one. *)
Definition count_by (attr : Song.t -> option string)
    (plays : list PlayLog.t) : list (string * Z) :=
  fold_left (fun d p => incr (Py.str_or "Unknown" (attr (snd p))) d)
            (song_plays plays) [].

Definition shares (total : Z) (counts : list (string * Z))
  : list (string * Share.t) :=
  map (fun kc => (fst kc, Share.mk (snd kc) (percent (snd kc) total))) counts.

Definition _analyze_gender (plays : list PlayLog.t) : list (string * Share.t) :=
  shares (total_or_1 plays) (count_by Song.gender plays).

Definition _analyze_tempo (plays : list PlayLog.t) : list (string * Share.t) :=
  shares (total_or_1 plays) (count_by Song.tempo plays).

Definition _analyze_genre (plays : list PlayLog.t) : list (string * Share.t) :=
  shares (total_or_1 plays)
         (Py.sorted_desc snd (count_by Song.genre plays)).

(** *** [_analyze_hourly] *)

(** [play.hour or play.played_at.hour]. *)
Definition hour_of_play (play : PlayLog.t) : Z :=
  match PlayLog.hour play with
  | Some h => if h =? 0 then Datetime.hour (PlayLog.played_at play) else h
  | None => Datetime.hour (PlayLog.played_at play)
  end.

(** The category counted for a play: that of its song, when both are
    there. *)
Definition category_of_play (play : PlayLog.t) : option string :=
  match PlayLog.song play with
  | Some s => if Py.truthy (Song.category s) then Song.category s else None
  | None => None
  end.

(** One step of the loop on the dictionary keyed by the hours 0-23;
    [None] is the [KeyError] of an hour that is not a key. *)
Fixpoint count_hour (hour : Z) (category : option string)
    (hourly : list (Z * HourlyEntry.t)) : option (list (Z * HourlyEntry.t)) :=
  match hourly with
  | [] => None
  | (h, entry) :: rest =>
      if hour =? h
      then Some ((h, HourlyEntry.mk
                       (HourlyEntry.plays entry + 1)
                       (match category with
                        | Some c => incr c (HourlyEntry.categories entry)
                        | None => HourlyEntry.categories entry
                        end)) :: rest)
      else option_map (cons (h, entry)) (count_hour hour category rest)
  end.

Definition _analyze_hourly (plays : list PlayLog.t)
  : option (list (Z * HourlyEntry.t)) :=
  fold_left
    (fun acc play =>
       match acc with
       | Some hourly =>
           count_hour (hour_of_play play) (category_of_play play) hourly
       | None => None
       end)
    plays
    (Some (map (fun h => (h, HourlyEntry.mk 0 [])) (Py.range 24))).

(** *** [_get_top_songs] and [_get_top_artists] *)

(** The loop that ranks the songs found in the database. *)
Fixpoint rank_songs (session : list Song.t) (counts : list (Z * Z))
    (top_songs : list TopSong.t) : list TopSong.t :=
  match counts with
  | [] => top_songs
  | (song_id, count) :: rest =>
      match song_by_id session song_id with
      | Some song =>
          rank_songs session rest
            (top_songs
             ++ [TopSong.mk (Py.len top_songs + 1) (Song.title song)
                   (Song.artist song) (Song.category song) count song_id])
      | None => rank_songs session rest top_songs
      end
  end.

Definition _get_top_songs (plays : list PlayLog.t) (session : list Song.t)
    (limit : Z) : list TopSong.t :=
  let song_counts :=
    fold_left (fun d p => incr_id (fst p) d) (song_plays plays) [] in
  rank_songs session (Py.slice_to limit (Py.sorted_desc snd song_counts)) [].

Fixpoint rank_artists (artist_songs : list (string * list Z))
    (counts : list (string * Z)) (top_artists : list TopArtist.t)
  : list TopArtist.t :=
  match counts with
  | [] => top_artists
  | (artist, count) :: rest =>
      rank_artists artist_songs rest
        (top_artists
         ++ [TopArtist.mk (Py.len top_artists + 1) artist count
               (Py.len (Py.default_to [] (lookup artist artist_songs)))])
  end.

Definition _get_top_artists (plays : list PlayLog.t) (limit : Z)
  : list TopArtist.t :=
  let artist_counts :=
    fold_left (fun d p => incr (Song.artist (snd p)) d) (song_plays plays) [] in
  let artist_songs :=
    fold_left (fun d p => add_to (Song.artist (snd p)) (fst p) d)
              (song_plays plays) [] in
  rank_artists artist_songs
               (Py.slice_to limit (Py.sorted_desc snd artist_counts)) [].

(** *** [_find_underplayed] *)

Definition underplayed_entry (plays : list PlayLog.t) (song : Song.t)
  : list Underplayed.t :=
  if RulesEngine.opt_mem (Song.category song) ["Current"; "Power Gold"]
  then
    let play_count :=
      count_if (fun p => PlayLog.song_id p =? Song.id song) plays in
    let expected :=
      if Py.opt_str_eqb (Song.category song) (Some "Current") then 7 else 3 in
    if play_count <? expected
    then [Underplayed.mk (Song.title song) (Song.artist song)
            (Song.category song) play_count expected (Song.id song)]
    else []
  else [].

Definition _find_underplayed (plays : list PlayLog.t)
    (all_songs : list Song.t) : list Underplayed.t :=
  Py.slice_to 20
    (Py.sorted Underplayed.actual_plays
       (flat_map (underplayed_entry plays) all_songs)).

(** *** [_find_overplayed] *)

(** The number of gaps under [min_separation] minutes between adjacent
    plays of a chronological list. *)
Fixpoint close_gaps (min_separation : Z) (sorted_plays : list PlayLog.t) : Z :=
  match sorted_plays with
  | previous :: (next :: _) as rest =>
      (if Datetime.minutes_since_lt (PlayLog.played_at next)
            (PlayLog.played_at previous) min_separation
       then 1 else 0)
      + close_gaps min_separation rest
  | _ => 0
  end.

Definition overplayed_entry (session : list Song.t) (min_separation : Z)
    (item : Z * list PlayLog.t) : list Overplayed.t :=
  let (song_id, song_plays_list) := item in
  let violations :=
    close_gaps min_separation (Py.sorted PlayLog.played_at song_plays_list) in
  match song_by_id session song_id with
  | Some song =>
      if 0 <? violations
      then [Overplayed.mk (Song.title song) (Song.artist song)
              (Song.category song) (Py.len song_plays_list) violations song_id]
      else []
  | None => []
  end.

Definition _find_overplayed (self : t) (plays : list PlayLog.t)
    (session : list Song.t) (limit : Z) : list Overplayed.t :=
  let song_plays :=
    fold_left
      (fun d play => match PlayLog.song play with
                     | Some _ => append_to (PlayLog.song_id play) play d
                     | None => d
                     end)
      plays [] in
  let min_separation :=
    match rules_engine self with
    | Some engine => RulesEngine.song_separation_of engine
    | None => 180
    end in
  Py.slice_to limit
    (Py.sorted_desc Overplayed.separation_violations
       (flat_map (overplayed_entry session min_separation) song_plays)).

(** *** [_find_violations] *)

(** [v.severity in ['error', 'critical']]. *)
Definition reportable (v : RuleViolation.t) : bool :=
  match RuleViolation.severity v with
  | Error | Critical => true
  | Warning => false
  end.

Definition entry_of (play : PlayLog.t) (song : Song.t) (v : RuleViolation.t)
  : ViolationEntry.t :=
  ViolationEntry.mk (PlayLog.played_at play) (Song.title song)
    (Song.artist song) (RuleViolation.rule_name v)
    (RuleViolation.rule_type v) (RuleViolation.severity v)
    (RuleViolation.message v).

(** [[p.song for p in prev_plays if p.song]]. *)
Definition songs_of (prev_plays : list PlayLog.t) : list Song.t :=
  map snd (song_plays prev_plays).

(** The context built for the play at position [i] of [sorted_plays]. *)
Definition context_at (sorted_plays : list PlayLog.t) (i : nat)
    (play : PlayLog.t) : Context.t :=
  let prev_plays := Py.slice (Nat.max 0 (i - 10)) i sorted_plays in
  Context.mk (Some prev_plays) (Some (songs_of prev_plays))
             (Some (PlayLog.hour play)) None None.

(** The body of the loop, for the play [play] at position [i]. *)
Definition audit_play (engine : RulesEngine.t)
    (sorted_plays : list PlayLog.t) (ip : nat * PlayLog.t)
  : M (list ViolationEntry.t) :=
  let (i, play) := ip in
  match PlayLog.song play with
  | None => ret []
  | Some song =>
      r <- RulesEngine.can_play_song engine song
             (context_at sorted_plays i play) ;;
      ret (map (entry_of play song) (filter reportable (snd r)))
  end.

Definition _find_violations (self : t) (plays : list PlayLog.t)
  : M (list ViolationEntry.t) :=
  match rules_engine self with
  | None => ret []
  | Some engine =>
      let sorted_plays := Py.sorted PlayLog.played_at plays in
      violations <-
        for_each (audit_play engine sorted_plays)
                 (Py.enumerate 1 (tl sorted_plays)) ;;
      ret (Py.slice_to 100 violations)
  end.

(** *** [_generate_recommendations] *)

(** [x < n] and [x > n] for a number of the report and an [int]. *)
Definition num_ltb (x : number) (n : Z) : bool :=
  match x with
  | Int z => z <? n
  | Float f => PrimFloat.ltb f (Py.float_of n)
  end.

Definition float_ltb (f : float) (n : Z) : bool :=
  PrimFloat.ltb f (Py.float_of n).

Definition float_gtb (f : float) (n : Z) : bool :=
  PrimFloat.ltb (Py.float_of n) f.

(** The float written [0.05]. *)
Definition five_percent : float := 0x1.999999999999ap-5%float.

Definition coverage_of (report : Report.t) : number :=
  match Report.summary report with
  | Some summary => Summary.library_coverage_percent summary
  | None => Int 0
  end.

Definition coverage_advice (report : Report.t) : list Recommendation :=
  let coverage := coverage_of report in
  if num_ltb coverage 50 then [LowCoverage coverage] else [].

Definition underplayed_advice (report : Report.t) : list Recommendation :=
  let n := Py.len (Report.underplayed_songs report) in
  if 10 <? n then [UnderplayedSongs n] else [].

Definition current_advice (report : Report.t) : list Recommendation :=
  match lookup "Current" (Report.category_breakdown report) with
  | Some current =>
      let current_pct := CategoryShare.percentage current in
      if float_ltb current_pct 25 then [CurrentTooLow current_pct]
      else if float_gtb current_pct 50 then [CurrentTooHigh current_pct]
      else []
  | None => []
  end.

Definition gender_advice_for (entry : string * Share.t) : list Recommendation :=
  let pct := Share.percentage (snd entry) in
  if float_gtb pct 60 then [GenderImbalance (fst entry) pct] else [].

Definition gender_advice (report : Report.t) : list Recommendation :=
  flat_map gender_advice_for (Report.gender_breakdown report).

Definition violations_advice (report : Report.t) : list Recommendation :=
  let n := Py.len (Report.rule_violations report) in
  if 20 <? n then [ManyViolations n] else [].

Definition skipped_of (report : Report.t) : Z :=
  match Report.summary report with
  | Some summary => Summary.skipped_plays summary
  | None => 0
  end.

Definition total_of (report : Report.t) : Z :=
  match Report.summary report with
  | Some summary => Summary.total_plays summary
  | None => 1
  end.

(** [skipped > total * 0.05]. *)
Definition skip_rate_high (report : Report.t) : bool :=
  PrimFloat.ltb (PrimFloat.mul (Py.float_of (total_of report)) five_percent)
                (Py.float_of (skipped_of report)).

(** The last test; [None] is the [ZeroDivisionError] of
    [skipped_plays / total_plays]. *)
Definition skip_advice (report : Report.t) : option (list Recommendation) :=
  if skip_rate_high report
  then
    if total_of report =? 0 then None
    else Some [SkippedPlays
                 (PrimFloat.mul
                    (Py.true_div (skipped_of report) (total_of report))
                    (Py.float_of 100))]
  else Some [].

Definition _generate_recommendations (report : Report.t)
  : option (list Recommendation) :=
  match skip_advice report with
  | Some skip =>
      Some (coverage_advice report ++ underplayed_advice report
            ++ current_advice report ++ gender_advice report
            ++ violations_advice report ++ skip)
  | None => None
  end.

(** *** [_save_report] and [generate_weekly_report] *)

(** [db.save_audit_report(audit_data)]: the row's [generated_at] is the
    clock at insertion. *)
Definition _save_report (report : Report.t) : M unit :=
  now <- utcnow ;;
  fun w =>
    (tt, World.add_report
           (AuditReport.mk (Report.report_type report)
              (Report.start_date report) (Report.end_date report) now
              (Report.summary report)
              (AuditData.mk (Report.category_breakdown report)
                 (Report.gender_breakdown report)
                 (Report.tempo_breakdown report)
                 (Report.hourly_distribution report)
                 (Report.top_songs report) (Report.top_artists report))
              (Report.rule_violations report)
              (Report.recommendations report))
           w).

(** [_export_report]: reads the clock for the file names; the files
    themselves are outside the model. *)
Definition _export_report (report : Report.t) : M unit :=
  _ <- utcnow ;; ret tt.

(** [session.query(PlayLog).filter(played_at >= start, played_at <= end)]. *)
Definition plays_between (start_date end_date : Datetime.t) : M (list PlayLog.t) :=
  fun w =>
    (filter (fun p => (start_date <=? PlayLog.played_at p)
                      && (PlayLog.played_at p <=? end_date))
            (World.play_logs w), w).

(** [session.query(Song).filter_by(is_active=True)]. *)
Definition active_songs : M (list Song.t) :=
  fun w => (filter Song.is_active (World.songs w), w).

(** The rows that [session.query(Song)] ranges over. *)
Definition all_songs_of_session : M (list Song.t) :=
  fun w => (World.songs w, w).

(** [generate_weekly_report(end_date)]; [None] is an exception that
    leaves the function: the [KeyError] of [_analyze_hourly] or the
    [ZeroDivisionError] of [_generate_recommendations]. *)
Definition generate_weekly_report (self : t) (end_date : option Datetime.t)
  : M (option Report.t) :=
  end_date <- match end_date with
              | Some d => ret d
              | None => utcnow
              end ;;
  let start_date := end_date - Datetime.days 7 in
  generated_at <- utcnow ;;
  match db self with
  | None => ret (Some (Report.empty start_date end_date generated_at))
  | Some _ =>
      plays <- plays_between start_date end_date ;;
      all_songs <- active_songs ;;
      session <- all_songs_of_session ;;
      match _analyze_hourly plays with
      | None => ret None
      | Some hourly_distribution =>
          violations <- _find_violations self plays ;;
          let report :=
            Report.mk "weekly" start_date end_date generated_at
              (Some (_calculate_summary plays all_songs))
              (_analyze_categories plays)
              (_analyze_gender plays)
              (_analyze_tempo plays)
              (_analyze_genre plays)
              hourly_distribution
              (_get_top_songs plays session 20)
              (_get_top_artists plays 20)
              (_find_underplayed plays all_songs)
              (_find_overplayed self plays session 20)
              violations
              [] in
          match _generate_recommendations report with
          | None => ret None
          | Some recommendations =>
              let report := Report.with_recommendations recommendations report in
              _save_report report ;;;
              _export_report report ;;;
              ret (Some report)
          end
      end
  end.

(** *** [get_quick_stats] *)

(** [session.query(PlayLog).filter(PlayLog.played_at >= start_date)]. *)
Definition plays_since (start_date : Datetime.t) : M (list PlayLog.t) :=
  fun w =>
    (filter (fun p => start_date <=? PlayLog.played_at p) (World.play_logs w),
     w).

(** [get_quick_stats(hours)]; [Returned None] is the empty dictionary of
    an auditor without database. The dictionary is built last, and its
    last value is [round(len(plays) / hours, 1)]. *)
Definition get_quick_stats (self : t) (hours : Z)
  : M (outcome (option QuickStats.t)) :=
  match db self with
  | None => ret (Returned None)
  | Some _ =>
      end_date <- utcnow ;;
      match Datetime.timedelta_hours hours with
      | None => ret (Raised OverflowError)
      | Some delta =>
          match Datetime.minus end_date delta with
          | None => ret (Raised OverflowError)
          | Some start_date =>
              plays <- plays_since start_date ;;
              let unique_songs := distinct_ids (map PlayLog.song_id plays) in
              let unique_artists :=
                distinct_names
                  (map (fun p => Song.artist (snd p)) (song_plays plays)) in
              let category_counts := count_by Song.category plays in
              if hours =? 0 then ret (Raised ZeroDivisionError)
              else
                ret (Returned
                       (Some (QuickStats.mk hours (Py.len plays) unique_songs
                                unique_artists category_counts
                                (Py.round1
                                   (Py.true_div (Py.len plays) hours)))))
          end
      end
  end.

End RotationAuditor.

(* ================================================================== *)
(** ** The specification's wording, where it departs from the code *)
(* ================================================================== *)

Module Spec.

(** The minimum rest of a song as the specification words it: the
    song's own [min_rest_minutes] when it has one, the global
    [song_separation] setting otherwise. *)
Definition min_rest_minutes (self : RulesEngine.t) (song : Song.t) : Z :=
  Py.default_to (RulesEngine.song_separation_of self)
                (Song.min_rest_minutes song).

(** The violation pass as the specification words it: the checker is
    run against each play, the first one included. *)
Definition find_violations (engine : RulesEngine.t)
    (plays : list PlayLog.t) : M (list ViolationEntry.t) :=
  let sorted_plays := Py.sorted PlayLog.played_at plays in
  violations <-
    for_each (RotationAuditor.audit_play engine sorted_plays)
             (Py.enumerate 0 sorted_plays) ;;
  ret (Py.slice_to 100 violations).

(** The share of the Current category as the specification words it:
    the percentage of the breakdown, zero when no Current song was
    played. *)
Definition current_share (report : Report.t) : float :=
  match RotationAuditor.lookup "Current" (Report.category_breakdown report) with
  | Some current => CategoryShare.percentage current
  | None => PrimFloat.zero
  end.

(** Hours 0-23 fully covered by the hourly rule-sets, and every
    rule-set's percentages summing to 100. *)
Definition hours_of (hourly_rules : list Rules.HourlyRuleSet) : list Z :=
  flat_map (fun rule_set => Py.default_to [] (Rules.hours rule_set))
           hourly_rules.

Definition covers_day (hourly_rules : list Rules.HourlyRuleSet) : bool :=
  forallb (fun h => Py.mem_Z h (hours_of hourly_rules)) (Py.range 24).

Definition sums_to_100 (hourly_rules : list Rules.HourlyRuleSet) : bool :=
  forallb (fun rule_set => RulesEngine.percentage_total rule_set =? 100)
          hourly_rules.

(** A rule-set with its percentages changed, and an engine with its
    hourly rule-sets changed. *)
Definition with_rules (rule_set : Rules.HourlyRuleSet)
    (rules : option (list Rules.CategoryRule)) : Rules.HourlyRuleSet :=
  Rules.mkHourlyRuleSet (Rules.name rule_set) (Rules.hours rule_set) rules
                        (Rules.restrictions rule_set).

Definition with_hourly_rules (self : RulesEngine.t)
    (hourly_rules : list Rules.HourlyRuleSet) : RulesEngine.t :=
  let r := RulesEngine.rules self in
  RulesEngine.mk (RulesEngine.db self)
    (Rules.mk (Rules.settings r) (Some hourly_rules) (Rules.tempo_rules r)
              (Rules.gender_rules r) (Rules.genre_rules r)
              (Rules.special_rules r) (Rules.other_keys r)).

(** The number of recommendations the specification's thresholds ask
    for. *)
Definition b2n (b : bool) : nat := if b then 1%nat else 0%nat.

Definition breaches (report : Report.t) : nat :=
  (b2n (RotationAuditor.num_ltb (RotationAuditor.coverage_of report) 50)
   + b2n (Z.ltb 10 (Py.len (Report.underplayed_songs report)))
   + b2n (RotationAuditor.float_ltb (current_share report) 25
          || RotationAuditor.float_gtb (current_share report) 50)
   + List.length
       (filter (fun e => RotationAuditor.float_gtb (Share.percentage (snd e)) 60)
               (Report.gender_breakdown report))
   + b2n (Z.ltb 20 (Py.len (Report.rule_violations report)))
   + b2n (RotationAuditor.skip_rate_high report))%nat.

End Spec.

(* ================================================================== *)
(** ** Vocabulary of the statements *)
(* ================================================================== *)

(** A computation that only reads: the world it leaves differs from the
    one it found by the number of clock readings. *)
Definition only_ticks {A : Type} (m : M A) : Prop :=
  forall w, exists n, snd (m w) = World.at_tick n w.

Module Selection.
Import RulesEngine.



End Selection.

Module Audit.
Import RotationAuditor.




(** Whether the Current category is in the breakdown with a share
    below 25 or above 50. *)
Definition current_out_of_range (report : Report.t) : bool :=
  match lookup "Current" (Report.category_breakdown report) with
  | Some current =>
      float_ltb (CategoryShare.percentage current) 25
      || float_gtb (CategoryShare.percentage current) 50
  | None => false
  end.

(** The genders of the breakdown whose share is above 60. *)
Definition dominant_genders (report : Report.t) : list (string * Share.t) :=
  filter (fun e => float_gtb (Share.percentage (snd e)) 60)
         (Report.gender_breakdown report).
End Audit.

(** Every element that a computation yields, in whatever world it runs,
    satisfies [P]. *)
Definition yields {B : Type} (P : B -> Prop) (m : M (list B)) : Prop :=
  forall w v, In v (fst (m w)) -> P v.

Definition nonempty {A : Type} (l : list A) : bool :=
  match l with [] => false | _ :: _ => true end.

Definition has_severity (s : Severity) (v : RuleViolation.t) : Prop :=
  RuleViolation.severity v = s.

Definition advisory (v : RuleViolation.t) : Prop :=
  RuleViolation.severity v <> Critical.

Module Checks.
Import RulesEngine.


(** The dayparting rules of the engine, and whether one of them is in
    force at hour [h] of day [d]. *)
Definition dayparting_of (self : t) : list Rules.Daypart :=
  Py.default_to []
    (Rules.dayparting
       (Py.default_to Rules.no_special_rules (Rules.special_rules (rules self)))).

Definition in_force (rule : Rules.Daypart) (h d : Z) : bool :=
  Py.mem_Z h (Py.default_to (Py.range 24) (Rules.dp_hours rule))
  && Py.mem_Z d (Py.default_to (Py.range 7) (Rules.dp_days rule)).

(** The rule forbids explicit content: its condition has the key
    ['explicit'] with a false value. *)
Definition forbids_explicit (rule : Rules.Daypart) : bool :=
  match Rules.cond_explicit
          (Py.default_to Rules.no_condition (Rules.dp_condition rule)) with
  | Some allowed => negb allowed
  | None => false
  end.

Definition has_tempo (tempo : string) (s : Song.t) : bool :=
  Py.opt_str_eqb (Song.tempo s) (Some tempo).

(** The number of songs of tempo [tempo] that end the list [songs]. *)
Definition trailing_run (tempo : string) (songs : list Song.t) : Z :=
  count_while (has_tempo tempo) (rev songs).

Definition max_slow_of (self : t) : Z :=
  Py.default_to 2
    (Rules.max_consecutive_slow
       (Py.default_to Rules.no_tempo_rules (Rules.tempo_rules (rules self)))).

Definition max_fast_of (self : t) : Z :=
  Py.default_to 3
    (Rules.max_consecutive_fast
       (Py.default_to Rules.no_tempo_rules (Rules.tempo_rules (rules self)))).

Definition max_same_gender_of (self : t) : Z :=
  Py.default_to 3
    (Rules.max_consecutive_same_gender
       (Py.default_to Rules.no_gender_rules (Rules.gender_rules (rules self)))).

Definition same_gender (song : Song.t) (recent : Song.t) : bool :=
  Py.opt_str_eqb (Song.gender recent) (Song.gender song).

Definition genre_limits_of (self : t) : list Rules.GenreLimit :=
  Py.default_to []
    (Rules.hourly_limits
       (Py.default_to Rules.no_genre_rules (Rules.genre_rules (rules self)))).

(** The limit is one for the genre of [song] and the count of the hour
    has reached it. *)
Definition reached (song : Song.t) (context : Context.t)
    (limit : Rules.GenreLimit) : bool :=
  Py.opt_str_eqb (Some (Rules.limit_genre limit)) (Song.genre song)
  && (Py.default_to 999 (Rules.max_per_hour limit)
      <=? genre_count (Song.genre song)
            (Py.default_to [] (Context.hourly_genre_counts context))).

(** No rule-set of the engine lists the hour. *)
Definition uncovered (self : t) (hour : option Z) : bool :=
  forallb (fun rule_set =>
             negb (hour_in hour (Py.default_to [] (Rules.hours rule_set))))
          (Py.default_to [] (Rules.hourly_rules (rules self))).

(** The first rule-set of the engine that lists the hour. *)
Definition first_covering (self : t) (hour : option Z)
  : option Rules.HourlyRuleSet :=
  find (fun rule_set => hour_in hour (Py.default_to [] (Rules.hours rule_set)))
       (Py.default_to [] (Rules.hourly_rules (rules self))).

(** [percentages[rule['category']] = rule.get('percentage', 0)]. *)
Definition set_rule (percentages : list (string * Z))
    (rule : Rules.CategoryRule) : list (string * Z) :=
  dict_set (Rules.category rule) (Py.default_to 0 (Rules.percentage rule))
           percentages.

(** The percentage of the last rule of the list for [category]. *)
Definition last_percentage (category : string)
    (rules : list Rules.CategoryRule) : option Z :=
  fold_left
    (fun found rule =>
       if String.eqb category (Rules.category rule)
       then Some (Py.default_to 0 (Rules.percentage rule))
       else found)
    rules None.

(** The artists that [select_next_song] excludes. *)
Definition excluded_artists (context : Context.t) : list string :=
  Py.slice_to 5 (artists_of (Py.default_to [] (Context.recent_plays context))).

(** The type and the severity of a violation. *)
Definition kind (v : RuleViolation.t) : string * Severity :=
  (RuleViolation.rule_type v, RuleViolation.severity v).

(** The kinds of violation that the seven checks emit, and those that
    the audit keeps. *)
Definition checker_kinds : list (string * Severity) :=
  [("separation", Critical); ("hourly", Error); ("hourly", Warning);
   ("tempo", Warning); ("gender", Warning); ("genre", Error);
   ("genre", Warning); ("dayparting", Critical)].

Definition audit_kinds : list (string * Severity) :=
  [("separation", Critical); ("hourly", Error); ("genre", Error);
   ("dayparting", Critical)].

Definition known (v : RuleViolation.t) : Prop := In (kind v) checker_kinds.
End Checks.

Module Tally.
Import RotationAuditor.

(** The number of plays of songs whose attribute is [value], a missing
    attribute counting as ['Unknown']. *)
Definition plays_with (attr : Song.t -> option string) (value : string)
    (plays : list PlayLog.t) : Z :=
  Py.len (filter (fun p => String.eqb (Py.str_or "Unknown" (attr (snd p))) value)
                 (song_plays plays)).

(** The entry of a breakdown for a count: absent for no play. *)
Definition share_of (count total : Z) : option Share.t :=
  if count =? 0 then None else Some (Share.mk count (percent count total)).

Definition more_plays (a b : string * Share.t) : Prop :=
  Share.plays (snd b) <= Share.plays (snd a).

(** The number of plays counted under the hour [h]. *)
Definition plays_in_hour (h : Z) (plays : list PlayLog.t) : Z :=
  count_if (fun play => hour_of_play play =? h) plays.

(** The plays logged for the song, by [song_id]. *)
Definition plays_of (song : Song.t) (plays : list PlayLog.t) : Z :=
  count_if (fun p => PlayLog.song_id p =? Song.id song) plays.

(** The plays a song of a high rotation category is expected to get in
    a week. *)
Definition expected_of (song : Song.t) : option Z :=
  match Song.category song with
  | Some category =>
      if String.eqb category "Current" then Some 7
      else if String.eqb category "Power Gold" then Some 3
      else None
  | None => None
  end.

(** The ranks 1, 2, ..., [n]. *)
Definition ranks (n : nat) : list Z := map Z.of_nat (seq 1 n).

(** The plays logged at or after [hours] hours before [now]. *)
Definition plays_of_last (hours : Z) (now : Datetime.t) (w : World.t)
  : list PlayLog.t :=
  filter (fun p => now - hours * Datetime.us_per_hour <=? PlayLog.played_at p)
         (World.play_logs w).

(** The sum of the counters of a dictionary. *)
Definition total (counts : list (string * Z)) : Z :=
  fold_right Z.add 0 (map snd counts).
End Tally.

(* ================================================================== *)
(** ** Concrete songs, rules and worlds *)
(* ================================================================== *)

Module Examples.

(** 2024-01-01T08:00:00, a Monday. *)
Definition t0 : Datetime.t := 1704096000 * Datetime.us_per_second.

Definition at_minute (m : Z) : Datetime.t := t0 + Datetime.minutes m.

Definition song (id : Z) (title artist : string) (genre category : string)
    (gender : string) (last_played : option Datetime.t) : Song.t :=
  Song.mk id title artist (Some genre) (Some category) (Some "Happy")
          (Some "Medium") (Some gender) None None false true last_played.

Definition play (id : Z) (s : Song.t) (played_at : Datetime.t) : PlayLog.t :=
  PlayLog.mk id (Song.id s) (Some s) played_at
             (Some (Datetime.hour played_at)) true false.

(** A world whose clock stands at [now]. *)
Definition world (now : Datetime.t) (songs : list Song.t)
    (plays : list PlayLog.t) : World.t :=
  World.mk (fun _ => now) 0 (fun l => l) songs plays [].

Definition the_db : DatabaseManager.t := DatabaseManager.mk "data/kmgi.db".

(** One rule-set for the whole day, everything to Current. *)
Definition all_day : Rules.HourlyRuleSet :=
  Rules.mkHourlyRuleSet (Some "All Day") (Some (Py.range 24))
    (Some [Rules.mkCategoryRule "Current" (Some 100)]) None.

Definition settings_180 : Rules.Settings := Rules.mkSettings (Some 180) (Some 60).

Definition rules_180 : Rules.t :=
  Rules.mk (Some settings_180) (Some [all_day]) None None None None [].

Definition engine_180 : RulesEngine.t := RulesEngine.mk (Some the_db) rules_180.

(** A never-played Current song. *)
Definition fresh_song : Song.t :=
  song 1 "Fresh" "Ada" "Pop" "Current" "Female" None.

(** A Current song played at [t0]. *)
Definition played_song : Song.t :=
  song 2 "Again" "Bo" "Pop" "Current" "Male" (Some t0).


(** Ten minutes, and two hundred minutes, after [t0]. *)
Definition world_10 : World.t := world (at_minute 10) [played_song] [].

(** The rules of [rules_180] without their [settings] section. *)
Definition rules_no_settings : Rules.t :=
  Rules.mk None (Some [all_day]) None None None None [].
Definition engine_no_settings : RulesEngine.t :=
  RulesEngine.mk (Some the_db) rules_no_settings.

(** Three plays, oldest first, and a fourth to be checked: the last
    song played and the candidate are both Rock. *)
Definition pop_a : Song.t := song 11 "A" "Ann" "Pop" "Current" "Female" None.
Definition pop_b : Song.t := song 12 "B" "Bob" "Pop" "Current" "Male" None.
Definition rock_a : Song.t := song 13 "C" "Cat" "Rock" "Current" "Group" None.
Definition rock_b : Song.t := song 14 "D" "Dan" "Rock" "Current" "Male" None.
Definition genre_history : list PlayLog.t :=
  [play 1 pop_a (at_minute 0); play 2 pop_b (at_minute 4);
   play 3 rock_a (at_minute 8); play 4 rock_b (at_minute 12)].
Definition rock_replay : PlayLog.t := play 4 rock_b (at_minute 12).

(** An explicit song, aired at [t0], and rules that keep explicit content
    off the air at every hour of every day. *)
Definition explicit_song : Song.t :=
  Song.mk 21 "Loud" "Eve" (Some "Rap") (Some "Current") (Some "Angry")
          (Some "Fast") (Some "Female") None None true true (Some t0).
Definition clean_daypart : Rules.Daypart :=
  Rules.mkDaypart (Some "Family Hours") None None
                  (Some (Rules.mkCondition (Some false))).
Definition rules_clean : Rules.t :=
  Rules.mk (Some settings_180) (Some [all_day]) None None None
           (Some (Rules.mkSpecialRules (Some [clean_daypart]))) [].
Definition engine_clean : RulesEngine.t := RulesEngine.mk (Some the_db) rules_clean.
Definition auditor_clean : RotationAuditor.t :=
  RotationAuditor.mk (Some the_db) (Some engine_clean).
Definition explicit_play : PlayLog.t := play 1 explicit_song t0.

(** The next day. *)
Definition world_clean : World.t :=
  world (at_minute 1440) [explicit_song] [explicit_play].

(** A library of three Gold songs, each played once; no Current song
    is played. The audit runs the next day. *)
Definition gold_a : Song.t :=
  song 31 "G1" "Flo" "Soul" "Gold" "Female" (Some (at_minute 0)).
Definition gold_b : Song.t :=
  song 32 "G2" "Gus" "Soul" "Gold" "Male" (Some (at_minute 4)).
Definition gold_c : Song.t :=
  song 33 "G3" "Hex" "Funk" "Gold" "Group" (Some (at_minute 8)).
Definition gold_plays : list PlayLog.t :=
  [play 1 gold_a (at_minute 0); play 2 gold_b (at_minute 4);
   play 3 gold_c (at_minute 8)].
Definition world_gold : World.t :=
  world (at_minute 1440) [gold_a; gold_b; gold_c] gold_plays.
Definition auditor_180 : RotationAuditor.t :=
  RotationAuditor.mk (Some the_db) (Some engine_180).

(** A world with one Current song to select. *)
Definition world_fresh : World.t := world t0 [fresh_song] [].

(** A report whose library coverage is 10%. *)
Definition low_coverage_report : Report.t :=
  Report.mk "weekly" (t0 - Datetime.days 7) t0 t0
    (Some (Summary.mk 2 1 1 10 (Float (Py.round1 (Py.float_of 10)))
                      (Py.float_of 0) (Float (Py.float_of 2))
                      (Py.float_of 0) 2 0))
    [] [] [] [] [] [] [] [] [] [] [].

(** A retired Current song: the row is kept, [is_active] is false. *)
Definition retired_song : Song.t :=
  Song.mk 40 "Gone" "Hal" (Some "Pop") (Some "Current") (Some "Happy")
          (Some "Medium") (Some "Male") None None false false None.

(** A library with one song per category. *)
Definition one_per_category : list Song.t :=
  [song 41 "Deep" "Ida" "Jazz" "Deep Cut" "Female" None;
   song 42 "Old" "Jon" "Soul" "Gold" "Male" None;
   song 43 "Hit" "Kim" "Pop" "Current" "Female" None;
   song 44 "Big" "Lou" "Rock" "Power Gold" "Male" None;
   song 45 "Back" "Mia" "Pop" "Recurrent" "Female" None].

(** Eight Current songs; the first seven are played seven times each,
    one play an hour, and the eighth is never played. *)
Definition current_song (i : Z) : Song.t :=
  song i "Track" "Artist" "Pop" "Current" "Group" None.

Definition week_plays : list PlayLog.t :=
  flat_map
    (fun i =>
       map (fun k => play (7 * i + k) (current_song i)
                          (at_minute (60 * (7 * i + k))))
           (Py.range 7))
    (map (fun i => i + 1) (Py.range 7)).

Definition week_library : list Song.t :=
  map (fun i => current_song (i + 1)) (Py.range 8).

(** Monday at eight, as a context gives it. *)
Definition monday_at_8 : Context.t :=
  Context.mk None None (Some (Some 8)) (Some 0) None.

Definition ada_again : Song.t :=
  song 6 "Second" "ADA" "Pop" "Current" "Female" None.

(** Three songs by women, then a fourth; and two and a man's. *)
Definition after_three_women : Context.t :=
  Context.mk None (Some [fresh_song; pop_a; ada_again]) None None None.
Definition after_a_man : Context.t :=
  Context.mk None (Some [fresh_song; pop_a; pop_b]) None None None.

(** Rules whose gender limit is zero. *)
Definition rules_gender_0 : Rules.t :=
  Rules.mk (Some settings_180) (Some [all_day]) None
           (Some (Rules.mkGenderRules (Some 0))) None None [].
Definition engine_gender_0 : RulesEngine.t :=
  RulesEngine.mk (Some the_db) rules_gender_0.

(** A rule-set for the hours 6 to 9 only, in which Current is listed
    twice. *)
Definition morning_drive : Rules.HourlyRuleSet :=
  Rules.mkHourlyRuleSet (Some "Morning Drive") (Some [6; 7; 8; 9])
    (Some [Rules.mkCategoryRule "Current" (Some 40);
           Rules.mkCategoryRule "Gold" (Some 30);
           Rules.mkCategoryRule "Current" (Some 70)])
    None.
Definition rules_morning : Rules.t :=
  Rules.mk (Some settings_180) (Some [morning_drive]) None None None None [].
Definition engine_morning : RulesEngine.t :=
  RulesEngine.mk (Some the_db) rules_morning.
Definition at_23 : Context.t :=
  Context.mk None None (Some (Some 23)) None None.

(** The explicit song aired twice, half an hour apart. *)
Definition explicit_replay : PlayLog.t := play 2 explicit_song (at_minute 30).
Definition explicit_entry : ViolationEntry.t :=
  ViolationEntry.mk (at_minute 30) "Loud" "Eve" "Dayparting: Family Hours"
    "dayparting" Critical "Explicit content not allowed during this daypart".
End Examples.

(* ================================================================== *)
(** ** The built-ins and the scenarios of the specification, computed *)
(* ================================================================== *)

Section Computed.

Example slice_from_end : Py.slice_from (-2) [1; 2; 3; 4; 5] = [4; 5].
Proof. reflexivity. Qed.

Example slice_from_minus_zero : Py.slice_from (- 0) [1; 2; 3] = [1; 2; 3].
Proof. reflexivity. Qed.

Example slice_from_beyond : Py.slice_from (-7) [1; 2; 3] = [1; 2; 3].
Proof. reflexivity. Qed.

Example slice_to_front : Py.slice_to 2 [1; 2; 3; 4; 5] = [1; 2].
Proof. reflexivity. Qed.

Example slice_to_negative : Py.slice_to (-1) [1; 2; 3] = [1; 2].
Proof. reflexivity. Qed.

Example slice_window_of_ten :
  Py.slice (Nat.max 0 (12 - 10)) 12 (Py.range 20)
  = [2; 3; 4; 5; 6; 7; 8; 9; 10; 11].
Proof. reflexivity. Qed.

Example sorted_is_stable :
  Py.sorted fst [(2, "b"); (1, "a"); (2, "d"); (1, "c")]
  = [(1, "a"); (1, "c"); (2, "b"); (2, "d")].
Proof. reflexivity. Qed.

Example sorted_desc_is_stable :
  Py.sorted_desc fst [(1, "a"); (2, "b"); (1, "c"); (2, "d")]
  = [(2, "b"); (2, "d"); (1, "a"); (1, "c")].
Proof. reflexivity. Qed.

Example str_of_integers :
  Py.str (-12) = "-12" /\ Py.str 0 = "0" /\ Py.str_list [0; 7; 23] = "[0, 7, 23]".
Proof. repeat split. Qed.

Example lower_of_name : Py.lower "The B-52's" = "the b-52's".
Proof. reflexivity. Qed.

(** [round(0.25, 1) == 0.2], [round(0.75, 1) == 0.8] (ties to even),
    [round(100 / 3, 1) == 33.3] and [round(-0.04, 1) == -0.0]. *)
Example round1_values :
  Py.round1 (Py.true_div 1 4) = Py.true_div 2 10
  /\ Py.round1 (Py.true_div 3 4) = Py.true_div 8 10
  /\ Py.round1 (Py.true_div 100 3) = Py.true_div 333 10
  /\ Py.round1 (Py.true_div (-4) 100) = PrimFloat.opp PrimFloat.zero.
Proof. repeat split. Qed.

(** 2024-01-01T08:00:00 was a Monday. *)
Example t0_hour_and_weekday :
  Datetime.hour Examples.t0 = 8 /\ Datetime.weekday Examples.t0 = 0.
Proof. split; reflexivity. Qed.

(** An explicit song during hours that a dayparting rule keeps clean:
    one critical violation, and the song may not play. *)
Example explicit_song_is_blocked :
  value (RulesEngine.can_play_song Examples.engine_clean
           Examples.explicit_song Context.empty)
        Examples.world_clean
  = (false,
     [RuleViolation.mk "Dayparting: Family Hours" "dayparting" Critical
        "Explicit content not allowed during this daypart"
        (Some 21) (Some "Loud") (Examples.at_minute 1440)]).
Proof. vm_compute. reflexivity. Qed.

(** One song per category and an hourly rule-set that gives everything
    to Current: the Current song is selected. *)
Example current_song_is_selected :
  value (RulesEngine.select_next_song Examples.engine_180 Context.empty)
        (Examples.world Examples.t0 Examples.one_per_category [])
  = nth_error Examples.one_per_category 2.
Proof. vm_compute. reflexivity. Qed.

(** A retired song ahead of it in the table is passed over. *)
Example retired_song_is_passed_over :
  value (RulesEngine.select_next_song Examples.engine_180 Context.empty)
        (Examples.world Examples.t0
           (Examples.retired_song :: Examples.one_per_category) [])
  = nth_error Examples.one_per_category 2.
Proof. vm_compute. reflexivity. Qed.

(** Seven Current songs played seven times each in the week and one
    never played: the underplayed list is the unplayed song, with no
    actual play and seven expected. *)
Example unplayed_song_is_underplayed :
  RotationAuditor._find_underplayed Examples.week_plays Examples.week_library
  = [Underplayed.mk "Track" "Artist" (Some "Current") 0 7 8].
Proof. vm_compute. reflexivity. Qed.

End Computed.

(* ================================================================== *)
(** ** Running a computation *)
(* ================================================================== *)

Lemma bind_run {A B : Type} (m : M A) (f : A -> M B) (w : World.t) :
  bind m f w = f (fst (m w)) (snd (m w)).
Proof. unfold bind. destruct (m w); reflexivity. Qed.

Section Frame.

Lemma at_tick_self (w : World.t) : World.at_tick (World.ticks w) w = w.
Proof. destruct w; reflexivity. Qed.

Lemma at_tick_at_tick (n m : nat) (w : World.t) :
  World.at_tick n (World.at_tick m w) = World.at_tick n w.
Proof. reflexivity. Qed.

Lemma only_ticks_ret {A : Type} (a : A) : only_ticks (ret a).
Proof. intros w. exists (World.ticks w). symmetry. apply at_tick_self. Qed.

Lemma only_ticks_utcnow : only_ticks utcnow.
Proof. intros w. exists (S (World.ticks w)). reflexivity. Qed.

Lemma only_ticks_read {A : Type} (f : World.t -> A) :
  only_ticks (fun w => (f w, w)).
Proof. intros w. exists (World.ticks w). symmetry. apply at_tick_self. Qed.

Lemma only_ticks_bind {A B : Type} (m : M A) (f : A -> M B) :
  only_ticks m -> (forall a, only_ticks (f a)) -> only_ticks (bind m f).
Proof.
  intros Hm Hf w. rewrite bind_run.
  destruct (Hm w) as [n En]. rewrite En.
  destruct (Hf (fst (m w)) (World.at_tick n w)) as [k Ek].
  exists k. rewrite Ek. reflexivity.
Qed.

Lemma only_ticks_for_each {A B : Type} (body : A -> M (list B)) (l : list A) :
  (forall a, only_ticks (body a)) -> only_ticks (for_each body l).
Proof.
  intros Hb. induction l as [|x l IH]; simpl.
  - apply only_ticks_ret.
  - apply only_ticks_bind; [apply Hb|]. intros ys.
    apply only_ticks_bind; [apply IH|]. intros zs. apply only_ticks_ret.
Qed.

End Frame.

Create HintDb ticks.
#[export] Hint Resolve only_ticks_ret only_ticks_utcnow only_ticks_read : ticks.

(** Decomposes a computation built from [bind], [ret], [utcnow],
    [for_each] and case distinctions. *)
Ltac ticks :=
  repeat first
    [ solve [auto with ticks]
    | apply only_ticks_bind; [|intros ?]
    | apply only_ticks_for_each; intros ?
    | match goal with
      | |- only_ticks (if ?b then _ else _) => destruct b
      | |- only_ticks (match ?x with _ => _ end) => destruct x
      | |- only_ticks (let (_, _) := ?x in _) => destruct x
      end ].

(** A loop whose body only reads the clock yields the concatenation of
    what each element yields, every element at some reading of the
    clock, and leaves a world that differs by the readings. *)
Section ForEachTrace.
Context {A B : Type} (body : A -> M (list B)) (w : World.t).
Hypothesis body_only_ticks : forall a, only_ticks (body a).

Lemma for_each_trace (l : list A) (n : nat) :
  exists (per : list (list B)) (k : nat),
    for_each body l (World.at_tick n w) = (List.concat per, World.at_tick k w)
    /\ List.length per = List.length l
    /\ forall i a, nth_error l i = Some a ->
         exists m, nth_error per i = Some (value (body a) (World.at_tick m w)).
Proof.
  revert n. induction l as [|x l IH]; intros n.
  - exists [], n. split; [reflexivity|]. split; [reflexivity|].
    intros [|i] a; discriminate.
  - simpl. rewrite bind_run.
    destruct (body_only_ticks x (World.at_tick n w)) as [k1 E1].
    rewrite E1, at_tick_at_tick. rewrite bind_run.
    destruct (IH k1) as [per [k [E [Hlen Hnth]]]].
    rewrite E. cbn [fst snd ret].
    exists (value (body x) (World.at_tick n w) :: per), k.
    split; [reflexivity|]. split; [simpl; congruence|].
    intros [|i] a; simpl.
    + intros E'. injection E' as <-. exists n. reflexivity.
    + apply Hnth.
Qed.
End ForEachTrace.

(* ================================================================== *)
(** ** Python built-ins: slices, membership, sorting *)
(* ================================================================== *)

Section PyFacts.

Lemma mem_Z_In (x : Z) (l : list Z) : Py.mem_Z x l = true <-> In x l.
Proof.
  unfold Py.mem_Z. rewrite existsb_exists. split.
  - intros [y [Hin E]]. apply Z.eqb_eq in E. subst. assumption.
  - intros H. exists x. split; [assumption | apply Z.eqb_refl].
Qed.

Lemma filter_nil {A : Type} (p : A -> bool) (l : list A) :
  forallb (fun x => negb (p x)) l = true -> filter p l = [].
Proof.
  induction l as [|x l IH]; simpl; [reflexivity|].
  intros H. apply andb_prop in H. destruct H as [Hx Hl].
  apply negb_true_iff in Hx. rewrite Hx. auto.
Qed.

Lemma slice_to_firstn {A : Type} (b : Z) (l : list A) :
  0 <= b -> Py.slice_to b l = firstn (Z.to_nat b) l.
Proof.
  intros Hb. unfold Py.slice_to, Py.len.
  destruct (Z.ltb_spec b 0) as [?|_]; [lia|].
  destruct (Z.le_gt_cases b (Z.of_nat (List.length l))) as [H|H].
  - rewrite Z.min_l by assumption. reflexivity.
  - rewrite Z.min_r by lia. rewrite Nat2Z.id.
    rewrite firstn_all. symmetry. apply firstn_all2. lia.
Qed.

(** [l[max(0, i-10):i]] is the end of [l[:i]], ten elements long or
    the whole of it. *)
Lemma slice_window {A : Type} (l : list A) (i : nat) :
  (i <= List.length l)%nat ->
  firstn i l = firstn (i - 10) l ++ Py.slice (Nat.max 0 (i - 10)) i l
  /\ List.length (Py.slice (Nat.max 0 (i - 10)) i l) = Nat.min i 10.
Proof.
  intros Hi. unfold Py.slice. rewrite Nat.max_0_l.
  split.
  - rewrite <- (firstn_skipn (i - 10) l) at 1.
    rewrite firstn_app, firstn_firstn.
    rewrite Nat.min_r by lia.
    rewrite length_firstn. rewrite Nat.min_l by lia. reflexivity.
  - rewrite length_firstn, length_skipn. lia.
Qed.

Lemma length_enumerate {A : Type} (l : list A) (start : nat) :
  List.length (Py.enumerate start l) = List.length l.
Proof. revert start. induction l; intros start; simpl; auto. Qed.

Lemma nth_error_enumerate {A : Type} (l : list A) (start i : nat) :
  nth_error (Py.enumerate start l) i
  = option_map (fun a => ((start + i)%nat, a)) (nth_error l i).
Proof.
  revert start i. induction l as [|x l IH]; intros start [|i]; simpl;
    try reflexivity.
  - rewrite Nat.add_0_r. reflexivity.
  - rewrite IH. rewrite Nat.add_succ_r. reflexivity.
Qed.

End PyFacts.

Section SortedFacts.
Context {A : Type} (key : A -> Z).

Lemma insert_by_perm (x : A) (l : list A) :
  Permutation (x :: l) (Py.insert_by key x l).
Proof.
  induction l as [|y l IH]; simpl; [reflexivity|].
  destruct (key x <=? key y); [reflexivity|].
  rewrite perm_swap. constructor. exact IH.
Qed.

Lemma sorted_perm (l : list A) : Permutation l (Py.sorted key l).
Proof.
  induction l as [|x l IH]; simpl; [constructor|].
  rewrite <- insert_by_perm. constructor. exact IH.
Qed.

Lemma insert_by_sorted (x : A) (l : list A) :
  StronglySorted (fun a b => key a <= key b) l ->
  StronglySorted (fun a b => key a <= key b) (Py.insert_by key x l).
Proof.
  induction l as [|y l IH]; simpl; intros H.
  - constructor; constructor.
  - inversion H as [|? ? Hl Hy]; subst.
    destruct (Z.leb_spec (key x) (key y)) as [Hxy|Hxy].
    + constructor; [assumption|].
      constructor; [exact Hxy|].
      rewrite Forall_forall in *. intros z Hz.
      specialize (Hy z Hz). simpl in Hy. lia.
    + constructor; [apply IH; assumption|].
      rewrite Forall_forall in *. intros z Hz.
      apply (Permutation_in _ (Permutation_sym (insert_by_perm x l))) in Hz.
      destruct Hz as [<-|Hz]; [lia|auto].
Qed.

Lemma sorted_sorted (l : list A) :
  StronglySorted (fun a b => key a <= key b) (Py.sorted key l).
Proof.
  induction l as [|x l IH]; simpl; [constructor|].
  apply insert_by_sorted; assumption.
Qed.
End SortedFacts.

(* ================================================================== *)
(** ** The constraint checker *)
(* ================================================================== *)

Section CheckerFrame.
Import RulesEngine.
Variables (self : t) (song : Song.t) (context : Context.t).

Lemma only_ticks_one_violation a b c d :
  only_ticks (one_violation a b c d song).
Proof. unfold one_violation, new_violation. ticks. Qed.
Hint Resolve only_ticks_one_violation : ticks.

Lemma only_ticks_song_separation :
  only_ticks (check_song_separation self song context).
Proof. unfold check_song_separation. ticks. Qed.

Lemma only_ticks_artist_scan m plays : only_ticks (artist_scan m song plays).
Proof. induction plays as [|p l IH]; simpl; ticks. Qed.

Lemma only_ticks_artist_separation :
  only_ticks (check_artist_separation self song context).
Proof. unfold check_artist_separation. apply only_ticks_artist_scan. Qed.

Lemma only_ticks_current_hour : only_ticks (current_hour_of context).
Proof. unfold current_hour_of. ticks. Qed.
Hint Resolve only_ticks_current_hour : ticks.

Lemma only_ticks_hourly_scan h l : only_ticks (hourly_scan song h l).
Proof.
  induction l as [|rs l IH]; simpl; [ticks|].
  destruct (hour_in h _); [|assumption].
  unfold check_rule_set, check_restriction. ticks.
Qed.

Lemma only_ticks_hourly_rules :
  only_ticks (check_hourly_rules self song context).
Proof.
  unfold check_hourly_rules. ticks. apply only_ticks_hourly_scan.
Qed.

Lemma only_ticks_tempo_rules :
  only_ticks (check_tempo_rules self song context).
Proof. unfold check_tempo_rules. ticks. Qed.

Lemma only_ticks_gender_rules :
  only_ticks (check_gender_rules self song context).
Proof. unfold check_gender_rules. ticks. Qed.

Lemma only_ticks_genre_rules :
  only_ticks (check_genre_rules self song context).
Proof. unfold check_genre_rules, check_genre_limit. ticks. Qed.

Lemma only_ticks_dayparting_rules :
  only_ticks (check_dayparting_rules self song context).
Proof. unfold check_dayparting_rules, check_daypart. ticks. Qed.

Lemma only_ticks_can_play_song :
  only_ticks (can_play_song self song context).
Proof.
  unfold can_play_song.
  pose proof only_ticks_song_separation.
  pose proof only_ticks_artist_separation.
  pose proof only_ticks_hourly_rules.
  pose proof only_ticks_tempo_rules.
  pose proof only_ticks_gender_rules.
  pose proof only_ticks_genre_rules.
  pose proof only_ticks_dayparting_rules.
  repeat (apply only_ticks_bind; [assumption|intros ?]).
  apply only_ticks_ret.
Qed.
End CheckerFrame.

Section Checker.
Import RulesEngine.

(** The seven checks run one after the other, each in the world the
    previous one left, and their results are concatenated. *)
Lemma can_play_song_run (self : t) (song : Song.t) (context : Context.t)
    (w : World.t) :
  let r1 := check_song_separation self song context w in
  let r2 := check_artist_separation self song context (snd r1) in
  let r3 := check_hourly_rules self song context (snd r2) in
  let r4 := check_tempo_rules self song context (snd r3) in
  let r5 := check_gender_rules self song context (snd r4) in
  let r6 := check_genre_rules self song context (snd r5) in
  let r7 := check_dayparting_rules self song context (snd r6) in
  let violations :=
    fst r1 ++ fst r2 ++ fst r3 ++ fst r4 ++ fst r5 ++ fst r6 ++ fst r7 in
  can_play_song self song context w
  = ((negb (existsb is_critical violations), violations), snd r7).
Proof.
  unfold can_play_song. repeat rewrite bind_run. reflexivity.
Qed.

Lemma is_critical_iff (v : RuleViolation.t) :
  is_critical v = true <-> RuleViolation.severity v = Critical.
Proof.
  unfold is_critical. destruct (RuleViolation.severity v); simpl;
    split; congruence.
Qed.

Lemma no_critical_iff (vs : list RuleViolation.t) :
  negb (existsb is_critical vs) = true
  <-> forall v, In v vs -> RuleViolation.severity v <> Critical.
Proof.
  rewrite negb_true_iff. split.
  - intros H v Hin Hc.
    assert (existsb is_critical vs = true) as E.
    { apply existsb_exists. exists v. split; [assumption|].
      apply is_critical_iff; assumption. }
    congruence.
  - intros H. destruct (existsb is_critical vs) eqn:E; [|reflexivity].
    apply existsb_exists in E. destruct E as [v [Hin Hc]].
    apply is_critical_iff in Hc. exfalso. exact (H v Hin Hc).
Qed.

(** C1. [can_play_song] runs the seven checks (song separation, artist
    separation, hourly, tempo, gender, genre, dayparting) one after the
    other whatever the earlier ones found, returns the concatenation
    of all the violations they emit, whatever their severity, and
    answers [true] exactly when none of them is critical. *)
Theorem can_play_song_all_checks (self : t) (song : Song.t)
    (context : Context.t) (w : World.t) :
  let r1 := check_song_separation self song context w in
  let r2 := check_artist_separation self song context (snd r1) in
  let r3 := check_hourly_rules self song context (snd r2) in
  let r4 := check_tempo_rules self song context (snd r3) in
  let r5 := check_gender_rules self song context (snd r4) in
  let r6 := check_genre_rules self song context (snd r5) in
  let r7 := check_dayparting_rules self song context (snd r6) in
  let result := can_play_song self song context w in
  snd (fst result)
  = fst r1 ++ fst r2 ++ fst r3 ++ fst r4 ++ fst r5 ++ fst r6 ++ fst r7
  /\ snd result = snd r7
  /\ (fst (fst result) = true
      <-> forall v, In v (snd (fst result)) ->
                    RuleViolation.severity v <> Critical).
Proof.
  intros r1 r2 r3 r4 r5 r6 r7 result.
  pose proof (can_play_song_run self song context w) as E.
  cbv zeta in E. fold r1 r2 r3 r4 r5 r6 r7 result in E.
  rewrite E. cbn [fst snd].
  split; [reflexivity|]. split; [reflexivity|].
  apply no_critical_iff.
Qed.

(** C10. A song that was never played ([last_played] is null) gets no
    violation from the song-separation check, whatever the configured
    [song_separation]; the check does not even read the clock. *)
Theorem song_separation_never_played (self : t) (song : Song.t)
    (context : Context.t) (w : World.t) :
  Song.last_played song = None ->
  check_song_separation self song context w = ([], w).
Proof.
  intros H. unfold check_song_separation. rewrite H. reflexivity.
Qed.

Lemma song_separation_never_played_witness :
  Song.last_played Examples.fresh_song = None
  /\ check_song_separation Examples.engine_180 Examples.fresh_song
       Context.empty Examples.world_fresh
     = ([], Examples.world_fresh).
Proof.
  split; [reflexivity|].
  apply (song_separation_never_played Examples.engine_180
           Examples.fresh_song Context.empty Examples.world_fresh).
  reflexivity.
Defined.




(** C4, at a failing input. The auditor hands the checker the context
    songs oldest first; the genre check looks at [recent_songs[:2]],
    the two oldest, where the tempo and gender checks look at the end
    of the list. With Pop, Pop, Rock played and a Rock candidate, the
    song played just before is of the candidate's genre, and the check
    emits no warning. *)
Theorem genre_separation_misses_latest (w : World.t) :
  let context :=
    RotationAuditor.context_at Examples.genre_history 3 Examples.rock_replay in
  Context.recent_songs context
  = Some [Examples.pop_a; Examples.pop_b; Examples.rock_a]
  /\ Song.genre Examples.rock_b = Song.genre Examples.rock_a
  /\ check_genre_rules Examples.engine_180 Examples.rock_b context w = ([], w).
Proof. repeat split. Qed.

End Checker.


(* ================================================================== *)
(** ** Validation of the rules *)
(* ================================================================== *)

Section ValidateRules.
Import RulesEngine.

Lemma missing_hours_covered (hourly_rules : list Rules.HourlyRuleSet) :
  Spec.covers_day hourly_rules = true -> missing_hours hourly_rules = [].
Proof.
  intros H. unfold missing_hours. apply filter_nil.
  unfold Spec.covers_day, Spec.hours_of in H.
  rewrite forallb_forall in *. intros h Hin.
  rewrite (H h Hin). reflexivity.
Qed.

(** What [covers_day] decides: every hour from 0 to 23 is among the
    hours of some rule-set. *)
Lemma covers_day_spec (hourly_rules : list Rules.HourlyRuleSet) :
  Spec.covers_day hourly_rules = true
  <-> forall h, 0 <= h < 24 ->
        exists rule_set,
          In rule_set hourly_rules
          /\ In h (Py.default_to [] (Rules.hours rule_set)).
Proof.
  unfold Spec.covers_day, Spec.hours_of. rewrite forallb_forall. split.
  - intros H h Hh.
    assert (In h (Py.range 24)) as Hin.
    { unfold Py.range. apply in_map_iff. exists (Z.to_nat h).
      split; [lia|]. apply in_seq. lia. }
    specialize (H h Hin). apply mem_Z_In in H.
    apply in_flat_map in H. exact H.
  - intros H h Hin. apply mem_Z_In. apply in_flat_map. apply H.
    unfold Py.range in Hin. apply in_map_iff in Hin.
    destruct Hin as [n [<- Hn]]. apply in_seq in Hn. lia.
Qed.

Lemma check_percentages_100 (hourly_rules : list Rules.HourlyRuleSet) :
  Spec.sums_to_100 hourly_rules = true ->
  flat_map check_percentages hourly_rules = [].
Proof.
  induction hourly_rules as [|rs l IH]; simpl; [reflexivity|].
  intros H. apply andb_prop in H. destruct H as [Hrs Hl].
  unfold check_percentages at 1. rewrite Hrs. simpl. auto.
Qed.

Lemma covers_day_with_rules pre rs post new_rules :
  Spec.covers_day (pre ++ Spec.with_rules rs new_rules :: post)
  = Spec.covers_day (pre ++ rs :: post).
Proof.
  unfold Spec.covers_day, Spec.hours_of.
  rewrite !flat_map_app. reflexivity.
Qed.

Lemma sums_to_100_app l1 l2 :
  Spec.sums_to_100 (l1 ++ l2) = Spec.sums_to_100 l1 && Spec.sums_to_100 l2.
Proof. apply forallb_app. Qed.

(** With both sections present and the day covered, the issues are those
    of the percentages. *)
Lemma validate_rules_present (self : t) settings hourly_rules :
  Rules.settings (rules self) = Some settings ->
  Rules.hourly_rules (rules self) = Some hourly_rules ->
  Spec.covers_day hourly_rules = true ->
  validate_rules self = flat_map check_percentages hourly_rules.
Proof.
  intros Hs Hh Hc. unfold validate_rules.
  unfold Rules.is_empty. rewrite Hs, Hh.
  rewrite (missing_hours_covered _ Hc). reflexivity.
Qed.

(** C3, as the code has it. For a configuration that has a [settings]
    section, whose hourly rule-sets cover hours 0-23 and each sum to
    100, [validate_rules] returns no issue; and when the percentages of
    any one rule-set are changed so that they no longer sum to 100, it
    returns exactly one issue, which carries the name of that rule-set
    ([None] for a rule-set without a name) and the new total. *)
Theorem validate_rules_percentages (self : t) (settings : Rules.Settings)
    (hourly_rules : list Rules.HourlyRuleSet) :
  Rules.settings (rules self) = Some settings ->
  Rules.hourly_rules (rules self) = Some hourly_rules ->
  Spec.covers_day hourly_rules = true ->
  Spec.sums_to_100 hourly_rules = true ->
  validate_rules self = []
  /\ forall pre rule_set post new_rules,
       hourly_rules = pre ++ rule_set :: post ->
       percentage_total (Spec.with_rules rule_set new_rules) <> 100 ->
       validate_rules
         (Spec.with_hourly_rules self
            (pre ++ Spec.with_rules rule_set new_rules :: post))
       = [Py.fstr ["Percentages for '"; Py.str_opt (Rules.name rule_set);
                   "' sum to ";
                   Py.str (percentage_total
                             (Spec.with_rules rule_set new_rules));
                   ", not 100"]].
Proof.
  intros Hs Hh Hc H100. split.
  - rewrite (validate_rules_present self settings hourly_rules Hs Hh Hc).
    apply check_percentages_100; assumption.
  - intros pre rs post new_rules E Hne. subst hourly_rules.
    rewrite (validate_rules_present _ settings
               (pre ++ Spec.with_rules rs new_rules :: post)).
    + rewrite sums_to_100_app in H100.
      apply andb_prop in H100. destruct H100 as [Hpre Hrest].
      simpl in Hrest. apply andb_prop in Hrest. destruct Hrest as [_ Hpost].
      rewrite flat_map_app. simpl.
      rewrite (check_percentages_100 _ Hpre), (check_percentages_100 _ Hpost).
      unfold check_percentages.
      destruct (Z.eqb_spec (percentage_total (Spec.with_rules rs new_rules)) 100);
        [contradiction|].
      reflexivity.
    + simpl. assumption.
    + reflexivity.
    + rewrite covers_day_with_rules. assumption.
Qed.

Lemma validate_rules_percentages_witness :
  validate_rules Examples.engine_180 = []
  /\ forall pre rule_set post new_rules,
       [Examples.all_day] = pre ++ rule_set :: post ->
       percentage_total (Spec.with_rules rule_set new_rules) <> 100 ->
       validate_rules
         (Spec.with_hourly_rules Examples.engine_180
            (pre ++ Spec.with_rules rule_set new_rules :: post))
       = [Py.fstr ["Percentages for '"; Py.str_opt (Rules.name rule_set);
                   "' sum to ";
                   Py.str (percentage_total
                             (Spec.with_rules rule_set new_rules));
                   ", not 100"]].
Proof.
  apply (validate_rules_percentages Examples.engine_180 Examples.settings_180
           [Examples.all_day]); reflexivity.
Defined.

(** C3, as the specification states it, fails: a configuration without a
    [settings] section, whose single rule-set covers the day and sums
    to 100, gets an issue. *)
Lemma validate_rules_without_settings :
  Spec.covers_day [Examples.all_day] = true
  /\ Spec.sums_to_100 [Examples.all_day] = true
  /\ validate_rules Examples.engine_no_settings
     = ["Missing 'settings' section"].
Proof. repeat split. Qed.

End ValidateRules.

(* ================================================================== *)
(** ** Selection of the next song *)
(* ================================================================== *)

Section SelectNextSong.
Import RulesEngine.
Variables (self : t) (context : Context.t).



Lemma only_ticks_first_playable songs :
  only_ticks (first_playable self context songs).
Proof.
  induction songs as [|s l IH]; simpl; [ticks|].
  apply only_ticks_bind; [apply only_ticks_can_play_song|].
  intros r. destruct (fst r); [ticks|assumption].
Qed.

Lemma only_ticks_get_eligible_songs category m ea ei :
  only_ticks (DatabaseManager.get_eligible_songs category m ea ei).
Proof. unfold DatabaseManager.get_eligible_songs. ticks. Qed.






End SelectNextSong.



(* ================================================================== *)
(** ** The auditor's violation pass *)
(* ================================================================== *)

Section FindViolations.
Import RotationAuditor.

Lemma only_ticks_audit_play engine sorted_plays ip :
  only_ticks (audit_play engine sorted_plays ip).
Proof.
  unfold audit_play. destruct ip as [i play].
  destruct (PlayLog.song play); [|ticks].
  apply only_ticks_bind; [apply only_ticks_can_play_song|].
  intros r. ticks.
Qed.


Lemma audit_play_reportable engine sorted_plays ip w e :
  In e (value (audit_play engine sorted_plays ip) w) ->
  ViolationEntry.severity e = Error \/ ViolationEntry.severity e = Critical.
Proof.
  unfold value, audit_play. destruct ip as [i play].
  destruct (PlayLog.song play) as [song|]; [|intros []].
  rewrite bind_run. cbn [fst snd ret].
  rewrite in_map_iff. intros [v [<- Hv]].
  apply filter_In in Hv. destruct Hv as [_ Hv].
  unfold reportable in Hv. cbn.
  destruct (RuleViolation.severity v); [discriminate|auto|auto].
Qed.

(** C5, as the code has it. With a rules engine, the violation pass
    sorts the plays by [played_at]; it checks every play but the
    earliest (a play without a song yields nothing), in that order, each
    against a context made of the up-to-10 plays just before it, their
    songs and the play's hour; it keeps the violations of severity
    error or critical and returns the first 100 of them. *)
Theorem find_violations_replay (db : option DatabaseManager.t)
    (engine : RulesEngine.t) (plays : list PlayLog.t) (w : World.t) :
  let self := mk db (Some engine) in
  let sorted_plays := Py.sorted PlayLog.played_at plays in
  let result := value (_find_violations self plays) w in
  (* chronological order *)
  Permutation plays sorted_plays
  /\ StronglySorted
       (fun p q => PlayLog.played_at p <= PlayLog.played_at q) sorted_plays
  (* the context of the play at position [i] *)
  /\ (forall i play,
        nth_error sorted_plays i = Some play ->
        exists older recent,
          firstn i sorted_plays = older ++ recent
          /\ List.length recent = Nat.min i 10
          /\ context_at sorted_plays i play
             = Context.mk (Some recent) (Some (songs_of recent))
                          (Some (PlayLog.hour play)) None None)
  (* every play but the first is checked, in order *)
  /\ (exists per_play : list (list ViolationEntry.t),
        result = firstn 100 (List.concat per_play)
        /\ List.length per_play = (List.length sorted_plays - 1)%nat
        /\ forall i play,
             nth_error sorted_plays (S i) = Some play ->
             exists n,
               nth_error per_play i
               = Some (match PlayLog.song play with
                       | Some song =>
                           map (entry_of play song)
                             (filter reportable
                                (snd (value
                                        (RulesEngine.can_play_song engine song
                                           (context_at sorted_plays (S i) play))
                                        (World.at_tick n w))))
                       | None => []
                       end))
  (* only errors and critical violations, at most 100 *)
  /\ (forall e, In e result ->
        ViolationEntry.severity e = Error
        \/ ViolationEntry.severity e = Critical)
  /\ (List.length result <= 100)%nat.
Proof.
  intros self sorted_plays result.
  destruct (for_each_trace (audit_play engine sorted_plays) w
              (only_ticks_audit_play engine sorted_plays)
              (Py.enumerate 1 (tl sorted_plays)) (World.ticks w))
    as [per [k [E [Hlen Hnth]]]].
  rewrite at_tick_self in E.
  assert (result = firstn 100 (List.concat per)) as Eres.
  { unfold result, value, _find_violations. cbn [rules_engine self].
    fold sorted_plays. rewrite bind_run, E. cbn [fst snd ret].
    apply (slice_to_firstn 100); lia. }
  split; [apply sorted_perm|].
  split; [apply (sorted_sorted PlayLog.played_at)|].
  split.
  { intros i play Hi.
    assert (i <= List.length sorted_plays)%nat as Hle.
    { apply Nat.lt_le_incl. apply nth_error_Some. congruence. }
    destruct (slice_window sorted_plays i Hle) as [Ef El].
    exists (firstn (i - 10) sorted_plays),
           (Py.slice (Nat.max 0 (i - 10)) i sorted_plays).
    repeat split; assumption || reflexivity. }
  split.
  { exists per. split; [exact Eres|]. split.
    - rewrite Hlen, length_enumerate. destruct sorted_plays; simpl; lia.
    - intros i play Hi.
      destruct (Hnth i (S i, play)) as [n En].
      { rewrite nth_error_enumerate.
        destruct sorted_plays as [|p0 rest]; [discriminate|].
        simpl in Hi |- *. rewrite Hi. reflexivity. }
      exists n. rewrite En. f_equal.
      unfold value, audit_play.
      destruct (PlayLog.song play); [|reflexivity].
      rewrite bind_run. reflexivity. }
  assert (forall e, In e (List.concat per) ->
            ViolationEntry.severity e = Error
            \/ ViolationEntry.severity e = Critical) as Hsev.
  { intros e He. apply List.in_concat in He. destruct He as [es [Hes He]].
    apply In_nth_error in Hes. destruct Hes as [i Hi].
    assert (i < List.length (Py.enumerate 1 (tl sorted_plays)))%nat as Hlt.
    { rewrite <- Hlen. apply nth_error_Some. congruence. }
    destruct (nth_error (Py.enumerate 1 (tl sorted_plays)) i) as [ip|] eqn:Eip.
    - destruct (Hnth i ip Eip) as [m Em].
      rewrite Hi in Em. injection Em as ->.
      exact (audit_play_reportable _ _ _ _ _ He).
    - apply nth_error_None in Eip. lia. }
  split.
  - intros e He. rewrite Eres in He. apply Hsev.
    rewrite <- (firstn_skipn 100 (List.concat per)).
    apply in_or_app. left. exact He.
  - rewrite Eres. apply firstn_le_length.
Qed.

(** C5, as the specification states it, fails on the earliest play: an explicit
    song aired during hours that a dayparting rule keeps clean is the
    only play of the window; checked as the specification says, it carries a
    critical violation, and the pass returns nothing. *)
Lemma first_play_not_replayed :
  value (_find_violations Examples.auditor_clean [Examples.explicit_play])
        Examples.world_clean
  = []
  /\ value (Spec.find_violations Examples.engine_clean [Examples.explicit_play])
           Examples.world_clean
     = [ViolationEntry.mk Examples.t0 "Loud" "Eve" "Dayparting: Family Hours"
          "dayparting" Critical
          "Explicit content not allowed during this daypart"].
Proof. split; vm_compute; reflexivity. Qed.

End FindViolations.

(* ================================================================== *)
(** ** The auditor's summary *)
(* ================================================================== *)

Section SummaryRuns.
Import RotationAuditor.







End SummaryRuns.

(* ================================================================== *)
(** ** The auditor's recommendations *)
(* ================================================================== *)

Section Recommendations.
Import RotationAuditor.

Lemma b2n_length {A : Type} (b : bool) (x : A) :
  List.length (if b then [x] else []) = Spec.b2n b.
Proof. destruct b; reflexivity. Qed.

Lemma gender_advice_length (genders : list (string * Share.t)) :
  List.length (flat_map gender_advice_for genders)
  = List.length
      (filter (fun e => float_gtb (Share.percentage (snd e)) 60) genders).
Proof.
  induction genders as [|e l IH]; simpl; [reflexivity|].
  rewrite length_app, IH. unfold gender_advice_for.
  destruct (float_gtb (Share.percentage (snd e)) 60); reflexivity.
Qed.

Lemma current_advice_length (report : Report.t) :
  List.length (current_advice report)
  = Spec.b2n (Audit.current_out_of_range report).
Proof.
  unfold current_advice, Audit.current_out_of_range.
  destruct (lookup "Current" (Report.category_breakdown report)) as [c|];
    [|reflexivity].
  destruct (float_ltb (CategoryShare.percentage c) 25); [reflexivity|].
  destruct (float_gtb (CategoryShare.percentage c) 50); reflexivity.
Qed.

(** C8, as the code has it. The recommendations of a report number one
    for a library coverage below 50, one for more than 10 underplayed
    songs, one for a Current category that is in the category breakdown
    with a share below 25 or above 50, one for each gender whose share
    is above 60, one for more than 20 rule violations, and one when the
    skipped plays exceed 5% of the total plays. *)
Theorem recommendations_per_threshold (report : Report.t)
    (recommendations : list Recommendation) :
  _generate_recommendations report = Some recommendations ->
  List.length recommendations
  = (Spec.b2n (num_ltb (coverage_of report) 50)
     + Spec.b2n (Z.ltb 10 (Py.len (Report.underplayed_songs report)))
     + Spec.b2n (Audit.current_out_of_range report)
     + List.length (Audit.dominant_genders report)
     + Spec.b2n (Z.ltb 20 (Py.len (Report.rule_violations report)))
     + Spec.b2n (skip_rate_high report))%nat.
Proof.
  unfold _generate_recommendations.
  destruct (skip_advice report) as [skip|] eqn:Hskip; [|discriminate].
  intros E. injection E as <-.
  rewrite !length_app.
  unfold coverage_advice, underplayed_advice, violations_advice,
    gender_advice, Audit.dominant_genders.
  rewrite !b2n_length, gender_advice_length, current_advice_length.
  assert (List.length skip = Spec.b2n (skip_rate_high report)) as ->.
  { unfold skip_advice in Hskip.
    destruct (skip_rate_high report).
    - destruct (total_of report =? 0); [discriminate|].
      injection Hskip as <-. reflexivity.
    - injection Hskip as <-. reflexivity. }
  lia.
Qed.

Lemma recommendations_per_threshold_witness :
  _generate_recommendations Examples.low_coverage_report
  = Some [LowCoverage (Float (Py.round1 (Py.float_of 10)))]
  /\ List.length [LowCoverage (Float (Py.round1 (Py.float_of 10)))] = 1%nat.
Proof.
  split; [reflexivity|].
  apply (recommendations_per_threshold Examples.low_coverage_report).
  reflexivity.
Defined.

(** C8, as the specification states it, fails: three Gold songs are played and
    no Current song, so the share of Current, zero, is outside
    [25, 50], and the report carries no recommendation. *)
Lemma no_current_play_no_advice :
  exists report,
    value (generate_weekly_report Examples.auditor_180
             (Some (Examples.at_minute 30)))
          Examples.world_gold
    = Some report
    /\ lookup "Current" (Report.category_breakdown report) = None
    /\ float_ltb (Spec.current_share report) 25 = true
    /\ Spec.breaches report = 1%nat
    /\ Report.recommendations report = [].
Proof.
  eexists. split; [vm_compute; reflexivity|].
  repeat split.
Qed.

End Recommendations.

(* ================================================================== *)
(** ** What a loop of checks yields *)
(* ================================================================== *)

Section Yields.
Context {B : Type} (P : B -> Prop).

Lemma yields_nil : yields P (ret []).
Proof. intros w v []. Qed.

Lemma yields_bind {A : Type} (m : M A) (f : A -> M (list B)) :
  (forall a, yields P (f a)) -> yields P (bind m f).
Proof. intros H w v. rewrite bind_run. apply H. Qed.

Lemma yields_app (m1 m2 : M (list B)) :
  yields P m1 -> yields P m2 ->
  yields P (bind m1 (fun x => bind m2 (fun y => ret (x ++ y)))).
Proof.
  intros H1 H2 w v. rewrite !bind_run. cbn [ret fst].
  intros Hin. apply in_app_or in Hin. destruct Hin as [Hin|Hin].
  - exact (H1 _ _ Hin).
  - exact (H2 _ _ Hin).
Qed.

Lemma yields_for_each {A : Type} (body : A -> M (list B)) (l : list A) :
  (forall a, yields P (body a)) -> yields P (for_each body l).
Proof.
  intros H. induction l as [|x l IH]; simpl.
  - apply yields_nil.
  - apply yields_app; [apply H | exact IH].
Qed.
End Yields.

Lemma yields_for_each_in {A B : Type} (P : B -> Prop) (body : A -> M (list B))
    (l : list A) :
  (forall a, In a l -> yields P (body a)) -> yields P (for_each body l).
Proof.
  induction l as [|x l IH]; intros H; simpl.
  - apply yields_nil.
  - apply yields_app.
    + apply H. left; reflexivity.
    + apply IH. intros a Ha. apply H. right; exact Ha.
Qed.

Section ForEachFacts.
Context {A B : Type} (body : A -> M (list B)).

Lemma for_each_nil (l : list A) (w : World.t) :
  (forall a w', In a l -> fst (body a w') = []) ->
  fst (for_each body l w) = [].
Proof.
  revert w. induction l as [|x l IH]; intros w H; simpl; [reflexivity|].
  rewrite !bind_run. cbn [ret fst].
  rewrite (H x w (or_introl eq_refl)).
  rewrite IH; [reflexivity|]. intros a w' Hin. apply H. right; assumption.
Qed.

Lemma for_each_nonempty (l : list A) (a : A) (w : World.t) :
  In a l -> (forall w', fst (body a w') <> []) ->
  fst (for_each body l w) <> [].
Proof.
  revert w. induction l as [|x l IH]; intros w Hin H; simpl; [destruct Hin|].
  rewrite !bind_run. cbn [ret fst].
  destruct Hin as [->|Hin].
  - specialize (H w). destruct (fst (body a w)); [contradiction|discriminate].
  - specialize (IH (snd (body x w)) Hin H).
    destruct (fst (body x w)); [exact IH|discriminate].
Qed.
End ForEachFacts.

(* ================================================================== *)
(** ** The severity and the kind of what each check emits *)
(* ================================================================== *)

Section Severities.
Import RulesEngine.
Variables (self : t) (song : Song.t) (context : Context.t).

Lemma one_violation_run a b sev msg w :
  one_violation a b sev msg song w
  = ([RuleViolation.mk a b sev msg (Some (Song.id song))
        (Some (Song.title song)) (World.clock w (World.ticks w))],
     World.tick w).
Proof. reflexivity. Qed.

Lemma yields_one_violation (P : RuleViolation.t -> Prop) a b sev msg :
  (forall v, RuleViolation.severity v = sev ->
             RuleViolation.rule_name v = a -> P v) ->
  yields P (one_violation a b sev msg song).
Proof.
  intros H w v. rewrite one_violation_run. cbn [fst].
  intros [<-|[]]. apply H; reflexivity.
Qed.

Ltac sev_tac :=
  repeat first
    [ apply yields_nil
    | assumption
    | (apply yields_one_violation; intros ? ? ?;
       unfold advisory, has_severity; congruence)
    | apply yields_app
    | apply yields_for_each; intros ?
    | apply yields_bind; intros ?
    | match goal with
      | |- yields _ (if ?b then _ else _) => destruct b
      | |- yields _ (match ?x with _ => _ end) => destruct x
      | |- yields _ (let (_, _) := ?x in _) => destruct x
      end ].

Lemma song_separation_critical :
  yields (has_severity Critical) (check_song_separation self song context).
Proof. unfold check_song_separation. sev_tac. Qed.

Lemma artist_scan_critical m plays :
  yields (has_severity Critical) (artist_scan m song plays).
Proof. induction plays as [|p l IH]; simpl; sev_tac. Qed.

Lemma artist_separation_critical :
  yields (has_severity Critical) (check_artist_separation self song context).
Proof. unfold check_artist_separation. apply artist_scan_critical. Qed.

Lemma dayparting_critical :
  yields (has_severity Critical) (check_dayparting_rules self song context).
Proof. unfold check_dayparting_rules, check_daypart, current_hour_of. sev_tac. Qed.

Lemma hourly_scan_advisory h l : yields advisory (hourly_scan song h l).
Proof.
  induction l as [|rs l IH]; simpl; [sev_tac|].
  destruct (hour_in h _); [|assumption].
  unfold check_rule_set, check_restriction. sev_tac.
Qed.

Lemma hourly_advisory : yields advisory (check_hourly_rules self song context).
Proof.
  unfold check_hourly_rules. apply yields_bind. intros h.
  apply hourly_scan_advisory.
Qed.

Lemma tempo_advisory : yields advisory (check_tempo_rules self song context).
Proof. unfold check_tempo_rules. sev_tac. Qed.

Lemma gender_advisory : yields advisory (check_gender_rules self song context).
Proof. unfold check_gender_rules. sev_tac. Qed.

Lemma genre_advisory : yields advisory (check_genre_rules self song context).
Proof. unfold check_genre_rules, check_genre_limit. sev_tac. Qed.

Lemma existsb_critical_all (vs : list RuleViolation.t) :
  (forall v, In v vs -> RuleViolation.severity v = Critical) ->
  existsb is_critical vs = match vs with [] => false | _ :: _ => true end.
Proof.
  destruct vs as [|v l]; [reflexivity|]. intros H. simpl.
  unfold is_critical at 1. rewrite (H v (or_introl eq_refl)). reflexivity.
Qed.

Lemma existsb_critical_none (vs : list RuleViolation.t) :
  (forall v, In v vs -> RuleViolation.severity v <> Critical) ->
  existsb is_critical vs = false.
Proof.
  intros H. destruct (existsb is_critical vs) eqn:E; [|reflexivity].
  apply existsb_exists in E. destruct E as [v [Hin Hc]].
  apply is_critical_iff in Hc. exfalso. exact (H v Hin Hc).
Qed.

End Severities.

Section KindsOfViolation.
Import RulesEngine.
Variables (self : t) (song : Song.t) (context : Context.t).

Lemma yields_one_violation_kind (P : RuleViolation.t -> Prop) a b sev msg :
  (forall v, Checks.kind v = (b, sev) -> P v) ->
  yields P (one_violation a b sev msg song).
Proof.
  intros H w v. rewrite one_violation_run. cbn [fst].
  intros [<-|[]]. apply H; reflexivity.
Qed.

Ltac kind_tac :=
  repeat first
    [ apply yields_nil
    | assumption
    | (apply yields_one_violation_kind; intros ? E; unfold Checks.known;
       rewrite E; cbn; tauto)
    | apply yields_app
    | apply yields_for_each; intros ?
    | apply yields_bind; intros ?
    | match goal with
      | |- yields _ (if ?b then _ else _) => destruct b
      | |- yields _ (match ?x with _ => _ end) => destruct x
      | |- yields _ (let (_, _) := ?x in _) => destruct x
      end ].

Lemma song_separation_known :
  yields Checks.known (check_song_separation self song context).
Proof. unfold check_song_separation. kind_tac. Qed.

Lemma artist_separation_known :
  yields Checks.known (check_artist_separation self song context).
Proof.
  unfold check_artist_separation.
  induction (Py.default_to [] (Context.recent_plays context)) as [|p l IH];
    simpl; kind_tac.
Qed.

Lemma hourly_rules_known : yields Checks.known (check_hourly_rules self song context).
Proof.
  unfold check_hourly_rules. apply yields_bind. intros h.
  induction (Py.default_to [] (Rules.hourly_rules (rules self))) as [|rs l IH];
    simpl; [kind_tac|].
  destruct (hour_in h _); [|assumption].
  unfold check_rule_set, check_restriction. kind_tac.
Qed.

Lemma tempo_known : yields Checks.known (check_tempo_rules self song context).
Proof. unfold check_tempo_rules. kind_tac. Qed.

Lemma gender_known : yields Checks.known (check_gender_rules self song context).
Proof. unfold check_gender_rules. kind_tac. Qed.

Lemma genre_known : yields Checks.known (check_genre_rules self song context).
Proof. unfold check_genre_rules, check_genre_limit. kind_tac. Qed.

Lemma dayparting_known :
  yields Checks.known (check_dayparting_rules self song context).
Proof. unfold check_dayparting_rules, check_daypart, current_hour_of. kind_tac. Qed.

Lemma can_play_song_known (w : World.t) (v : RuleViolation.t) :
  In v (snd (value (can_play_song self song context) w)) -> Checks.known v.
Proof.
  unfold value. rewrite can_play_song_run. cbv zeta. cbn [fst snd].
  rewrite !in_app_iff.
  intros [H|[H|[H|[H|[H|[H|H]]]]]].
  - exact (song_separation_known _ _ H).
  - exact (artist_separation_known _ _ H).
  - exact (hourly_rules_known _ _ H).
  - exact (tempo_known _ _ H).
  - exact (gender_known _ _ H).
  - exact (genre_known _ _ H).
  - exact (dayparting_known _ _ H).
Qed.
End KindsOfViolation.

(* ================================================================== *)
(** ** What keeps a song off the air *)
(* ================================================================== *)

Section Blockers.
Import RulesEngine.
Variables (self : t) (song : Song.t) (context : Context.t).

(** The answer of [can_play_song] in terms of the three checks that
    emit critical violations. *)
Lemma can_play_song_decision (w : World.t) :
  let r1 := check_song_separation self song context w in
  let r2 := check_artist_separation self song context (snd r1) in
  let r3 := check_hourly_rules self song context (snd r2) in
  let r4 := check_tempo_rules self song context (snd r3) in
  let r5 := check_gender_rules self song context (snd r4) in
  let r6 := check_genre_rules self song context (snd r5) in
  let r7 := check_dayparting_rules self song context (snd r6) in
  fst (value (can_play_song self song context) w)
  = negb (nonempty (fst r1) || nonempty (fst r2) || nonempty (fst r7)).
Proof.
  intros r1 r2 r3 r4 r5 r6 r7.
  unfold value. rewrite can_play_song_run. cbv zeta.
  fold r1 r2 r3 r4 r5 r6 r7. cbn [fst].
  rewrite !existsb_app.
  rewrite (existsb_critical_all (fst r1)) by (apply song_separation_critical).
  rewrite (existsb_critical_all (fst r2)) by (apply artist_separation_critical).
  rewrite (existsb_critical_all (fst r7)) by (apply dayparting_critical).
  rewrite (existsb_critical_none (fst r3)) by (apply hourly_advisory).
  rewrite (existsb_critical_none (fst r4)) by (apply tempo_advisory).
  rewrite (existsb_critical_none (fst r5)) by (apply gender_advisory).
  rewrite (existsb_critical_none (fst r6)) by (apply genre_advisory).
  unfold nonempty. destruct (fst r1), (fst r2), (fst r7); reflexivity.
Qed.

(** X1. A song may play exactly when the song-separation check, the
    artist-separation check and the dayparting check find nothing: what
    the hourly, tempo, gender and genre checks find is reported and
    never keeps the song off the air. *)
Theorem can_play_song_blockers (w : World.t) :
  let r1 := check_song_separation self song context w in
  let r2 := check_artist_separation self song context (snd r1) in
  let r3 := check_hourly_rules self song context (snd r2) in
  let r4 := check_tempo_rules self song context (snd r3) in
  let r5 := check_gender_rules self song context (snd r4) in
  let r6 := check_genre_rules self song context (snd r5) in
  let r7 := check_dayparting_rules self song context (snd r6) in
  fst (value (can_play_song self song context) w) = true
  <-> fst r1 = [] /\ fst r2 = [] /\ fst r7 = [].
Proof.
  intros r1 r2 r3 r4 r5 r6 r7.
  pose proof (can_play_song_decision w) as E. cbv zeta in E.
  fold r1 r2 r3 r4 r5 r6 r7 in E. rewrite E.
  unfold nonempty.
  destruct (fst r1), (fst r2), (fst r7); simpl; split;
    try discriminate; try (intros [? [? ?]]; discriminate); auto.
Qed.

(** *** Dayparting *)

Lemma check_daypart_clean h d rule w :
  Song.explicit song = false ->
  fst (check_daypart song h d rule w) = [].
Proof.
  intros E. unfold check_daypart. rewrite E.
  destruct (hour_in h _ && Py.mem_Z d _); [|reflexivity].
  destruct (Rules.cond_explicit _); reflexivity.
Qed.

(** X2. The dayparting check never finds anything against a song that
    is not explicit, whatever the dayparting rules, the hour and the
    day. *)
Theorem dayparting_spares_clean_songs (w : World.t) :
  Song.explicit song = false ->
  value (check_dayparting_rules self song context) w = [].
Proof.
  intros E. unfold value, check_dayparting_rules.
  rewrite !bind_run. apply for_each_nil.
  intros rule w' _. apply check_daypart_clean. exact E.
Qed.

Lemma check_daypart_explicit h d rule w :
  Song.explicit song = true ->
  Checks.in_force rule h d = true ->
  Checks.forbids_explicit rule = true ->
  fst (check_daypart song (Some h) d rule w) <> [].
Proof.
  intros E Hf Hx. unfold check_daypart.
  unfold Checks.in_force in Hf. cbn [hour_in]. rewrite Hf.
  unfold Checks.forbids_explicit in Hx.
  destruct (Rules.cond_explicit _) as [allowed|]; [|discriminate].
  rewrite E, Hx. discriminate.
Qed.

(** X3. An explicit song may not play when the context gives an hour
    and a day at which some dayparting rule whose condition sets
    [explicit] to false is in force (a rule without [hours] holds at
    every hour, one without [days] on every day). *)
Theorem dayparting_blocks_explicit (w : World.t) (rule : Rules.Daypart)
    (h d : Z) :
  Context.hour context = Some (Some h) ->
  Context.day_of_week context = Some d ->
  In rule (Checks.dayparting_of self) ->
  Checks.in_force rule h d = true ->
  Checks.forbids_explicit rule = true ->
  Song.explicit song = true ->
  fst (value (can_play_song self song context) w) = false.
Proof.
  intros Hh Hd Hin Hf Hx E.
  rewrite can_play_song_decision. cbv zeta.
  match goal with
  | |- negb (_ || _ || nonempty (fst (check_dayparting_rules _ _ _ ?w7))) = _ =>
      assert (fst (check_dayparting_rules self song context w7) <> []) as Hne
  end.
  { unfold check_dayparting_rules. rewrite !bind_run.
    unfold current_hour_of. rewrite bind_run. cbn [ret fst snd utcnow].
    rewrite Hh, Hd. cbn [Py.default_to].
    apply (for_each_nonempty _ _ rule); [exact Hin|].
    intros w'. apply check_daypart_explicit; assumption. }
  destruct (fst (check_dayparting_rules _ _ _ _)); [contradiction|].
  rewrite !orb_true_r. reflexivity.
Qed.

(** *** Artist separation *)

Lemma artist_scan_at_most_one m plays w :
  (List.length (fst (artist_scan m song plays w)) <= 1)%nat.
Proof.
  revert w. induction plays as [|p l IH]; intros w; simpl; [lia|].
  destruct (PlayLog.song p) as [played|]; [|apply IH].
  destruct (String.eqb _ _); [|apply IH].
  rewrite bind_run. cbn [utcnow fst snd].
  destruct (Datetime.minutes_since_lt _ _ _); [|apply IH].
  rewrite one_violation_run. simpl. lia.
Qed.

(** X4. The artist-separation check stops at the first recent play
    that is too close: it yields nothing, or exactly one violation,
    critical and named "Artist Separation". *)
Theorem artist_separation_at_most_one (w : World.t) :
  value (check_artist_separation self song context) w = []
  \/ exists v,
       value (check_artist_separation self song context) w = [v]
       /\ RuleViolation.severity v = Critical
       /\ RuleViolation.rule_name v = "Artist Separation".
Proof.
  unfold value, check_artist_separation.
  set (m := artist_separation_of self).
  set (plays := Py.default_to [] (Context.recent_plays context)).
  pose proof (artist_scan_at_most_one m plays w) as Hlen.
  assert (yields (fun v => RuleViolation.severity v = Critical
                           /\ RuleViolation.rule_name v = "Artist Separation")
                 (artist_scan m song plays)) as Hy.
  { clear. induction plays as [|p l IH]; simpl.
    - apply yields_nil.
    - destruct (PlayLog.song p); [|assumption].
      destruct (String.eqb _ _); [|assumption].
      apply yields_bind. intros now.
      destruct (Datetime.minutes_since_lt _ _ _); [|assumption].
      apply yields_one_violation. intros v Hs Hn. split; assumption. }
  destruct (fst (artist_scan m song plays w)) as [|v [|v' l]] eqn:E.
  - left; reflexivity.
  - right. exists v. split; [reflexivity|].
    apply (Hy w). rewrite E. left; reflexivity.
  - simpl in Hlen. lia.
Qed.



End Blockers.

(** A song that is not explicit, under rules that keep explicit content
    off the air. *)
Lemma dayparting_spares_clean_songs_witness :
  Song.explicit Examples.fresh_song = false
  /\ value (RulesEngine.check_dayparting_rules Examples.engine_clean
              Examples.fresh_song Context.empty)
           Examples.world_clean
     = [].
Proof.
  split; [reflexivity|].
  apply (dayparting_spares_clean_songs Examples.engine_clean
           Examples.fresh_song Context.empty Examples.world_clean).
  reflexivity.
Defined.

Lemma dayparting_blocks_explicit_witness :
  fst (value (RulesEngine.can_play_song Examples.engine_clean
                Examples.explicit_song Examples.monday_at_8)
             Examples.world_clean)
  = false.
Proof.
  apply (dayparting_blocks_explicit Examples.engine_clean
           Examples.explicit_song Examples.monday_at_8 Examples.world_clean
           Examples.clean_daypart 8 0);
    first [reflexivity | left; reflexivity].
Defined.



(* ================================================================== *)
(** ** Tempo, gender and genre *)
(* ================================================================== *)

Section Flow.
Import RulesEngine.
Variables (self : t) (song : Song.t) (context : Context.t).

Lemma slow_is_not_fast (s : Song.t) :
  Checks.has_tempo "Slow" s = true -> Checks.has_tempo "Fast" s = false.
Proof.
  unfold Checks.has_tempo. destruct (Song.tempo s) as [x|]; simpl; [|discriminate].
  intros E. apply String.eqb_eq in E. subst. reflexivity.
Qed.

Lemma tempo_fold (songs : list Song.t) :
  fold_left tempo_step songs (0, 0)
  = (Checks.trailing_run "Slow" songs, Checks.trailing_run "Fast" songs).
Proof.
  induction songs as [|x l IH] using rev_ind; [reflexivity|].
  rewrite fold_left_app, IH. simpl.
  unfold Checks.trailing_run. rewrite rev_app_distr. simpl.
  fold (Checks.has_tempo "Slow" x). fold (Checks.has_tempo "Fast" x).
  destruct (Checks.has_tempo "Slow" x) eqn:Es.
  - rewrite (slow_is_not_fast x Es). reflexivity.
  - destruct (Checks.has_tempo "Fast" x); reflexivity.
Qed.

(** X7. The tempo check yields a warning exactly when the context has
    recent songs and the song is Slow and the last five of them end
    with at least [max_consecutive_slow] (default 2) Slow songs, or the
    song is Fast and they end with at least [max_consecutive_fast]
    (default 3) Fast songs. *)
Theorem tempo_warning_on_trailing_run (w : World.t) :
  let recent_songs := Py.default_to [] (Context.recent_songs context) in
  let last_five := Py.slice_from (-5) recent_songs in
  nonempty (value (check_tempo_rules self song context) w)
  = nonempty recent_songs
    && ((Checks.has_tempo "Slow" song
         && (Checks.max_slow_of self <=? Checks.trailing_run "Slow" last_five))
        || (Checks.has_tempo "Fast" song
            && (Checks.max_fast_of self <=? Checks.trailing_run "Fast" last_five))).
Proof.
  intros recent_songs last_five.
  unfold value, check_tempo_rules. fold recent_songs.
  destruct recent_songs as [|s l] eqn:E; [reflexivity|].
  fold last_five. rewrite tempo_fold.
  fold (Checks.max_slow_of self). fold (Checks.max_fast_of self).
  fold (Checks.has_tempo "Slow" song). fold (Checks.has_tempo "Fast" song).
  rewrite !bind_run. cbn [ret fst snd nonempty andb].
  destruct (Checks.has_tempo "Slow" song
            && (Checks.max_slow_of self <=? Checks.trailing_run "Slow" last_five));
    [reflexivity|].
  cbn [ret fst snd app orb].
  destruct (Checks.has_tempo "Fast" song
            && (Checks.max_fast_of self <=? Checks.trailing_run "Fast" last_five));
    reflexivity.
Qed.

(** *** Gender *)

Lemma count_while_bounds {A : Type} (p : A -> bool) (l : list A) :
  0 <= count_while p l <= Py.len l.
Proof.
  unfold Py.len. induction l as [|x l IH]; simpl; [lia|].
  destruct (p x); lia.
Qed.

Lemma count_while_all {A : Type} (p : A -> bool) (l : list A) :
  (count_while p l =? Py.len l) = forallb p l.
Proof.
  unfold Py.len. induction l as [|x l IH]; [reflexivity|].
  cbn [count_while forallb]. destruct (p x); cbn [andb].
  - rewrite <- IH. cbn [List.length].
    destruct (Z.eqb_spec (count_while p l) (Z.of_nat (List.length l)));
      [apply Z.eqb_eq|apply Z.eqb_neq]; lia.
  - apply Z.eqb_neq. cbn [List.length]. lia.
Qed.

Lemma forallb_rev {A : Type} (p : A -> bool) (l : list A) :
  forallb p (rev l) = forallb p l.
Proof.
  induction l as [|x l IH]; [reflexivity|].
  simpl. rewrite forallb_app, IH. simpl. rewrite andb_true_r. apply andb_comm.
Qed.

Lemma len_slice_from_neg {A : Type} (n : Z) (l : list A) :
  0 < n -> Py.len (Py.slice_from (- n) l) = Z.min n (Py.len l).
Proof.
  intros Hn. unfold Py.slice_from, Py.len.
  destruct (Z.ltb_spec (- n) 0); [|lia].
  rewrite length_skipn. lia.
Qed.

(** X8. For a positive [max_consecutive_same_gender] (default 3), the
    gender check yields a warning exactly when the context has at least
    that many recent songs and the last that many all have the gender
    of the song. *)
Theorem gender_warning_iff (w : World.t) :
  let recent_songs := Py.default_to [] (Context.recent_songs context) in
  let max_consecutive := Checks.max_same_gender_of self in
  0 < max_consecutive ->
  nonempty (value (check_gender_rules self song context) w)
  = (max_consecutive <=? Py.len recent_songs)
    && forallb (Checks.same_gender song)
               (Py.slice_from (- max_consecutive) recent_songs).
Proof.
  intros recent_songs max_consecutive Hmax.
  unfold value, check_gender_rules.
  change (Py.default_to 3
            (Rules.max_consecutive_same_gender
               (Py.default_to Rules.no_gender_rules
                  (Rules.gender_rules (rules self)))))
    with max_consecutive.
  fold recent_songs.
  destruct recent_songs as [|s l] eqn:E.
  - simpl. destruct (Z.leb_spec max_consecutive (Py.len (@nil Song.t)));
      [unfold Py.len in *; simpl in *; lia|reflexivity].
  - rewrite <- E.
    set (window := Py.slice_from (- max_consecutive) recent_songs).
    fold (Checks.same_gender song).
    pose proof (count_while_bounds (Checks.same_gender song) (rev window)) as Hb.
    pose proof (count_while_all (Checks.same_gender song) (rev window)) as Ha.
    rewrite forallb_rev in Ha.
    assert (Py.len (rev window) = Z.min max_consecutive (Py.len recent_songs)) as Hl.
    { unfold Py.len. rewrite length_rev.
      apply (len_slice_from_neg max_consecutive recent_songs Hmax). }
    rewrite <- Ha, Hl. rewrite Hl in Hb.
    destruct (Z.leb_spec max_consecutive
                (count_while (Checks.same_gender song) (rev window))) as [H1|H1].
    + rewrite one_violation_run. cbn [fst nonempty].
      symmetry. apply andb_true_iff. split; [apply Z.leb_le|apply Z.eqb_eq]; lia.
    + cbn [ret fst nonempty]. symmetry. apply andb_false_iff.
      destruct (Z.leb_spec max_consecutive (Py.len recent_songs)) as [H2|H2];
        [right; apply Z.eqb_neq; lia|left; reflexivity].
Qed.

(** X9. A [max_consecutive_same_gender] of zero or less makes the
    gender check warn about every song as soon as the context has a
    recent song, of whatever gender. *)
Theorem gender_warning_without_limit (w : World.t) :
  Checks.max_same_gender_of self <= 0 ->
  Py.default_to [] (Context.recent_songs context) <> [] ->
  exists v,
    value (check_gender_rules self song context) w = [v]
    /\ RuleViolation.severity v = Warning.
Proof.
  intros Hmax Hne. unfold value, check_gender_rules.
  change (Py.default_to 3
            (Rules.max_consecutive_same_gender
               (Py.default_to Rules.no_gender_rules
                  (Rules.gender_rules (rules self)))))
    with (Checks.max_same_gender_of self).
  destruct (Py.default_to [] (Context.recent_songs context)) as [|s l] eqn:E;
    [contradiction|].
  match goal with
  | |- context [count_while ?p ?l] =>
      pose proof (count_while_bounds p l) as Hb
  end.
  match goal with
  | |- context [if ?b then _ else _] =>
      destruct b eqn:Eb; [|apply Z.leb_gt in Eb; lia]
  end.
  rewrite one_violation_run. eexists. split; reflexivity.
Qed.

(** *** Genre limits *)

Lemma check_genre_limit_run hourly limit w :
  fst (check_genre_limit song hourly limit w)
  = if Py.opt_str_eqb (Some (Rules.limit_genre limit)) (Song.genre song)
       && (Py.default_to 999 (Rules.max_per_hour limit)
           <=? genre_count (Song.genre song) hourly)
    then [RuleViolation.mk "Genre Hourly Limit" "genre" Error
            (Py.fstr ["Max "; Py.str_opt (Song.genre song);
                      " songs reached for this hour (";
                      Py.str (Py.default_to 999 (Rules.max_per_hour limit)); ")"])
            (Some (Song.id song)) (Some (Song.title song))
            (World.clock w (World.ticks w))]
    else [].
Proof.
  unfold check_genre_limit.
  destruct (Py.opt_str_eqb _ _); [|reflexivity].
  cbn [andb]. destruct (_ <=? _); reflexivity.
Qed.

Lemma genre_limit_loop (limits : list Rules.GenreLimit) (w : World.t) :
  List.length
    (filter (fun v => Severity_eqb (RuleViolation.severity v) Error)
            (fst (for_each
                    (check_genre_limit song
                       (Py.default_to [] (Context.hourly_genre_counts context)))
                    limits w)))
  = List.length (filter (Checks.reached song context) limits).
Proof.
  revert w. induction limits as [|limit l IH]; intros w; [reflexivity|].
  cbn [for_each]. rewrite !bind_run. cbn [ret fst].
  rewrite filter_app, length_app, IH.
  rewrite check_genre_limit_run.
  cbn [filter]. unfold Checks.reached at 2.
  destruct (Py.opt_str_eqb _ _ && (_ <=? _)); reflexivity.
Qed.

(** X10. The genre check yields as many errors as [hourly_limits] has
    entries for the genre of the song whose [max_per_hour] (default
    999) the count of the hour has reached. *)
Theorem genre_limit_errors (w : World.t) :
  List.length
    (filter (fun v => Severity_eqb (RuleViolation.severity v) Error)
            (value (check_genre_rules self song context) w))
  = List.length
      (filter (Checks.reached song context) (Checks.genre_limits_of self)).
Proof.
  unfold value, check_genre_rules.
  rewrite !bind_run. cbn [ret fst].
  rewrite filter_app, length_app.
  rewrite genre_limit_loop.
  destruct (find_genre _ _); [rewrite one_violation_run|]; reflexivity.
Qed.

(** *** Hours that no rule-set covers *)

Lemma hourly_scan_uncovered hour l w :
  forallb (fun rule_set =>
             negb (hour_in hour (Py.default_to [] (Rules.hours rule_set)))) l
  = true ->
  hourly_scan song hour l w = ([], w)
  /\ category_scan hour l = default_percentages.
Proof.
  induction l as [|rs l IH]; simpl; [split; reflexivity|].
  intros H. apply andb_prop in H. destruct H as [Hrs Hl].
  apply negb_true_iff in Hrs. rewrite Hrs. apply IH. exact Hl.
Qed.

(** X11. At an hour that no hourly rule-set lists, the hourly check
    finds nothing and the categories get the default percentages
    (Current 30, Recurrent 25, Power Gold 25, Gold 15, Deep Cut 5),
    hence a bag of a hundred categories. *)
Theorem uncovered_hour_defaults (w : World.t) (hour : option Z) :
  Context.hour context = Some hour ->
  Checks.uncovered self hour = true ->
  value (check_hourly_rules self song context) w = []
  /\ get_category_for_hour self hour
     = [("Current", 30); ("Recurrent", 25); ("Power Gold", 25);
        ("Gold", 15); ("Deep Cut", 5)]
  /\ List.length (weighted_bag (get_category_for_hour self hour)) = 100%nat.
Proof.
  intros Hh Hu. unfold Checks.uncovered in Hu.
  destruct (hourly_scan_uncovered hour _ (World.tick w) Hu) as [E1 E2].
  assert (get_category_for_hour self hour = default_percentages) as E3.
  { exact E2. }
  split; [|split].
  - unfold value, check_hourly_rules. rewrite bind_run.
    unfold current_hour_of. rewrite bind_run. cbn [utcnow ret fst snd].
    rewrite Hh. cbn [Py.default_to]. rewrite E1. reflexivity.
  - exact E3.
  - rewrite E3. reflexivity.
Qed.
End Flow.

Lemma gender_warning_iff_witness :
  0 < Checks.max_same_gender_of Examples.engine_180
  /\ nonempty (value (RulesEngine.check_gender_rules Examples.engine_180
                        Examples.pop_a Examples.after_three_women)
                     Examples.world_10)
     = true
  /\ nonempty (value (RulesEngine.check_gender_rules Examples.engine_180
                        Examples.pop_a Examples.after_a_man)
                     Examples.world_10)
     = false.
Proof.
  split; [reflexivity|]. split.
  - rewrite (gender_warning_iff Examples.engine_180 Examples.pop_a
               Examples.after_three_women Examples.world_10);
      reflexivity.
  - rewrite (gender_warning_iff Examples.engine_180 Examples.pop_a
               Examples.after_a_man Examples.world_10);
      reflexivity.
Defined.

(** The last song was by a man and the candidate is by a woman: with a
    limit of zero the check warns all the same. *)
Lemma gender_warning_without_limit_witness :
  Checks.max_same_gender_of Examples.engine_gender_0 = 0
  /\ exists v,
       value (RulesEngine.check_gender_rules Examples.engine_gender_0
                Examples.pop_a Examples.after_a_man)
             Examples.world_10
       = [v]
       /\ RuleViolation.severity v = Warning.
Proof.
  split; [reflexivity|].
  apply (gender_warning_without_limit Examples.engine_gender_0 Examples.pop_a
           Examples.after_a_man Examples.world_10).
  - vm_compute. discriminate.
  - discriminate.
Defined.

(** The rules list the hours 6 to 9 only. *)
Lemma uncovered_hour_defaults_witness :
  Checks.uncovered Examples.engine_morning (Some 23) = true
  /\ value (RulesEngine.check_hourly_rules Examples.engine_morning
              Examples.fresh_song Examples.at_23)
           Examples.world_10
     = []
  /\ RulesEngine.get_category_for_hour Examples.engine_morning (Some 23)
     = [("Current", 30); ("Recurrent", 25); ("Power Gold", 25);
        ("Gold", 15); ("Deep Cut", 5)]
  /\ List.length
       (RulesEngine.weighted_bag
          (RulesEngine.get_category_for_hour Examples.engine_morning
             (Some 23)))
     = 100%nat.
Proof.
  split; [reflexivity|].
  apply (uncovered_hour_defaults Examples.engine_morning Examples.fresh_song
           Examples.at_23 Examples.world_10 (Some 23));
    reflexivity.
Defined.

(* ================================================================== *)
(** ** Validation of the rules *)
(* ================================================================== *)

Section Validation.
Import RulesEngine.

Lemma filter_nil_inv {A : Type} (p : A -> bool) (l : list A) :
  filter p l = [] -> forallb (fun x => negb (p x)) l = true.
Proof.
  induction l as [|x l IH]; simpl; [reflexivity|].
  destruct (p x); [discriminate|]. exact IH.
Qed.

Lemma missing_hours_nil_inv (hourly_rules : list Rules.HourlyRuleSet) :
  missing_hours hourly_rules = [] -> Spec.covers_day hourly_rules = true.
Proof.
  intros H. unfold missing_hours in H. apply filter_nil_inv in H.
  unfold Spec.covers_day, Spec.hours_of.
  rewrite forallb_forall in *. intros h Hin.
  specialize (H h Hin). apply negb_true_iff in H.
  apply negb_false_iff in H. exact H.
Qed.

Lemma check_percentages_nil_inv (hourly_rules : list Rules.HourlyRuleSet) :
  flat_map check_percentages hourly_rules = [] ->
  Spec.sums_to_100 hourly_rules = true.
Proof.
  induction hourly_rules as [|rs l IH]; simpl; [reflexivity|].
  unfold check_percentages at 1.
  destruct (percentage_total rs =? 100); [|discriminate].
  simpl. exact IH.
Qed.

(** X12. [validate_rules] returns no issue exactly when the rules have
    a [settings] section and an [hourly_rules] section whose rule-sets
    list every hour from 0 to 23 and each sum to 100. *)
Theorem validate_rules_empty_iff (self : t) :
  validate_rules self = []
  <-> exists settings hourly_rules,
        Rules.settings (rules self) = Some settings
        /\ Rules.hourly_rules (rules self) = Some hourly_rules
        /\ Spec.covers_day hourly_rules = true
        /\ Spec.sums_to_100 hourly_rules = true.
Proof.
  split.
  - unfold validate_rules.
    destruct (Rules.is_empty (rules self)); [discriminate|].
    destruct (Rules.settings (rules self)) as [settings|]; [|discriminate].
    destruct (Rules.hourly_rules (rules self)) as [hourly_rules|];
      [|discriminate].
    cbn [app]. intros H.
    destruct (missing_hours hourly_rules) eqn:Em; [|discriminate].
    exists settings, hourly_rules.
    split; [reflexivity|]. split; [reflexivity|].
    split; [apply missing_hours_nil_inv; exact Em|].
    apply check_percentages_nil_inv. exact H.
  - intros [settings [hourly_rules [Hs [Hh [Hc H100]]]]].
    rewrite (validate_rules_present self settings hourly_rules Hs Hh Hc).
    apply check_percentages_100. exact H100.
Qed.

Lemma range_sorted (n : nat) : StronglySorted Z.lt (Py.range n).
Proof.
  unfold Py.range.
  assert (forall start, StronglySorted Z.lt (map Z.of_nat (seq start n))) as H.
  { induction n as [|n IH]; intros start; simpl; constructor; [apply IH|].
    apply Forall_forall. intros z Hz. apply in_map_iff in Hz.
    destruct Hz as [k [<- Hk]]. apply in_seq in Hk. lia. }
  apply H.
Qed.

Lemma filter_sorted {A : Type} (R : A -> A -> Prop) (p : A -> bool) (l : list A) :
  StronglySorted R l -> StronglySorted R (filter p l).
Proof.
  induction 1 as [|x l Hl IH Hx]; simpl; [constructor|].
  destruct (p x); [|exact IH]. constructor; [exact IH|].
  rewrite Forall_forall in *. intros y Hy.
  apply filter_In in Hy. apply Hx. apply Hy.
Qed.

(** X13. With an [hourly_rules] section, the hours reported as not
    covered are the hours from 0 to 23 that no rule-set lists, in
    ascending order, and they are reported in one issue as soon as
    there is one. *)
Theorem validate_rules_missing_hours (self : t)
    (hourly_rules : list Rules.HourlyRuleSet) :
  Rules.hourly_rules (rules self) = Some hourly_rules ->
  (forall h, In h (missing_hours hourly_rules)
             <-> 0 <= h < 24 /\ ~ In h (Spec.hours_of hourly_rules))
  /\ StronglySorted Z.lt (missing_hours hourly_rules)
  /\ (missing_hours hourly_rules <> [] ->
      In (Py.fstr ["Hours not covered by rules: ";
                   Py.str_list (missing_hours hourly_rules)])
         (validate_rules self)).
Proof.
  intros Hh. split; [|split].
  - intros h. unfold missing_hours. fold (Spec.hours_of hourly_rules).
    rewrite filter_In, negb_true_iff. unfold Py.range.
    rewrite in_map_iff. split.
    + intros [[n [<- Hn]] Hm]. apply in_seq in Hn. split; [lia|].
      intros Hin. apply mem_Z_In in Hin. congruence.
    + intros [Hr Hn]. split.
      * exists (Z.to_nat h). split; [lia|]. apply in_seq. lia.
      * destruct (Py.mem_Z h (Spec.hours_of hourly_rules)) eqn:E;
          [|reflexivity].
        apply mem_Z_In in E. contradiction.
  - unfold missing_hours. apply filter_sorted. apply range_sorted.
  - intros Hne. unfold validate_rules.
    assert (Rules.is_empty (rules self) = false) as ->.
    { unfold Rules.is_empty. rewrite Hh.
      destruct (Rules.settings (rules self)); reflexivity. }
    rewrite Hh. apply in_or_app. right. apply in_or_app. left.
    destruct (missing_hours hourly_rules); [contradiction|].
    left. reflexivity.
Qed.
End Validation.

Lemma validate_rules_missing_hours_witness :
  RulesEngine.missing_hours [Examples.morning_drive]
  = [0; 1; 2; 3; 4; 5; 10; 11; 12; 13; 14; 15; 16; 17; 18; 19; 20; 21;
     22; 23]
  /\ In (Py.fstr ["Hours not covered by rules: ";
                  Py.str_list
                    (RulesEngine.missing_hours [Examples.morning_drive])])
        (RulesEngine.validate_rules Examples.engine_morning).
Proof.
  split; [reflexivity|].
  apply (proj2 (proj2 (validate_rules_missing_hours Examples.engine_morning
                         [Examples.morning_drive] eq_refl))).
  discriminate.
Defined.

(* ================================================================== *)
(** ** The percentages of an hour and the bag of categories *)
(* ================================================================== *)

Section Categories.
Import RulesEngine.

Lemma lookup_dict_set (c k : string) (v : Z) (d : list (string * Z)) :
  RotationAuditor.lookup c (dict_set k v d)
  = if String.eqb c k then Some v else RotationAuditor.lookup c d.
Proof.
  induction d as [|[k' v'] d IH]; simpl.
  - reflexivity.
  - destruct (String.eqb_spec k k') as [->|Hk]; simpl.
    + destruct (String.eqb c k'); reflexivity.
    + rewrite IH. destruct (String.eqb_spec c k') as [->|Hc].
      * destruct (String.eqb_spec k' k); [congruence|reflexivity].
      * reflexivity.
Qed.

Lemma keys_dict_set (k : string) (v : Z) (d : list (string * Z)) :
  NoDup (map fst d) ->
  NoDup (map fst (dict_set k v d))
  /\ forall c, In c (map fst (dict_set k v d)) <-> c = k \/ In c (map fst d).
Proof.
  induction d as [|[k' v'] d IH]; simpl; intros H.
  - split; [repeat constructor; intros []|]. intros c. intuition.
  - inversion H as [|? ? Hk' Hd]; subst.
    destruct (String.eqb_spec k k') as [->|Hk]; simpl.
    + split; [exact H|]. intros c. intuition.
    + destruct (IH Hd) as [N I]. split.
      * constructor; [|exact N]. rewrite I. intros [E|E]; [congruence|contradiction].
      * intros c. rewrite I. intuition.
Qed.

Lemma percentages_fold (c : string) (rules : list Rules.CategoryRule)
    (d : list (string * Z)) :
  NoDup (map fst d) ->
  RotationAuditor.lookup c (fold_left Checks.set_rule rules d)
  = fold_left
      (fun found rule =>
         if String.eqb c (Rules.category rule)
         then Some (Py.default_to 0 (Rules.percentage rule))
         else found)
      rules (RotationAuditor.lookup c d)
  /\ NoDup (map fst (fold_left Checks.set_rule rules d)).
Proof.
  revert d. induction rules as [|r l IH]; intros d Hd; simpl; [auto|].
  destruct (keys_dict_set (Rules.category r)
              (Py.default_to 0 (Rules.percentage r)) d Hd) as [N _].
  destruct (IH (Checks.set_rule d r) N) as [E N'].
  split; [|exact N'].
  rewrite E. unfold Checks.set_rule at 1. rewrite lookup_dict_set. reflexivity.
Qed.

Lemma category_scan_find (hour : option Z) (l : list Rules.HourlyRuleSet) :
  category_scan hour l
  = match find (fun rule_set =>
                  hour_in hour (Py.default_to [] (Rules.hours rule_set))) l with
    | Some rule_set =>
        fold_left Checks.set_rule (Py.default_to [] (Rules.rules rule_set)) []
    | None => default_percentages
    end.
Proof.
  induction l as [|rs l IH]; simpl; [reflexivity|].
  destruct (hour_in hour _); [reflexivity|exact IH].
Qed.

(** X14. The percentages of an hour are those of the first rule-set
    that lists it: each category of its rules appears once, with the
    percentage (0 when missing) of the last rule that names the
    category. *)
Theorem category_percentages_last_wins (self : t) (hour : option Z)
    (rule_set : Rules.HourlyRuleSet) (category : string) :
  Checks.first_covering self hour = Some rule_set ->
  RotationAuditor.lookup category (get_category_for_hour self hour)
  = Checks.last_percentage category (Py.default_to [] (Rules.rules rule_set))
  /\ NoDup (map fst (get_category_for_hour self hour)).
Proof.
  intros H. unfold get_category_for_hour. rewrite category_scan_find.
  unfold Checks.first_covering in H. rewrite H.
  apply (percentages_fold category _ []). constructor.
Qed.

Lemma count_occ_repeat (c k : string) (n : nat) :
  count_occ string_dec (repeat k n) c = if String.eqb c k then n else 0%nat.
Proof.
  induction n as [|n IH]; simpl.
  - destruct (String.eqb c k); reflexivity.
  - destruct (string_dec k c) as [->|Hne].
    + rewrite IH, String.eqb_refl. reflexivity.
    + rewrite IH. destruct (String.eqb_spec c k); [congruence|reflexivity].
Qed.

Lemma lookup_absent {A : Type} (c : string) (d : list (string * A)) :
  ~ In c (map fst d) -> RotationAuditor.lookup c d = None.
Proof.
  induction d as [|[k v] d IH]; simpl; [reflexivity|].
  intros H. destruct (String.eqb_spec c k) as [->|Hne]; [tauto|].
  apply IH. tauto.
Qed.

Lemma weighted_bag_count (c : string) (d : list (string * Z)) :
  NoDup (map fst d) ->
  count_occ string_dec (weighted_bag d) c
  = Z.to_nat (Py.default_to 0 (RotationAuditor.lookup c d)).
Proof.
  unfold weighted_bag.
  induction d as [|[k v] d IH]; simpl; intros H; [reflexivity|].
  inversion H as [|? ? Hk Hd]; subst.
  rewrite count_occ_app, count_occ_repeat, (IH Hd).
  destruct (String.eqb_spec c k) as [->|Hne]; [|reflexivity].
  rewrite (lookup_absent k d Hk). simpl. lia.
Qed.

(** X15. The bag from which [select_next_song] draws holds each
    category as many times as its percentage at the hour; a category
    with a percentage of zero or less is not in it. *)
Theorem weighted_bag_holds_percentages (self : t) (hour : option Z)
    (rule_set : Rules.HourlyRuleSet) (category : string) :
  Checks.first_covering self hour = Some rule_set ->
  count_occ string_dec (weighted_bag (get_category_for_hour self hour)) category
  = Z.to_nat
      (Py.default_to 0
         (Checks.last_percentage category
            (Py.default_to [] (Rules.rules rule_set)))).
Proof.
  intros H.
  unfold get_category_for_hour. rewrite category_scan_find.
  unfold Checks.first_covering in H. rewrite H.
  destruct (percentages_fold category
              (Py.default_to [] (Rules.rules rule_set)) [] (NoDup_nil _))
    as [E N].
  rewrite (weighted_bag_count category _ N), E. reflexivity.
Qed.
End Categories.

(** Current is listed at 40 and then at 70: it counts for 70. *)
Lemma category_percentages_last_wins_witness :
  RotationAuditor.lookup "Current"
    (RulesEngine.get_category_for_hour Examples.engine_morning (Some 8))
  = Some 70
  /\ NoDup (map fst (RulesEngine.get_category_for_hour
                       Examples.engine_morning (Some 8))).
Proof.
  apply (category_percentages_last_wins Examples.engine_morning (Some 8)
           Examples.morning_drive "Current").
  reflexivity.
Defined.

Lemma weighted_bag_holds_percentages_witness :
  count_occ string_dec
    (RulesEngine.weighted_bag
       (RulesEngine.get_category_for_hour Examples.engine_morning (Some 8)))
    "Current"
  = 70%nat.
Proof.
  apply (weighted_bag_holds_percentages Examples.engine_morning (Some 8)
           Examples.morning_drive "Current").
  reflexivity.
Defined.

(* ================================================================== *)
(** ** What the selection returns *)
(* ================================================================== *)

Section SelectionSound.
Import RulesEngine.
Variables (self : t) (context : Context.t).






Lemma only_ticks_try_categories excluded cats :
  only_ticks (try_categories self context excluded cats).
Proof.
  induction cats as [|c l IH]; simpl; [ticks|].
  apply only_ticks_bind; [apply only_ticks_get_eligible_songs|].
  intros songs.
  apply only_ticks_bind; [apply only_ticks_first_playable|].
  intros found. destruct found; [ticks|exact IH].
Qed.

(** X17. Selecting a song changes nothing but the number of readings
    of the clock: the tables are as they were, no play is logged and
    the song returned is not marked as played. *)
Theorem select_next_song_reads_only (w : World.t) :
  exists n, after (select_next_song self context) w = World.at_tick n w.
Proof.
  unfold after.
  assert (only_ticks (select_next_song self context)) as H.
  { unfold select_next_song. destruct (db self); [|ticks].
    apply only_ticks_bind; [apply only_ticks_current_hour|].
    intros h.
    apply only_ticks_bind; [unfold random_shuffle; ticks|].
    intros cats. apply only_ticks_try_categories. }
  apply H.
Qed.

End SelectionSound.


(* ================================================================== *)
(** ** What the audit lists as violations *)
(* ================================================================== *)

Section Slices.

Lemma firstn_sorted {X : Type} (R : X -> X -> Prop) (n : nat) (l : list X) :
  StronglySorted R l -> StronglySorted R (firstn n l).
Proof.
  intros H. revert n. induction H as [|x l Hl IH Hx]; intros [|n]; simpl;
    try constructor.
  - apply IH.
  - rewrite Forall_forall in *. intros y Hy. apply Hx.
    rewrite <- (firstn_skipn n l). apply in_or_app. left. exact Hy.
Qed.

Lemma slice_to_sorted {X : Type} (R : X -> X -> Prop) (b : Z) (l : list X) :
  StronglySorted R l -> StronglySorted R (Py.slice_to b l).
Proof. unfold Py.slice_to. apply firstn_sorted. Qed.

Lemma slice_to_In {X : Type} (b : Z) (l : list X) (x : X) :
  In x (Py.slice_to b l) -> In x l.
Proof.
  unfold Py.slice_to. intros H.
  rewrite <- (firstn_skipn (Z.to_nat (if b <? 0
                                      then Z.max (Py.len l + b) 0
                                      else Z.min b (Py.len l))) l).
  apply in_or_app. left. exact H.
Qed.

Lemma slice_to_length {X : Type} (b : Z) (l : list X) :
  0 <= b -> Py.len (Py.slice_to b l) <= b.
Proof.
  intros Hb. rewrite slice_to_firstn by exact Hb.
  unfold Py.len. rewrite length_firstn. lia.
Qed.
End Slices.

Section AuditChecks.
Import RotationAuditor.

Lemma enumerate_In {A : Type} (start i : nat) (x : A) (l : list A) :
  In (i, x) (Py.enumerate start l) -> In x l.
Proof.
  revert start. induction l as [|y l IH]; intros start; simpl; [auto|].
  intros [E|H]; [left; congruence|right; exact (IH _ H)].
Qed.

(** X18. Every entry of the violation pass is a separation or a
    dayparting violation of severity critical, or an hourly or a genre
    violation of severity error: what the tempo and the gender checks
    find, and the warnings of the hourly and the genre checks, never
    reach the report. The entry carries the time of a play of the list
    and the title and artist of its song. *)
Theorem audit_violations_kinds (self : t) (plays : list PlayLog.t)
    (w : World.t) (e : ViolationEntry.t) :
  In e (value (_find_violations self plays) w) ->
  In (ViolationEntry.rule_type e, ViolationEntry.severity e) Checks.audit_kinds
  /\ exists play song,
       In play plays
       /\ PlayLog.song play = Some song
       /\ ViolationEntry.timestamp e = PlayLog.played_at play
       /\ ViolationEntry.song e = Song.title song
       /\ ViolationEntry.artist e = Song.artist song.
Proof.
  unfold value, _find_violations.
  destruct (rules_engine self) as [engine|]; [|intros []].
  rewrite bind_run. cbn [ret fst]. intros He. apply slice_to_In in He.
  revert He. generalize e. generalize w.
  change (yields
            (fun e =>
               In (ViolationEntry.rule_type e, ViolationEntry.severity e)
                  Checks.audit_kinds
               /\ exists play song,
                    In play plays
                    /\ PlayLog.song play = Some song
                    /\ ViolationEntry.timestamp e = PlayLog.played_at play
                    /\ ViolationEntry.song e = Song.title song
                    /\ ViolationEntry.artist e = Song.artist song)
            (for_each (audit_play engine (Py.sorted PlayLog.played_at plays))
                      (Py.enumerate 1 (tl (Py.sorted PlayLog.played_at plays))))).
  apply yields_for_each_in. intros [i play] Hin.
  apply enumerate_In in Hin.
  assert (In play plays) as Hplay.
  { apply (Permutation_in _ (Permutation_sym
                               (sorted_perm PlayLog.played_at plays))).
    destruct (Py.sorted PlayLog.played_at plays); [destruct Hin|].
    right. exact Hin. }
  unfold audit_play.
  destruct (PlayLog.song play) as [song|] eqn:Es; [|apply yields_nil].
  intros w' e'. rewrite bind_run. cbn [ret fst].
  rewrite in_map_iff. intros [v [<- Hv]].
  apply filter_In in Hv. destruct Hv as [Hv Hr].
  apply can_play_song_known in Hv.
  split.
  - unfold Checks.known, Checks.kind in Hv. unfold reportable in Hr.
    cbn [entry_of ViolationEntry.rule_type ViolationEntry.severity].
    destruct (RuleViolation.severity v); [discriminate| |];
      cbn in Hv |- *;
      repeat match goal with
             | H : _ \/ _ |- _ => destruct H as [H|H]
             | H : (_, _) = (_, _) |- _ =>
                 first [discriminate H | injection H as <-]
             | H : False |- _ => destruct H
             end; tauto.
  - exists play, song. repeat split; [exact Hplay|exact Es].
Qed.
End AuditChecks.

(** The explicit song aired twice; the second airing is checked. *)
Lemma audit_violations_kinds_witness :
  In Examples.explicit_entry
     (value (RotationAuditor._find_violations Examples.auditor_clean
               [Examples.explicit_play; Examples.explicit_replay])
            Examples.world_clean)
  /\ In (ViolationEntry.rule_type Examples.explicit_entry,
         ViolationEntry.severity Examples.explicit_entry)
        Checks.audit_kinds.
Proof.
  split; [vm_compute; left; reflexivity|].
  apply (audit_violations_kinds Examples.auditor_clean
           [Examples.explicit_play; Examples.explicit_replay]
           Examples.world_clean Examples.explicit_entry).
  vm_compute. left. reflexivity.
Defined.

(* ================================================================== *)
(** ** When a weekly report fails, and what it saves *)
(* ================================================================== *)

Section WeeklyRuns.
Import RotationAuditor.


Lemma hourly_loop_fails plays :
  fold_left
    (fun acc play =>
       match acc with
       | Some hourly =>
           count_hour (hour_of_play play) (category_of_play play) hourly
       | None => None
       end)
    plays None
  = None.
Proof. induction plays as [|p l IH]; simpl; [reflexivity|exact IH]. Qed.



End WeeklyRuns.

(* ================================================================== *)
(** ** The breakdowns count the plays *)
(* ================================================================== *)

Section Counters.
Import RotationAuditor.

Lemma lookup_incr (k c : string) (d : list (string * Z)) :
  lookup c (incr k d)
  = if String.eqb c k then Some (Py.default_to 0 (lookup c d) + 1)
    else lookup c d.
Proof.
  unfold incr. induction d as [|[k' n] d IH]; simpl.
  - destruct (String.eqb c k); reflexivity.
  - destruct (String.eqb_spec k k') as [->|Hk]; simpl.
    + destruct (String.eqb c k'); reflexivity.
    + rewrite IH. destruct (String.eqb_spec c k') as [->|Hc]; [|reflexivity].
      destruct (String.eqb_spec k' k); [congruence|reflexivity].
Qed.

Lemma keys_incr (k : string) (d : list (string * Z)) :
  NoDup (map fst d) ->
  NoDup (map fst (incr k d))
  /\ forall c, In c (map fst (incr k d)) <-> c = k \/ In c (map fst d).
Proof.
  unfold incr. induction d as [|[k' n] d IH]; simpl; intros H.
  - split; [repeat constructor; intros []|]. intros c. intuition.
  - inversion H as [|? ? Hk' Hd]; subst.
    destruct (String.eqb_spec k k') as [->|Hk]; simpl.
    + split; [exact H|]. intros c. intuition.
    + destruct (IH Hd) as [N I]. split.
      * constructor; [|exact N]. rewrite I.
        intros [E|E]; [congruence|contradiction].
      * intros c. rewrite I. intuition.
Qed.

Lemma tally_fold {X : Type} (f : X -> string) (c : string) (l : list X)
    (d : list (string * Z)) :
  NoDup (map fst d) ->
  lookup c (fold_left (fun d x => incr (f x) d) l d)
  = (let n := Py.len (filter (fun x => String.eqb (f x) c) l) in
     match lookup c d with
     | Some m => Some (m + n)
     | None => if n =? 0 then None else Some n
     end)
  /\ NoDup (map fst (fold_left (fun d x => incr (f x) d) l d)).
Proof.
  revert d. induction l as [|x l IH]; intros d Hd; cbn [fold_left filter].
  - split; [|exact Hd]. cbn. destruct (lookup c d) as [m|]; [|reflexivity].
    f_equal. lia.
  - destruct (keys_incr (f x) d Hd) as [N _].
    destruct (IH _ N) as [E N']. split; [|exact N'].
    rewrite E. cbv zeta. rewrite lookup_incr, (String.eqb_sym (f x) c).
    destruct (String.eqb c (f x)).
    + unfold Py.len. cbn [List.length]. rewrite Nat2Z.inj_succ.
      destruct (lookup c d) as [m|]; cbn [Py.default_to].
      * f_equal. lia.
      * destruct (Z.eqb_spec (Z.succ (Z.of_nat (List.length
                    (filter (fun x0 => String.eqb (f x0) c) l)))) 0); [lia|].
        f_equal. lia.
    + reflexivity.
Qed.

Lemma lookup_shares (c : string) (total : Z) (counts : list (string * Z)) :
  lookup c (shares total counts)
  = option_map (fun n => Share.mk n (percent n total)) (lookup c counts)
  /\ map fst (shares total counts) = map fst counts.
Proof.
  unfold shares. induction counts as [|[k n] l [IH K]]; simpl; [auto|].
  split; [|f_equal; exact K].
  destruct (String.eqb c k); [reflexivity|exact IH].
Qed.

Lemma count_by_lookup attr value plays :
  lookup value (count_by attr plays)
  = (if Tally.plays_with attr value plays =? 0 then None
     else Some (Tally.plays_with attr value plays))
  /\ NoDup (map fst (count_by attr plays)).
Proof.
  unfold count_by, Tally.plays_with.
  apply (tally_fold (fun p => Py.str_or "Unknown" (attr (snd p))) value
           (song_plays plays) []).
  constructor.
Qed.

Lemma breakdown_lookup attr value plays :
  lookup value (shares (total_or_1 plays) (count_by attr plays))
  = Tally.share_of (Tally.plays_with attr value plays) (total_or_1 plays)
  /\ NoDup (map fst (shares (total_or_1 plays) (count_by attr plays))).
Proof.
  destruct (lookup_shares value (total_or_1 plays) (count_by attr plays))
    as [E K].
  destruct (count_by_lookup attr value plays) as [E' N].
  rewrite E, K, E'. split; [|exact N].
  unfold Tally.share_of.
  destruct (Tally.plays_with attr value plays =? 0); reflexivity.
Qed.

Lemma lookup_In {X : Type} (c : string) (v : X) (d : list (string * X)) :
  NoDup (map fst d) -> (lookup c d = Some v <-> In (c, v) d).
Proof.
  induction d as [|[k x] d IH]; simpl; intros H.
  - split; [discriminate|intros []].
  - inversion H as [|? ? Hk Hd]; subst.
    destruct (String.eqb_spec c k) as [->|Hne].
    + split.
      * intros E. injection E as <-. left. reflexivity.
      * intros [E|E]; [congruence|].
        exfalso. apply Hk. apply in_map_iff. exists (k, v). auto.
    + rewrite (IH Hd). split; [auto|].
      intros [E|E]; [congruence|exact E].
Qed.

Lemma lookup_perm {X : Type} (c : string) (d d' : list (string * X)) :
  NoDup (map fst d) -> Permutation d d' -> lookup c d = lookup c d'.
Proof.
  intros N P.
  assert (NoDup (map fst d')) as N'.
  { apply (Permutation_NoDup (Permutation_map fst P) N). }
  destruct (lookup c d) as [v|] eqn:E.
  - apply (lookup_In c v d N) in E. symmetry.
    apply (lookup_In c v d' N'). apply (Permutation_in _ P E).
  - destruct (lookup c d') as [v|] eqn:E'; [|reflexivity].
    apply (lookup_In c v d' N') in E'.
    apply (Permutation_in _ (Permutation_sym P)) in E'.
    apply (lookup_In c v d N) in E'. congruence.
Qed.

Lemma sorted_desc_sorted {X : Type} (key : X -> Z) (l : list X) :
  StronglySorted (fun a b => key b <= key a) (Py.sorted_desc key l).
Proof.
  unfold Py.sorted_desc.
  pose proof (sorted_sorted (fun x => - key x) l) as H.
  induction H as [|x s Hs IH Hx]; constructor; [exact IH|].
  rewrite Forall_forall in *. intros y Hy. specialize (Hx y Hy). lia.
Qed.

Lemma map_sorted {X Y : Type} (f : X -> Y) (R : Y -> Y -> Prop) (l : list X) :
  StronglySorted (fun a b => R (f a) (f b)) l -> StronglySorted R (map f l).
Proof.
  induction 1 as [|x s Hs IH Hx]; simpl; constructor; [exact IH|].
  rewrite Forall_forall in *. intros y Hy. apply in_map_iff in Hy.
  destruct Hy as [z [<- Hz]]. apply Hx. exact Hz.
Qed.

Lemma genre_breakdown_lookup (plays : list PlayLog.t) (value : string) :
  lookup value (_analyze_genre plays)
  = Tally.share_of (Tally.plays_with Song.genre value plays)
                   (total_or_1 plays)
  /\ NoDup (map fst (_analyze_genre plays))
  /\ StronglySorted Tally.more_plays (_analyze_genre plays).
Proof.
  unfold _analyze_genre.
  destruct (count_by_lookup Song.genre value plays) as [E N].
  pose proof (sorted_perm (fun x : string * Z => - snd x)
                (count_by Song.genre plays)) as P.
  fold (Py.sorted_desc snd (count_by Song.genre plays)) in P.
  destruct (lookup_shares value (total_or_1 plays)
              (Py.sorted_desc snd (count_by Song.genre plays))) as [El K].
  split; [|split].
  - rewrite El, <- (lookup_perm value _ _ N P), E.
    unfold Tally.share_of.
    destruct (Tally.plays_with Song.genre value plays =? 0); reflexivity.
  - rewrite K. apply (Permutation_NoDup (Permutation_map fst P) N).
  - unfold shares. apply map_sorted. unfold Tally.more_plays.
    cbn [snd Share.plays]. apply (sorted_desc_sorted snd).
Qed.

(** X21. In the gender, tempo and genre breakdowns a value has an entry
    exactly when some play of the list has a song with that value, a
    missing value counting as "Unknown"; the entry holds the number of
    those plays and their share of all the plays of the list, and no
    value has two entries. The genre breakdown is in descending order
    of plays. *)
Theorem breakdowns_count_plays (plays : list PlayLog.t) (value : string) :
  (lookup value (_analyze_gender plays)
   = Tally.share_of (Tally.plays_with Song.gender value plays)
                    (total_or_1 plays)
   /\ NoDup (map fst (_analyze_gender plays)))
  /\ (lookup value (_analyze_tempo plays)
      = Tally.share_of (Tally.plays_with Song.tempo value plays)
                       (total_or_1 plays)
      /\ NoDup (map fst (_analyze_tempo plays)))
  /\ (lookup value (_analyze_genre plays)
      = Tally.share_of (Tally.plays_with Song.genre value plays)
                       (total_or_1 plays)
      /\ NoDup (map fst (_analyze_genre plays))
      /\ StronglySorted Tally.more_plays (_analyze_genre plays)).
Proof.
  split; [apply breakdown_lookup|].
  split; [apply breakdown_lookup|apply genre_breakdown_lookup].
Qed.

(** *** The hourly distribution *)

Lemma count_hour_spec hour category hourly hourly' :
  NoDup (map fst hourly) ->
  count_hour hour category hourly = Some hourly' ->
  map fst hourly' = map fst hourly
  /\ forall h e', In (h, e') hourly' ->
       exists e, In (h, e) hourly
                 /\ HourlyEntry.plays e'
                    = HourlyEntry.plays e + (if hour =? h then 1 else 0).
Proof.
  revert hourly'. induction hourly as [|[h0 e0] rest IH]; simpl;
    intros hourly' N H; [discriminate|].
  inversion N as [|? ? Hk Hd]; subst.
  destruct (Z.eqb_spec hour h0) as [->|Hne].
  - injection H as <-. split; [reflexivity|].
    intros h e' [E|E].
    + injection E as <- <-. exists e0. split; [left; reflexivity|].
      rewrite Z.eqb_refl. reflexivity.
    + exists e'. split; [right; exact E|].
      destruct (Z.eqb_spec h0 h) as [<-|_]; [|lia].
      exfalso. apply Hk. apply in_map_iff. exists (h0, e'). auto.
  - destruct (count_hour hour category rest) as [rest'|] eqn:Er;
      [|discriminate].
    injection H as <-. destruct (IH rest' Hd eq_refl) as [K I].
    split; [simpl; congruence|].
    intros h e' [E|E].
    + injection E as <- <-. exists e0. split; [left; reflexivity|].
      destruct (Z.eqb_spec hour h0); [congruence|lia].
    + destruct (I h e' E) as [e [Hin Hp]]. exists e. split; [right; exact Hin|exact Hp].
Qed.

Lemma hourly_loop_spec plays hourly0 hourly :
  NoDup (map fst hourly0) ->
  fold_left
    (fun acc play =>
       match acc with
       | Some hourly =>
           count_hour (hour_of_play play) (category_of_play play) hourly
       | None => None
       end)
    plays (Some hourly0)
  = Some hourly ->
  map fst hourly = map fst hourly0
  /\ forall h e, In (h, e) hourly ->
       exists e0, In (h, e0) hourly0
                  /\ HourlyEntry.plays e
                     = HourlyEntry.plays e0 + Tally.plays_in_hour h plays.
Proof.
  revert hourly0. induction plays as [|play plays IH]; intros hourly0 N H.
  - injection H as <-. split; [reflexivity|].
    intros h e Hin. exists e. split; [exact Hin|]. cbn. lia.
  - cbn [fold_left] in H.
    destruct (count_hour (hour_of_play play) (category_of_play play) hourly0)
      as [hourly1|] eqn:E1.
    + destruct (count_hour_spec _ _ _ _ N E1) as [K1 I1].
      assert (NoDup (map fst hourly1)) as N1 by (rewrite K1; exact N).
      destruct (IH hourly1 N1 H) as [K I].
      split; [congruence|].
      intros h e Hin. destruct (I h e Hin) as [e1 [Hin1 Hp1]].
      destruct (I1 h e1 Hin1) as [e0 [Hin0 Hp0]].
      exists e0. split; [exact Hin0|].
      rewrite Hp1, Hp0. unfold Tally.plays_in_hour, count_if, Py.len.
      cbn [filter].
      destruct (hour_of_play play =? h); cbn [List.length]; lia.
    + rewrite hourly_loop_fails in H. discriminate.
Qed.

Lemma range_NoDup (n : nat) : NoDup (Py.range n).
Proof.
  unfold Py.range. generalize 0%nat.
  induction n as [|n IH]; intros start; simpl; constructor; [|apply IH].
  rewrite in_map_iff. intros [k [E Hk]]. apply in_seq in Hk. lia.
Qed.

(** X22. An hourly distribution that is returned has the 24 hours 0-23
    as its keys, in order, and the entry of an hour holds the number of
    plays counted under that hour ([play.hour], or the hour of
    [played_at] when the column is empty or zero). *)
Theorem hourly_distribution_counts (plays : list PlayLog.t)
    (hourly : list (Z * HourlyEntry.t)) :
  _analyze_hourly plays = Some hourly ->
  map fst hourly = Py.range 24
  /\ forall h entry, In (h, entry) hourly ->
       HourlyEntry.plays entry = Tally.plays_in_hour h plays.
Proof.
  unfold _analyze_hourly. intros H.
  assert (map fst (map (fun h => (h, HourlyEntry.mk 0 [])) (Py.range 24))
          = Py.range 24) as K.
  { rewrite map_map. apply map_id. }
  apply hourly_loop_spec in H; [|rewrite K; apply range_NoDup].
  destruct H as [K' I]. split; [congruence|].
  intros h entry Hin. destruct (I h entry Hin) as [e0 [Hin0 Hp]].
  apply in_map_iff in Hin0. destruct Hin0 as [z [E _]].
  injection E as _ <-. rewrite Hp. reflexivity.
Qed.

End Counters.

Lemma hourly_distribution_counts_witness :
  exists hourly,
    RotationAuditor._analyze_hourly Examples.gold_plays = Some hourly
    /\ map fst hourly = Py.range 24
    /\ forall h entry, In (h, entry) hourly ->
         HourlyEntry.plays entry = Tally.plays_in_hour h Examples.gold_plays.
Proof.
  eexists. split; [vm_compute; reflexivity|].
  apply (hourly_distribution_counts Examples.gold_plays).
  vm_compute. reflexivity.
Defined.

(* ================================================================== *)
(** ** Underplayed and overplayed songs, top songs and top artists *)
(* ================================================================== *)

Section Rankings.
Import RotationAuditor.

(** *** Underplayed songs *)

Lemma underplayed_entry_spec plays song e :
  In e (underplayed_entry plays song) ->
  Underplayed.song_id e = Song.id song
  /\ Underplayed.actual_plays e = Tally.plays_of song plays
  /\ Tally.expected_of song = Some (Underplayed.expected_plays e)
  /\ Underplayed.actual_plays e < Underplayed.expected_plays e.
Proof.
  unfold underplayed_entry, Tally.expected_of, Tally.plays_of.
  unfold RulesEngine.opt_mem, Py.opt_str_eqb.
  destruct (Song.category song) as [c|]; [|intros []].
  cbn [Py.mem_str existsb].
  destruct (String.eqb_spec c "Current") as [->|Hc].
  - cbn [orb].
    destruct (Z.ltb_spec (count_if (fun p => PlayLog.song_id p =? Song.id song)
                                   plays) 7); [|intros []].
    intros [<-|[]]. cbn. auto.
  - destruct (String.eqb_spec c "Power Gold") as [->|Hp]; [|intros []].
    cbn [orb].
    destruct (Z.ltb_spec (count_if (fun p => PlayLog.song_id p =? Song.id song)
                                   plays) 3); [|intros []].
    intros [<-|[]]. cbn. auto.
Qed.

(** X23. The underplayed list has at most 20 entries, in ascending
    order of plays; each is for a song of the library whose category is
    Current, expected 7 times, or Power Gold, expected 3 times, and
    whose plays in the list, counted by [song_id], are fewer than
    expected. *)
Theorem underplayed_songs_sound (plays : list PlayLog.t)
    (all_songs : list Song.t) :
  let result := _find_underplayed plays all_songs in
  Py.len result <= 20
  /\ StronglySorted
       (fun a b => Underplayed.actual_plays a <= Underplayed.actual_plays b)
       result
  /\ forall e, In e result ->
       exists song,
         In song all_songs
         /\ Underplayed.song_id e = Song.id song
         /\ Underplayed.actual_plays e = Tally.plays_of song plays
         /\ Tally.expected_of song = Some (Underplayed.expected_plays e)
         /\ Underplayed.actual_plays e < Underplayed.expected_plays e.
Proof.
  intros result. unfold result, _find_underplayed.
  split; [apply slice_to_length; lia|]. split.
  - apply slice_to_sorted. apply sorted_sorted.
  - intros e He. apply slice_to_In in He.
    apply (Permutation_in _ (Permutation_sym (sorted_perm _ _))) in He.
    apply in_flat_map in He. destruct He as [song [Hs He]].
    exists song. split; [exact Hs|].
    apply underplayed_entry_spec. exact He.
Qed.

(** X24. When no more than 20 songs are short of their expected plays,
    every Current song of the library with fewer than 7 plays and every
    Power Gold song with fewer than 3 is in the underplayed list. *)
Theorem underplayed_songs_complete (plays : list PlayLog.t)
    (all_songs : list Song.t) (song : Song.t) (expected : Z) :
  In song all_songs ->
  Tally.expected_of song = Some expected ->
  Tally.plays_of song plays < expected ->
  Py.len (flat_map (underplayed_entry plays) all_songs) <= 20 ->
  In (Underplayed.mk (Song.title song) (Song.artist song)
        (Song.category song) (Tally.plays_of song plays) expected
        (Song.id song))
     (_find_underplayed plays all_songs).
Proof.
  intros Hin He Hlt Hlen. unfold _find_underplayed.
  rewrite slice_to_firstn by lia.
  rewrite firstn_all2.
  2:{ rewrite <- (Permutation_length (sorted_perm _ _)).
      unfold Py.len in Hlen. lia. }
  apply (Permutation_in _ (sorted_perm _ _)).
  apply in_flat_map. exists song. split; [exact Hin|].
  unfold underplayed_entry, Tally.expected_of, Tally.plays_of in *.
  unfold RulesEngine.opt_mem, Py.opt_str_eqb.
  destruct (Song.category song) as [c|]; [|discriminate].
  cbn [Py.mem_str existsb].
  destruct (String.eqb_spec c "Current") as [E|Hc].
  - subst c. injection He as <-. cbn [orb].
    destruct (Z.ltb_spec (count_if (fun p => PlayLog.song_id p =? Song.id song)
                                   plays) 7); [|lia].
    left. reflexivity.
  - destruct (String.eqb_spec c "Power Gold") as [E|Hp].
    + subst c. injection He as <-. cbn [orb].
      destruct (Z.ltb_spec (count_if (fun p => PlayLog.song_id p =? Song.id song)
                                     plays) 3); [|lia].
      left. reflexivity.
    + discriminate.
Qed.
End Rankings.

Lemma underplayed_songs_complete_witness :
  In (Underplayed.mk "Track" "Artist" (Some "Current") 0 7 8)
     (RotationAuditor._find_underplayed Examples.week_plays
        Examples.week_library).
Proof.
  apply (underplayed_songs_complete Examples.week_plays Examples.week_library
           (Examples.current_song 8) 7).
  - vm_compute. tauto.
  - reflexivity.
  - vm_compute. reflexivity.
  - vm_compute. discriminate.
Defined.

Section OverplayedSongs.
Import RotationAuditor.

Lemma close_gaps_bounds (m : Z) (l : list PlayLog.t) :
  0 <= close_gaps m l /\ (l <> [] -> close_gaps m l < Py.len l).
Proof.
  unfold Py.len.
  induction l as [|p l IH]; [split; [reflexivity|congruence]|].
  destruct l as [|q l].
  - cbn. split; [lia|intros _; lia].
  - destruct IH as [H0 H1]. specialize (H1 ltac:(discriminate)).
    change (close_gaps m (p :: q :: l))
      with ((if Datetime.minutes_since_lt (PlayLog.played_at q)
                  (PlayLog.played_at p) m then 1 else 0)
            + close_gaps m (q :: l)).
    change (List.length (p :: q :: l)) with (S (List.length (q :: l))).
    rewrite Nat2Z.inj_succ.
    destruct (Datetime.minutes_since_lt _ _ _);
      (split; [lia|intros _; lia]).
Qed.

Lemma overplayed_entry_bounds session m item e :
  In e (overplayed_entry session m item) ->
  1 <= Overplayed.separation_violations e < Overplayed.total_plays e.
Proof.
  unfold overplayed_entry. destruct item as [song_id l].
  destruct (song_by_id session song_id) as [song|]; [|intros []].
  destruct (Z.ltb_spec 0 (close_gaps m (Py.sorted PlayLog.played_at l)))
    as [Hpos|]; [|intros []].
  intros [<-|[]]. cbn.
  destruct (close_gaps_bounds m (Py.sorted PlayLog.played_at l)) as [_ H].
  assert (Py.len (Py.sorted PlayLog.played_at l) = Py.len l) as El.
  { unfold Py.len. rewrite <- (Permutation_length (sorted_perm _ l)).
    reflexivity. }
  rewrite El in H. split; [lia|]. apply H.
  intros E. rewrite E in Hpos. cbn in Hpos. lia.
Qed.

(** X25. The overplayed list has at most [limit] entries, in
    descending order of separation violations; an entry counts at
    least one pair of consecutive plays of its song closer than the
    song separation, and fewer such pairs than the song has plays. *)
Theorem overplayed_songs_sound (self : t) (plays : list PlayLog.t)
    (session : list Song.t) (limit : Z) :
  let result := _find_overplayed self plays session limit in
  (0 <= limit -> Py.len result <= limit)
  /\ StronglySorted
       (fun a b => Overplayed.separation_violations b
                   <= Overplayed.separation_violations a)
       result
  /\ forall e, In e result ->
       1 <= Overplayed.separation_violations e < Overplayed.total_plays e.
Proof.
  intros result. unfold result, _find_overplayed.
  split; [apply slice_to_length|]. split.
  - apply slice_to_sorted. apply sorted_desc_sorted.
  - intros e He. apply slice_to_In in He.
    unfold Py.sorted_desc in He.
    apply (Permutation_in _ (Permutation_sym (sorted_perm _ _))) in He.
    apply in_flat_map in He. destruct He as [item [_ He]].
    apply overplayed_entry_bounds in He. exact He.
Qed.
End OverplayedSongs.

Section TopLists.
Import RotationAuditor.

Lemma rank_songs_spec session counts acc :
  map TopSong.rank acc = Tally.ranks (List.length acc) ->
  let found :=
    filter (fun c => match song_by_id session (fst c) with
                     | Some _ => true
                     | None => false
                     end) counts in
  map TopSong.rank (rank_songs session counts acc)
  = Tally.ranks (List.length (rank_songs session counts acc))
  /\ map TopSong.plays (rank_songs session counts acc)
     = map TopSong.plays acc ++ map snd found.
Proof.
  revert acc. induction counts as [|[song_id count] rest IH]; intros acc H;
    cbn [rank_songs filter fst].
  - cbn. rewrite app_nil_r. auto.
  - destruct (song_by_id session song_id) as [song|].
    + match goal with
      | |- context [rank_songs session rest ?a] => specialize (IH a)
      end.
      destruct IH as [R P].
      { rewrite map_app, H, length_app. cbn [map TopSong.rank List.length].
        unfold Tally.ranks, Py.len. rewrite Nat.add_1_r, seq_S, map_app.
        cbn [map]. do 3 f_equal. lia. }
      split; [exact R|]. rewrite P, map_app, <- app_assoc. reflexivity.
    + apply IH. exact H.
Qed.

(** X26. The top songs number at most [limit], are ranked 1, 2, 3, ...
    without gap, also when a counted song is no longer in the database
    and is left out, and are in descending order of plays. *)
Theorem top_songs_ranked (plays : list PlayLog.t) (session : list Song.t)
    (limit : Z) :
  let result := _get_top_songs plays session limit in
  (0 <= limit -> Py.len result <= limit)
  /\ map TopSong.rank result = Tally.ranks (List.length result)
  /\ StronglySorted (fun a b => b <= a) (map TopSong.plays result).
Proof.
  intros result. unfold result, _get_top_songs.
  match goal with
  | |- context [rank_songs session ?c []] =>
      destruct (rank_songs_spec session c [] eq_refl) as [R P];
      set (counts := c) in *
  end.
  split; [|split; [exact R|]].
  - intros Hl. unfold Py.len.
    rewrite <- (length_map TopSong.plays), P. cbn [map app].
    rewrite length_map.
    pose proof (slice_to_length limit
                  (Py.sorted_desc snd
                     (fold_left (fun d p => incr_id (fst p) d)
                                (song_plays plays) [])) Hl) as Hc.
    fold counts in Hc. unfold Py.len in Hc.
    pose proof (filter_length_le
                  (fun c => match song_by_id session (fst c) with
                            | Some _ => true
                            | None => false
                            end) counts).
    lia.
  - rewrite P. cbn [map app]. apply map_sorted. apply filter_sorted.
    unfold counts. apply slice_to_sorted. apply sorted_desc_sorted.
Qed.

Lemma rank_artists_spec artist_songs counts acc :
  map TopArtist.rank acc = Tally.ranks (List.length acc) ->
  map TopArtist.rank (rank_artists artist_songs counts acc)
  = Tally.ranks (List.length (rank_artists artist_songs counts acc))
  /\ map TopArtist.plays (rank_artists artist_songs counts acc)
     = map TopArtist.plays acc ++ map snd counts
  /\ map TopArtist.artist (rank_artists artist_songs counts acc)
     = map TopArtist.artist acc ++ map fst counts.
Proof.
  revert acc. induction counts as [|[artist count] rest IH]; intros acc H;
    cbn [rank_artists].
  - cbn. rewrite !app_nil_r. auto.
  - match goal with
    | |- context [rank_artists artist_songs rest ?a] => specialize (IH a)
    end.
    destruct IH as [R [P N]].
    { rewrite map_app, H, length_app. cbn [map TopArtist.rank List.length].
      unfold Tally.ranks, Py.len. rewrite Nat.add_1_r, seq_S, map_app.
      cbn [map]. do 3 f_equal. lia. }
    split; [exact R|].
    rewrite P, N, !map_app, <- !app_assoc. split; reflexivity.
Qed.

(** X27. The top artists number at most [limit], are ranked 1, 2, 3,
    ... without gap and in descending order of plays, and no artist is
    listed twice. *)
Theorem top_artists_ranked (plays : list PlayLog.t) (limit : Z) :
  let result := _get_top_artists plays limit in
  (0 <= limit -> Py.len result <= limit)
  /\ map TopArtist.rank result = Tally.ranks (List.length result)
  /\ StronglySorted (fun a b => b <= a) (map TopArtist.plays result)
  /\ NoDup (map TopArtist.artist result).
Proof.
  intros result. unfold result, _get_top_artists.
  match goal with
  | |- context [rank_artists ?s ?c []] =>
      destruct (rank_artists_spec s c [] eq_refl) as [R [P N]];
      set (counts := c) in *
  end.
  cbn [map app] in P, N.
  split; [|split; [exact R|split]].
  - intros Hl. unfold Py.len.
    rewrite <- (length_map TopArtist.plays), P, length_map.
    apply (slice_to_length limit _ Hl).
  - rewrite P. apply map_sorted. unfold counts.
    apply slice_to_sorted. apply sorted_desc_sorted.
  - rewrite N. unfold counts, Py.slice_to.
    match goal with
    | |- NoDup (map fst (firstn ?n ?l)) =>
        rewrite <- (firstn_map fst n l);
        assert (NoDup (map fst l)) as Nl
    end.
    { unfold Py.sorted_desc.
      apply (Permutation_NoDup (Permutation_map fst (sorted_perm _ _))).
      apply (tally_fold (fun p : Z * Song.t => Song.artist (snd p)) ""
               (song_plays plays) []).
      constructor. }
    match goal with
    | |- NoDup (firstn ?n ?l) =>
        rewrite <- (firstn_skipn n l) in Nl;
        apply NoDup_app_remove_r in Nl; exact Nl
    end.
Qed.
End TopLists.

Section SummaryBounds.
Import RotationAuditor.

Lemma nodup_length_le {X : Type} (dec : forall a b : X, {a = b} + {a <> b})
    (l : list X) :
  (List.length (nodup dec l) <= List.length l)%nat.
Proof.
  induction l as [|x l IH]; simpl; [lia|].
  destruct (in_dec dec x l); simpl; lia.
Qed.

Lemma song_plays_length plays :
  (List.length (song_plays plays) <= List.length plays)%nat.
Proof.
  unfold song_plays. induction plays as [|p l IH]; simpl; [lia|].
  rewrite length_app. destruct (PlayLog.song p); simpl; lia.
Qed.

(** X28. In a summary, the unique songs, the unique artists, the
    completed plays and the skipped plays each lie between zero and the
    total plays. *)
Theorem summary_counts_bounded (plays : list PlayLog.t)
    (all_songs : list Song.t) :
  let summary := _calculate_summary plays all_songs in
  0 <= Summary.unique_songs_played summary <= Summary.total_plays summary
  /\ 0 <= Summary.unique_artists_played summary <= Summary.total_plays summary
  /\ 0 <= Summary.completed_plays summary <= Summary.total_plays summary
  /\ 0 <= Summary.skipped_plays summary <= Summary.total_plays summary.
Proof.
  intros summary. unfold summary, _calculate_summary.
  cbn [Summary.unique_artists_played Summary.unique_songs_played
       Summary.total_plays Summary.completed_plays Summary.skipped_plays].
  unfold distinct_ids, distinct_names, count_if, Py.len.
  pose proof (song_plays_length plays) as Hs.
  pose proof (nodup_length_le Z.eq_dec (map fst (song_plays plays))) as H1.
  pose proof (nodup_length_le string_dec
                (map (fun p => Song.artist (snd p)) (song_plays plays))) as H2.
  rewrite length_map in H1, H2.
  pose proof (filter_length_le PlayLog.completed plays) as H3.
  pose proof (filter_length_le PlayLog.skipped plays) as H4.
  repeat split; lia.
Qed.
End SummaryBounds.

(* ================================================================== *)
(** ** Quick statistics *)
(* ================================================================== *)

Section QuickStatsFacts.
Import RotationAuditor.

Lemma incr_total (k : string) (d : list (string * Z)) :
  Tally.total (incr k d) = Tally.total d + 1.
Proof.
  unfold Tally.total, incr.
  induction d as [|[k' n] d IH]; simpl; [reflexivity|].
  destruct (String.eqb k k'); simpl; [lia|]. rewrite IH. lia.
Qed.

Lemma count_by_total attr plays :
  Tally.total (count_by attr plays) = Py.len (song_plays plays).
Proof.
  unfold count_by.
  assert (forall d,
             Tally.total
               (fold_left (fun d p => incr (Py.str_or "Unknown" (attr (snd p))) d)
                          (song_plays plays) d)
             = Tally.total d + Py.len (song_plays plays)) as H.
  { unfold Py.len. induction (song_plays plays) as [|p l IH]; intros d.
    - cbn [fold_left List.length]. lia.
    - cbn [fold_left]. rewrite IH, incr_total.
      change (List.length (p :: l)) with (S (List.length l)). lia. }
  rewrite H. reflexivity.
Qed.

(** X29. [get_quick_stats] raises [ZeroDivisionError] exactly when the
    auditor has a database and [hours] is zero (the clock being a date
    that [datetime] represents): the plays are queried and counted, and
    the division of their number by [hours] fails. *)
Theorem quick_stats_zero_division (self : t) (hours : Z) (w : World.t) :
  value (get_quick_stats self hours) w = Raised ZeroDivisionError
  <-> db self <> None
      /\ hours = 0
      /\ Datetime.datetime_min <= World.clock w (World.ticks w) <= Datetime.datetime_max.
Proof.
  unfold value, get_quick_stats.
  destruct (db self) as [d|].
  2:{ split; [discriminate|]. intros [H _]. contradiction. }
  rewrite bind_run. cbn [utcnow fst snd].
  destruct (Z.eqb_spec hours 0) as [->|Hne].
  - cbn [Datetime.timedelta_hours Z.div Z.leb andb Z.mul].
    change (Datetime.timedelta_hours 0) with (Some 0).
    unfold Datetime.minus. rewrite Z.sub_0_r.
    destruct (Z.leb_spec Datetime.datetime_min (World.clock w (World.ticks w)));
      destruct (Z.leb_spec (World.clock w (World.ticks w)) Datetime.datetime_max);
      cbn [andb ret fst].
    + rewrite bind_run. cbn [ret fst].
      split; [intros _|reflexivity].
      split; [discriminate|]. split; [reflexivity|lia].
    + split; [discriminate|]. intros [_ [_ H']]. lia.
    + split; [discriminate|]. intros [_ [_ H']]. lia.
    + split; [discriminate|]. intros [_ [_ H']]. lia.
  - split; [|intros [_ [H _]]; contradiction].
    destruct (Datetime.timedelta_hours hours) as [delta|]; [|discriminate].
    destruct (Datetime.minus _ delta) as [start|]; [|discriminate].
    rewrite bind_run. cbn [ret fst]. discriminate.
Qed.

(** X30. The statistics that [get_quick_stats] returns are for a
    non-zero [hours] and count the plays logged from [hours] hours
    before the reading of the clock on, with no upper bound: the total
    is their number, the plays per hour is that number divided by
    [hours] and rounded to one decimal, the unique songs and artists
    are at most the total, and the category counters add up to the
    number of plays that have a song. *)
Theorem quick_stats_counts (self : t) (hours : Z) (w : World.t)
    (stats : QuickStats.t) :
  let plays := Tally.plays_of_last hours (World.clock w (World.ticks w)) w in
  value (get_quick_stats self hours) w = Returned (Some stats) ->
  hours <> 0
  /\ QuickStats.period_hours stats = hours
  /\ QuickStats.total_plays stats = Py.len plays
  /\ QuickStats.plays_per_hour stats
     = Py.round1 (Py.true_div (Py.len plays) hours)
  /\ 0 <= QuickStats.unique_songs stats <= QuickStats.total_plays stats
  /\ 0 <= QuickStats.unique_artists stats <= QuickStats.total_plays stats
  /\ Tally.total (QuickStats.categories stats) = Py.len (song_plays plays)
  /\ Tally.total (QuickStats.categories stats) <= QuickStats.total_plays stats.
Proof.
  cbv zeta. unfold value, get_quick_stats.
  destruct (db self) as [d|]; [|discriminate].
  rewrite bind_run. cbn [utcnow fst snd].
  unfold Datetime.timedelta_hours.
  destruct (_ && _); [|discriminate].
  unfold Datetime.minus.
  destruct (_ && _); [|discriminate].
  rewrite bind_run. cbn [plays_since fst snd].
  change (World.play_logs (World.tick w)) with (World.play_logs w).
  fold (Tally.plays_of_last hours (World.clock w (World.ticks w)) w).
  destruct (Z.eqb_spec hours 0) as [|Hne]; [discriminate|].
  cbn [ret fst]. intros E. injection E as <-.
  set (plays := Tally.plays_of_last hours (World.clock w (World.ticks w)) w).
  cbn [QuickStats.period_hours QuickStats.total_plays QuickStats.unique_songs
       QuickStats.unique_artists QuickStats.categories
       QuickStats.plays_per_hour].
  pose proof (song_plays_length plays) as Hs.
  pose proof (nodup_length_le Z.eq_dec (map PlayLog.song_id plays)) as H1.
  pose proof (nodup_length_le string_dec
                (map (fun p => Song.artist (snd p)) (song_plays plays))) as H2.
  rewrite length_map in H1, H2.
  rewrite count_by_total.
  unfold distinct_ids, distinct_names, Py.len.
  repeat split; try lia; try assumption.
Qed.
End QuickStatsFacts.

(** The three Gold plays, counted over 25 hours the next day. *)
Lemma quick_stats_counts_witness :
  exists stats,
    value (RotationAuditor.get_quick_stats Examples.auditor_180 25)
          Examples.world_gold
    = Returned (Some stats)
    /\ QuickStats.total_plays stats = 3
    /\ Tally.total (QuickStats.categories stats) = 3.
Proof.
  eexists. split; [vm_compute; reflexivity|].
  match goal with
  | |- QuickStats.total_plays ?s = _ /\ _ =>
      pose proof (quick_stats_counts Examples.auditor_180 25
                    Examples.world_gold s) as H
  end.
  cbv zeta in H. specialize (H ltac:(vm_compute; reflexivity)).
  split; reflexivity.
Defined.
